(** * TurboTests phase 3: image synthesis (testgen) and answer extraction (testscan)

    A shallow embedding of [phase3/tools/testgen.py] and
    [phase3/tools/testscan.py], followed by the properties of the
    specification that concern them.

    Conventions of the embedding.
    - Python [int] values are [Z]; Python [float] values are idealised as
      exact rationals [Q] (no rounding of intermediate results).
    - A raster image is the list of its rows, [list (list Z)], as in the
      source.  Every pixel read of the source is guarded by a bounds test
      against [len(image)] and [len(image[0])]; on a rectangular image such
      a read is always in range.  [getpx] is total and the properties about
      reading functions are stated for rectangular images.
    - [for] loops are [fold_left] over the list of values of their range,
      nested loops are nested folds.
    - The [random] module, the [math] module and the clock are external to
      the repository: they are interfaces ([RandomSource], [MathLib]) and
      explicit readings ([clock]). *)

From Stdlib Require Import ZArith QArith Qround Qminmax Qabs Lia Lqa Ascii String.
From stdpp Require Import base list gmap strings.

Local Open Scope Z_scope.

(** ** Python primitives *)
Module Py.

(** [int(x)] on a float: truncation toward zero. *)
Definition int (q : Q) : Z := Z.quot (Qnum q) (Zpos (Qden q)).

(** [range(lo, hi)]. *)
Definition range (lo hi : Z) : list Z :=
  map (fun i : nat => lo + Z.of_nat i) (seq 0 (Z.to_nat (hi - lo))).

(** [range(lo, hi, step)] for a positive step. *)
Definition range_step (lo hi step : Z) : list Z :=
  map (fun i : nat => lo + step * Z.of_nat i)
      (seq 0 (Z.to_nat ((hi - lo + step - 1) / step))).

(** Float comparisons as booleans. *)
Definition ltb (a b : Q) : bool := negb (Qle_bool b a).
Definition leb (a b : Q) : bool := Qle_bool a b.
Definition gtb (a b : Q) : bool := ltb b a.
Definition geb (a b : Q) : bool := leb b a.

(** [abs(x)]. *)
Definition abs (q : Q) : Q := Qabs q.

(** [x / y]: raises [ZeroDivisionError] ([None]) when [y] is zero. *)
Definition div (x y : Q) : option Q :=
  if Qeq_bool y 0 then None else Some (x / y)%Q.

(** [round(x)]: nearest integer, ties to the even one. *)
Definition round_half_even (q : Q) : Z :=
  let f := Qfloor q in
  let r := (q - inject_Z f)%Q in
  if ltb r (1 # 2) then f
  else if ltb (1 # 2) r then f + 1
  else if Z.even f then f else f + 1.

(** [round(x, 3)]. *)
Definition round3 (q : Q) : Q :=
  Qred (inject_Z (round_half_even (q * 1000)) / 1000).

(** [round(x, 2)]. *)
Definition round2 (q : Q) : Q :=
  Qred (inject_Z (round_half_even (q * 100)) / 100).

(** [seq[i]] index resolution: negative indices count from the end,
    anything else out of range raises [IndexError] ([None]). *)
Definition index (len : nat) (i : Z) : option nat :=
  if (0 <=? i) && (i <? Z.of_nat len) then Some (Z.to_nat i)
  else if (- Z.of_nat len <=? i) && (i <? 0) then Some (Z.to_nat (Z.of_nat len + i))
  else None.

End Py.

(** ** Raster images *)

Abbreviation image := (list (list Z)) (only parsing).

(** [len(image)]. *)
Definition height (img : image) : Z := Z.of_nat (length img).

(** [len(image[0]) if height > 0 else 0]. *)
Definition width (img : image) : Z :=
  match img with
  | [] => 0
  | row :: _ => Z.of_nat (length row)
  end.

(** [image[y][x]] for an index already checked to be in range. *)
Definition getpx (img : image) (x y : Z) : Z :=
  default 255 (row ← img !! Z.to_nat y; row !! Z.to_nat x).

(** [image[y][x] = v] for an index already checked to be in range. *)
Definition setpx (img : image) (x y v : Z) : image :=
  alter (fun row => <[Z.to_nat x := v]> row) (Z.to_nat y) img.

(** [[[255 for _ in range(w)] for _ in range(h)]]. *)
Definition white (w h : Z) : image :=
  replicate (Z.to_nat h) (replicate (Z.to_nat w) 255).

(** [0 <= x < w and 0 <= y < h]. *)
Definition in_bounds (w h x y : Z) : bool :=
  (0 <=? x) && (x <? w) && (0 <=? y) && (y <? h).

(** The image has [h] rows of [w] pixels each. *)
Definition has_dims (img : image) (w h : Z) : Prop :=
  length img = Z.to_nat h /\ Forall (fun row => length row = Z.to_nat w) img.

(** All rows are as long as the first one. *)
Definition rectangular (img : image) : Prop :=
  Forall (fun row => length row = Z.to_nat (width img)) img.

(** ** External interfaces *)

(** The [random] module: a state and the three draws the tools use.
    [random_random] is in [0, 1), [random_randint a b] in [a, b],
    [random_choice n] is the index picked in a sequence of [n] items. *)
Class RandomSource := {
  rng : Type;
  random_seed : Z -> rng;
  random_random : rng -> Q * rng;
  random_randint : Z -> Z -> rng -> Z * rng;
  random_choice : nat -> rng -> nat * rng;
  random_random_range : forall s, (0 <= fst (random_random s) < 1)%Q;
  random_randint_range : forall a b s, a <= b -> a <= fst (random_randint a b s) <= b;
  random_choice_range : forall n s, (0 < n)%nat -> (fst (random_choice n s) < n)%nat
}.

(** The [math] module. *)
Class MathLib := {
  math_pi : Q;
  math_cos : Q -> Q;
  math_sin : Q -> Q
}.

(** ** Data model: template layout and question order (JSON objects).
    A key read with [d["k"]] is a field, a key read with [d.get("k", _)]
    or tested with ["k" in d] is an optional field. *)

Record mark := {
  mark_x_mm : Q;
  mark_y_mm : Q;
  mark_size_mm : Q
}.

Record answer_field := {
  field_label : string;
  field_x_mm : Q;
  field_y_mm : Q;
  field_type : string;
  field_radius_mm : option Q
}.

Record region := {
  region_x_mm : Q;
  region_y_mm : Q;
  region_width_mm : Q;
  region_height_mm : Q
}.

Record question_layout := {
  question_id : string;
  q_type : string;
  question_number : option Z;
  answer_region : region;
  answer_fields : option (list answer_field);
  ocr_region : option region
}.

Record template_layout := {
  page_dpi : Z;
  registration_marks : list mark;
  questions : list question_layout
}.

Record option_entry := { option_label : string }.

Record order_question := {
  oq_question_id : string;
  oq_correct_answer : string;
  oq_options : option (list option_entry)
}.

(** [versions] maps a version id to its questions; [student_assignments]
    is an insertion-ordered dict, kept as the list of its items. *)
Record question_order := {
  versions : gmap string (list order_question);
  student_assignments : list (string * string)
}.

(** ** Image files *)

(** The sparse JSON object written by [save_compact]. *)
Record sparse_image := {
  sp_width : Z;
  sp_height : Z;
  sp_format : string;
  sp_pixels : list (Z * Z * Z)
}.

(** A plain-text grid file, already split into its tokens: magic token,
    number of comment lines after it, the dimension line, the maximum
    value and one list of integers per row line. *)
Record pgm_file := {
  pgm_magic : string;
  pgm_comments : nat;
  pgm_width : Z;
  pgm_height : Z;
  pgm_maxval : Z;
  pgm_rows : list (list Z)
}.

Inductive file_content :=
  | JsonFile (data : sparse_image)
  | PgmFile (data : pgm_file).

(** [field.get("radius_mm", 3)]. *)
Definition field_radius (f : answer_field) : Q := default 3%Q (field_radius_mm f).

(** ** testgen.py *)
Module TestGen.

(** [TestImageGenerator]: [self.width], [self.height]; [self.dpi] is
    always 300. *)
Record TestImageGenerator := {
  gen_width : Z;
  gen_height : Z
}.

Definition gen_dpi : Z := 300.

Definition mm_to_pixels (mm : Q) : Z :=
  Py.int (mm * inject_Z gen_dpi / (254 # 10)).

Definition create_blank_test (g : TestImageGenerator) : image :=
  white (gen_width g) (gen_height g).

Definition draw_circle (g : TestImageGenerator) (img : image)
    (x y radius : Z) (filled : bool) (value : Z) : image :=
  fold_left (fun img dy =>
    fold_left (fun img dx =>
      if dx * dx + dy * dy <=? radius * radius then
        let px := x + dx in
        let py := y + dy in
        if in_bounds (gen_width g) (gen_height g) px py then
          if filled || ((radius - 2) * (radius - 2) <=? dx * dx + dy * dy)
          then setpx img px py value
          else img
        else img
      else img)
      (Py.range (- radius) (radius + 1)) img)
    (Py.range (- radius) (radius + 1)) img.

Definition draw_rectangle (g : TestImageGenerator) (img : image)
    (x y w h : Z) (value : Z) : image :=
  let img :=
    fold_left (fun img dx =>
      let px := x + dx in
      if (0 <=? px) && (px <? gen_width g) then
        let img :=
          if (0 <=? y) && (y <? gen_height g) then setpx img px y value else img in
        if (0 <=? y + h) && (y + h <? gen_height g)
        then setpx img px (y + h) value else img
      else img)
      (Py.range 0 w) img in
  fold_left (fun img dy =>
    let py := y + dy in
    if (0 <=? py) && (py <? gen_height g) then
      let img :=
        if (0 <=? x) && (x <? gen_width g) then setpx img x py value else img in
      if (0 <=? x + w) && (x + w <? gen_width g)
      then setpx img (x + w) py value else img
    else img)
    (Py.range 0 h) img.

Definition fill_rectangle (g : TestImageGenerator) (img : image)
    (x y w h : Z) (value : Z) : image :=
  fold_left (fun img dy =>
    fold_left (fun img dx =>
      let px := x + dx in
      let py := y + dy in
      if in_bounds (gen_width g) (gen_height g) px py
      then setpx img px py value else img)
      (Py.range 0 w) img)
    (Py.range 0 h) img.

Section Generator.
Context `{RS : RandomSource} `{ML : MathLib}.

Definition _add_noise (g : TestImageGenerator) (img : image)
    (intensity : Z) (s : rng) : image * rng :=
  fold_left (fun st y =>
    fold_left (fun '(img, s) x =>
      let '(r, s) := random_random s in
      if Py.ltb r (1 # 10) then
        let '(noise, s) := random_randint (- intensity) intensity s in
        (setpx img x y (Z.max 0 (Z.min 255 (getpx img x y + noise))), s)
      else (img, s))
      (Py.range_step 0 (gen_width g) 5) st)
    (Py.range_step 0 (gen_height g) 5) (img, s).

(** The body of [for field in q_layout["answer_fields"]]. *)
Definition draw_answer_field (g : TestImageGenerator)
    (answers : gmap string string) (q_id : string)
    (img : image) (field : answer_field) : image :=
  let fx := mm_to_pixels (field_x_mm field) in
  let fy := mm_to_pixels (field_y_mm field) in
  if String.eqb (field_type field) "circle" then
    let radius := mm_to_pixels (field_radius field) in
    let img := draw_circle g img fx fy radius false 0 in
    if bool_decide (answers !! q_id = Some (field_label field)) then
      let fill_radius := radius - 1 in
      draw_circle g img fx fy fill_radius true 50
    else img
  else img.

(** The body of [for q_layout in template_layout["questions"]]. *)
Definition draw_question (g : TestImageGenerator)
    (answers : gmap string string)
    (img : image) (q_layout : question_layout) : image :=
  let q_id := question_id q_layout in
  match answer_fields q_layout with
  | Some fields => fold_left (draw_answer_field g answers q_id) fields img
  | None =>
    match ocr_region q_layout with
    | Some ocr =>
      let ox := mm_to_pixels (region_x_mm ocr) in
      let oy := mm_to_pixels (region_y_mm ocr) in
      let ow := mm_to_pixels (region_width_mm ocr) in
      let oh := mm_to_pixels (region_height_mm ocr) in
      let img := draw_rectangle g img ox oy ow oh 0 in
      if bool_decide (is_Some (answers !! q_id)) then
        fold_left (fun img i =>
          let tx := ox + 5 + i * 10 in
          let ty := oy + oh / 2 in
          fill_rectangle g img tx ty 8 2 80)
          (Py.range 0 5) img
      else img
    | None => img
    end
  end.

Definition generate_test_image (g : TestImageGenerator)
    (layout : template_layout) (answers : gmap string string)
    (add_noise : bool) (s : rng) : image * rng :=
  let img := create_blank_test g in
  let img :=
    fold_left (fun img mark =>
      let x := mm_to_pixels (mark_x_mm mark) in
      let y := mm_to_pixels (mark_y_mm mark) in
      let radius := mm_to_pixels (mark_size_mm mark) in
      draw_circle g img x y radius true 0)
      (registration_marks layout) img in
  let img := fold_left (draw_question g answers) (questions layout) img in
  if add_noise then _add_noise g img 10 s else (img, s).

Definition _apply_rotation (img : image) (angle : Q) : image :=
  let h := height img in
  let w := width img in
  let theta := (- angle * math_pi / 180)%Q in
  let rotated := white w h in
  let cx := (inject_Z w / 2)%Q in
  let cy := (inject_Z h / 2)%Q in
  let cos_theta := math_cos theta in
  let sin_theta := math_sin theta in
  fold_left (fun rotated y =>
    fold_left (fun rotated x =>
      let tx := (inject_Z x - cx)%Q in
      let ty := (inject_Z y - cy)%Q in
      let rx := (tx * cos_theta - ty * sin_theta)%Q in
      let ry := (tx * sin_theta + ty * cos_theta)%Q in
      let src_x := Py.int (rx + cx) in
      let src_y := Py.int (ry + cy) in
      if in_bounds w h src_x src_y
      then setpx rotated x y (getpx img src_x src_y)
      else rotated)
      (Py.range 0 w) rotated)
    (Py.range 0 h) rotated.

Definition _apply_skew (img : image) (skew : Q) : image :=
  let h := height img in
  let w := width img in
  let skewed := white w h in
  fold_left (fun skewed y =>
    let shift := Py.int (skew * (inject_Z y - inject_Z h / 2)) in
    fold_left (fun skewed x =>
      let src_x := x - shift in
      if (0 <=? src_x) && (src_x <? w)
      then setpx skewed x y (getpx img src_x y)
      else skewed)
      (Py.range 0 w) skewed)
    (Py.range 0 h) skewed.

Definition apply_distortions (g : TestImageGenerator) (img : image)
    (rotation skew : Q) (noise_level : Z) (s : rng) : image * rng :=
  let img :=
    if Py.gtb (Py.abs rotation) (1 # 10) then _apply_rotation img rotation else img in
  let img :=
    if Py.gtb (Py.abs skew) (1 # 1000) then _apply_skew img skew else img in
  if 0 <? noise_level then _add_noise g img noise_level s else (img, s).

Definition save_pgm (g : TestImageGenerator) (img : image) : pgm_file :=
  {| pgm_magic := "P2"; pgm_comments := 0;
     pgm_width := gen_width g; pgm_height := gen_height g;
     pgm_maxval := 255; pgm_rows := img |}.

Definition save_compact (g : TestImageGenerator) (img : image) : sparse_image :=
  {| sp_width := gen_width g;
     sp_height := gen_height g;
     sp_format := "sparse";
     sp_pixels :=
       fold_left (fun pixels y =>
         fold_left (fun pixels x =>
           if getpx img x y <? 255
           then pixels ++ [(x, y, getpx img x y)]
           else pixels)
           (Py.range 0 (gen_width g)) pixels)
         (Py.range 0 (gen_height g)) [] |}.

(** *** [main] *)

Record gen_args := {
  arg_accuracy : Q;
  arg_noise : Z;
  arg_rotation : Q;
  arg_skew : Q;
  arg_format : string;
  arg_students : option (list string);
  arg_seed : option Z
}.

(** [if args.seed: random.seed(args.seed)]; otherwise the generator
    keeps the state [ambient] the interpreter gave it at start-up. *)
Definition seed_rng (seed : option Z) (ambient : rng) : rng :=
  match seed with
  | Some n => if n =? 0 then ambient else random_seed n
  | None => ambient
  end.

(** The loop that draws a student's answers. *)
Definition simulate_answers (accuracy : Q) (qs : list order_question)
    (s : rng) : gmap string string * rng :=
  fold_left (fun '(answers, s) q =>
    let q_id := oq_question_id q in
    let correct_answer := oq_correct_answer q in
    let '(r, s) := random_random s in
    if Py.ltb r accuracy then (<[q_id := correct_answer]> answers, s)
    else
      match oq_options q with
      | Some ((_ :: _) as opts) =>
        let wrong_options :=
          map option_label
            (filter (fun opt => option_label opt <> correct_answer) opts) in
        match wrong_options with
        | [] => (<[q_id := correct_answer]> answers, s)
        | _ =>
          let '(i, s) := random_choice (length wrong_options) s in
          (<[q_id := default correct_answer (wrong_options !! i)]> answers, s)
        end
      | _ => (<[q_id := "Wrong Answer"]> answers, s)
      end)
    qs (∅, s).

(** One iteration of [for student_id in student_ids]; a missing
    assignment or version raises [KeyError] ([None]). *)
Definition generate_student (g : TestImageGenerator) (args : gen_args)
    (layout : template_layout) (order : question_order)
    (student_id : string) (s : rng) : option (string * file_content * rng) :=
  version_id ← (list_to_map (student_assignments order) : gmap string string) !! student_id;
  version_data ← versions order !! version_id;
  let '(answers, s) := simulate_answers (arg_accuracy args) version_data s in
  let '(img, s) := generate_test_image g layout answers true s in
  let '(img, s) :=
    apply_distortions g img (arg_rotation args) (arg_skew args) (arg_noise args) s in
  if String.eqb (arg_format args) "pgm" then
    Some (student_id +:+ "_" +:+ version_id +:+ ".pgm", PgmFile (save_pgm g img), s)
  else
    Some (student_id +:+ "_" +:+ version_id +:+ ".json", JsonFile (save_compact g img), s).

(** [main]: the files written, in order. *)
Definition main (args : gen_args) (layout : template_layout)
    (order : question_order) (ambient : rng) : option (list (string * file_content)) :=
  let s := seed_rng (arg_seed args) ambient in
  let student_ids :=
    match arg_students args with
    | Some ids => ids
    | None => map fst (student_assignments order)
    end in
  let g := {| gen_width := 2100; gen_height := 2970 |} in
  fst <$>
    fold_left (fun acc student_id =>
      '(files, s) ← acc;
      '(name, content, s) ← generate_student g args layout order student_id s;
      Some (files ++ [(name, content)], s))
      student_ids (Some ([], s)).

End Generator.

End TestGen.


(** ** testscan.py *)
Module TestScan.

Definition scanner_version : string := "testscan-1.0.0".

Definition _mm_to_pixels (mm : Q) (dpi : Z) : Z :=
  Py.int (mm * inject_Z dpi / (254 # 10)).

(** The sparse branch of [load_image]: a white image, then one store
    [image[y][x] = value] per listed pixel. *)
Definition load_sparse (data : sparse_image) : option image :=
  fold_left (fun acc '(x, y, value) =>
    img ← acc;
    iy ← Py.index (length img) y;
    row ← img !! iy;
    ix ← Py.index (length row) x;
    Some (<[iy := <[ix := value]> row]> img))
    (sp_pixels data)
    (Some (white (sp_width data) (sp_height data))).

(** The plain-text branch of [load_image]. *)
Definition load_pgm (data : pgm_file) : option image :=
  if String.eqb (pgm_magic data) "P2" then Some (pgm_rows data) else None.

(** [load_image], given the suffix of the path and what the file holds;
    [None] stands for a raised exception. *)
Definition load_image (suffix : string) (content : file_content) : option image :=
  if String.eqb suffix ".json" then
    match content with
    | JsonFile data => load_sparse data
    | PgmFile _ => None
    end
  else if String.eqb suffix ".pgm" then
    match content with
    | PgmFile data => load_pgm data
    | JsonFile _ => None
    end
  else None.

(** The counting loop the detectors share: over the square window of
    half-side [r] around [(cx, cy)], every offset selected by [inside]
    whose pixel is in bounds adds one to the total, and one to the hits
    when the pixel satisfies [hit].  Returns [(hits, total)]. *)
Definition count_window (img : image) (cx cy r : Z)
    (inside : Z -> Z -> bool) (hit : Z -> bool) : Z * Z :=
  fold_left (fun st dy =>
    fold_left (fun '(hits, total) dx =>
      if inside dx dy then
        let x := cx + dx in
        let y := cy + dy in
        if in_bounds (width img) (height img) x y then
          (if hit (getpx img x y) then hits + 1 else hits, total + 1)
        else (hits, total)
      else (hits, total))
      (Py.range (- r) (r + 1)) st)
    (Py.range (- r) (r + 1)) (0, 0).

Definition _is_dark_circle (img : image) (cx cy radius : Z) : Q :=
  let h := height img in
  let w := width img in
  if (cx <? radius) || (cy <? radius) || (w - radius <=? cx) || (h - radius <=? cy)
  then 0%Q
  else
    let '(dark_count, total_count) :=
      count_window img cx cy radius
        (fun dx dy => dx * dx + dy * dy <=? radius * radius)
        (fun v => v <? 128) in
    if total_count =? 0 then 0%Q
    else
      let dark_ratio := (inject_Z dark_count / inject_Z total_count)%Q in
      let outer_radius := Py.int (inject_Z radius * (15 # 10)) in
      let '(white_count, outer_count) :=
        count_window img cx cy outer_radius
          (fun dx dy =>
             (radius * radius <? dx * dx + dy * dy)
             && (dx * dx + dy * dy <=? outer_radius * outer_radius))
          (fun v => 200 <? v) in
      let white_ratio :=
        if 0 <? outer_count
        then (inject_Z white_count / inject_Z outer_count)%Q else 0%Q in
      (dark_ratio * (7 # 10) + white_ratio * (3 # 10))%Q.

Record best_match := {
  match_x : Z;
  match_y : Z;
  match_score : Q
}.

Record detected_mark := {
  expected_x : Z;
  expected_y : Z;
  detected_x : option Z;
  detected_y : option Z;
  mark_confidence : Q
}.

(** The search loop of [detect_registration_marks] for one mark:
    returns [(best_score, best_match)]. *)
Definition search_mark (img : image) (expected_x expected_y expected_radius : Z)
    : Q * option best_match :=
  let search_radius := 20 in
  fold_left (fun st dy =>
    fold_left (fun '(best_score, best) dx =>
      let test_x := expected_x + dx in
      let test_y := expected_y + dy in
      let score := _is_dark_circle img test_x test_y expected_radius in
      if Py.gtb score best_score
      then (score, Some {| match_x := test_x; match_y := test_y; match_score := score |})
      else (best_score, best))
      (Py.range_step (- search_radius) (search_radius + 1) 5) st)
    (Py.range_step (- search_radius) (search_radius + 1) 5) (0%Q, None).

(** The body of [for mark in expected_marks]. *)
Definition detect_mark (img : image) (dpi : Z) (m : mark) : detected_mark :=
  let expected_x := _mm_to_pixels (mark_x_mm m) dpi in
  let expected_y := _mm_to_pixels (mark_y_mm m) dpi in
  let expected_radius := _mm_to_pixels (mark_size_mm m) dpi in
  match snd (search_mark img expected_x expected_y expected_radius) with
  | Some best =>
    if Py.gtb (match_score best) (7 # 10) then
      {| expected_x := expected_x; expected_y := expected_y;
         detected_x := Some (match_x best); detected_y := Some (match_y best);
         mark_confidence := match_score best |}
    else
      {| expected_x := expected_x; expected_y := expected_y;
         detected_x := None; detected_y := None; mark_confidence := 0 |}
  | None =>
    {| expected_x := expected_x; expected_y := expected_y;
       detected_x := None; detected_y := None; mark_confidence := 0 |}
  end.

(** [sum(1 for m in detected_marks if m["detected_x"] is not None)]. *)
Definition count_detected (detected_marks : list detected_mark) : Z :=
  Z.of_nat (length (filter (fun m => is_Some (detected_x m)) detected_marks)).

Definition detect_registration_marks (img : image) (expected_marks : list mark)
    (dpi : Z) : list detected_mark * bool :=
  let detected_marks := map (detect_mark img dpi) expected_marks in
  let success := 3 <=? count_detected detected_marks in
  (detected_marks, success).

Definition detect_bubble_fill (img : image) (cx cy radius : Z) (threshold : Q)
    : option (bool * Q) :=
  let h := height img in
  let w := width img in
  if (cx <? 0) || (cy <? 0) || (w <=? cx) || (h <=? cy) then Some (false, 0%Q)
  else
    let check_radius := Z.max 1 (radius - 2) in
    let '(dark_count, total_count) :=
      count_window img cx cy check_radius
        (fun dx dy => dx * dx + dy * dy <=? check_radius * check_radius)
        (fun v => v <? 128) in
    if total_count =? 0 then Some (false, 0%Q)
    else
      let fill_ratio := (inject_Z dark_count / inject_Z total_count)%Q in
      let is_filled := Py.geb fill_ratio threshold in
      if is_filled then
        q ← Py.div fill_ratio threshold;
        Some (is_filled, Qmin (99 # 100) q)
      else
        q ← Py.div fill_ratio threshold;
        Some (is_filled, Qmin (99 # 100) (1 - q)).

Record answer := {
  ans_question_id : string;
  ans_question_number : Z;
  ans_question_type : string;
  extracted_answer : option string;
  confidence : Q;
  extraction_method : string;
  flags : option (list string)
}.

Record rectification := {
  markers_detected : Z;
  markers_expected : Z;
  rectification_applied : bool
}.

Record quality_metrics := {
  overall_confidence : Q;
  low_confidence_count : Z;
  flags_count : Z
}.

Record metadata := {
  meta_rectification : rectification;
  meta_quality_metrics : quality_metrics
}.

(** The state of the loop over the answer fields of a question:
    [extracted_answer], [max_confidence], [filled_bubbles]. *)
Abbreviation bubble_state := (option string * Q * list (string * Q))%type (only parsing).

(** The body of [for field in q_layout["answer_fields"]]. *)
Definition bubble_step (img : image) (dpi : Z)
    (st : option bubble_state) (field : answer_field) : option bubble_state :=
  '(extracted, max_confidence, filled_bubbles) ← st;
  let fx := _mm_to_pixels (field_x_mm field) dpi in
  let fy := _mm_to_pixels (field_y_mm field) dpi in
  let radius := _mm_to_pixels (field_radius field) dpi in
  '(is_filled, conf) ← detect_bubble_fill img fx fy radius (3 # 10);
  if is_filled : bool then
    let filled_bubbles := filled_bubbles ++ [(field_label field, conf)] in
    if Py.gtb conf max_confidence
    then Some (Some (field_label field), conf, filled_bubbles)
    else Some (extracted, max_confidence, filled_bubbles)
  else Some (extracted, max_confidence, filled_bubbles).

(** The bubble-detection branch for one question. *)
Definition extract_choice (img : image) (dpi : Z) (q_layout : question_layout)
    (fields : list answer_field) : option answer :=
  '(extracted, max_confidence, filled_bubbles) ←
     fold_left (bubble_step img dpi) fields (Some (None, 0%Q, []));
  let '(flags, max_confidence) :=
    if (1 <? length filled_bubbles)%nat
    then (["multiple_bubbles_filled"], (max_confidence * (5 # 10))%Q)
    else if (length filled_bubbles =? 0)%nat
    then (["no_bubble_filled"], 0%Q)
    else ([], max_confidence) in
  Some {| ans_question_id := question_id q_layout;
          ans_question_number := default 0 (question_number q_layout);
          ans_question_type := q_type q_layout;
          extracted_answer := extracted;
          confidence := Py.round3 max_confidence;
          extraction_method := "bubble_detection";
          flags := match flags with [] => None | _ => Some flags end |}.

(** The ink count over the OCR rectangle: [(dark_count, total_count)]. *)
Definition ocr_count (img : image) (ox oy ow oh : Z) : Z * Z :=
  fold_left (fun st y =>
    fold_left (fun '(dark_count, total_count) x =>
      if in_bounds (width img) (height img) x y then
        (if getpx img x y <? 200 then dark_count + 1 else dark_count,
         total_count + 1)
      else (dark_count, total_count))
      (Py.range ox (Z.min (ox + ow) (width img))) st)
    (Py.range oy (Z.min (oy + oh) (height img))) (0, 0).

(** The OCR-simulation branch for one question. *)
Definition extract_ocr (img : image) (dpi : Z) (q_layout : question_layout)
    (ocr : region) : answer :=
  let ox := _mm_to_pixels (region_x_mm ocr) dpi in
  let oy := _mm_to_pixels (region_y_mm ocr) dpi in
  let ow := _mm_to_pixels (region_width_mm ocr) dpi in
  let oh := _mm_to_pixels (region_height_mm ocr) dpi in
  let '(dark_count, total_count) := ocr_count img ox oy ow oh in
  let density :=
    if 0 <? total_count
    then (inject_Z dark_count / inject_Z total_count)%Q else 0%Q in
  let '(extracted, conf) :=
    if Py.gtb density (5 # 100)
    then ("[OCR text detected]", Qmin (85 # 100) (density * 5))
    else ("", (90 # 100)%Q) in
  {| ans_question_id := question_id q_layout;
     ans_question_number := default 0 (question_number q_layout);
     ans_question_type := q_type q_layout;
     extracted_answer := Some extracted;
     confidence := Py.round3 conf;
     extraction_method := "ocr_simulation";
     flags := Some (if Py.gtb density (5 # 100) then ["requires_manual_review"] else []) |}.

Definition is_choice_type (t : string) : bool :=
  bool_decide (t ∈ ["multiple_choice"; "true_false"]).

Definition is_text_type (t : string) : bool :=
  bool_decide (t ∈ ["short_answer"; "essay"]).

(** The body of [for q_layout in template_layout["questions"]]: the
    answers it appends (none or one), [None] for a raised exception. *)
Definition extract_question (img : image) (dpi : Z) (q_layout : question_layout)
    : option (list answer) :=
  let q_type := q_type q_layout in
  let ocr_branch :=
    match ocr_region q_layout with
    | Some ocr =>
      if is_text_type q_type
      then Some [extract_ocr img dpi q_layout ocr] else Some []
    | None => Some []
    end in
  match answer_fields q_layout with
  | Some fields =>
    if is_choice_type q_type
    then a ← extract_choice img dpi q_layout fields; Some [a]
    else ocr_branch
  | None => ocr_branch
  end.

(** [sum(len(a.get("flags", [])) for a in answers)]. *)
Definition count_flags (answers : list answer) : Z :=
  fold_left (fun n a => n + Z.of_nat (length (default [] (flags a)))) answers 0.

(** [sum(a["confidence"] for a in answers)]. *)
Definition sum_confidence (answers : list answer) : Q :=
  fold_left (fun acc a => (acc + confidence a)%Q) answers 0%Q.

Definition extract_answers (img : image) (layout : template_layout)
    : option (list answer * metadata) :=
  let dpi := page_dpi layout in
  let marks := registration_marks layout in
  let '(detected_marks, rect_success) := detect_registration_marks img marks dpi in
  answers ← fold_left (fun acc q_layout =>
               answers ← acc;
               new ← extract_question img dpi q_layout;
               Some (answers ++ new))
             (questions layout) (Some []);
  Some (answers,
        {| meta_rectification :=
             {| markers_detected := count_detected detected_marks;
                markers_expected := Z.of_nat (length marks);
                rectification_applied := rect_success |};
           meta_quality_metrics :=
             {| overall_confidence :=
                  match answers with
                  | [] => 0%Q
                  | _ => Py.round3 (sum_confidence answers / inject_Z (Z.of_nat (length answers)))
                  end;
                low_confidence_count :=
                  Z.of_nat (length (filter (fun a => Py.ltb (confidence a) (7 # 10) = true) answers));
                flags_count := count_flags answers |} |}).

(** *** [scan_image] *)

(** The clock readings of one call: the two values of [time.time()] and
    the text of [datetime.utcnow().isoformat()]. *)
Record clock := {
  time_start : Q;
  time_end : Q;
  utcnow_isoformat : string
}.

Record scan_metadata := {
  scan_timestamp : string;
  image_source : string;
  scanner_version_used : string;
  processing_time_ms : Q
}.

Record identification := {
  ident_version_id : string;
  ident_student_id : string;
  ident_confidence_version_id : Q;
  ident_confidence_student_id : Q
}.

Record scan_result := {
  result_version : string;
  result_scan_metadata : scan_metadata;
  result_identification : identification;
  result_rectification : rectification;
  result_answers : list answer;
  result_quality_metrics : quality_metrics
}.

(** [Path(image_path).suffix]: from the last dot of the last component. *)
Fixpoint path_suffix_aux (s : string) (acc : option string) : option string :=
  match s with
  | EmptyString => acc
  | String c rest =>
    if Ascii.eqb c "/"%char then path_suffix_aux rest None
    else if Ascii.eqb c "."%char then
      match rest with
      | EmptyString => acc
      | _ => path_suffix_aux rest (Some s)
      end
    else path_suffix_aux rest acc
  end.

Definition path_suffix (path : string) : string :=
  default "" (path_suffix_aux path None).

(** [scan_image], given the clock and the file system; [None] stands for
    a raised exception. *)
Definition scan_image (ck : clock) (fs : string -> option file_content)
    (image_path : string) (layout : template_layout) : option scan_result :=
  content ← fs image_path;
  img ← load_image (path_suffix image_path) content;
  '(answers, meta) ← extract_answers img layout;
  let processing_time := ((time_end ck - time_start ck) * 1000)%Q in
  Some {| result_version := "1.0.0";
          result_scan_metadata :=
            {| scan_timestamp := utcnow_isoformat ck +:+ "Z";
               image_source := image_path;
               scanner_version_used := scanner_version;
               processing_time_ms := Py.round2 processing_time |};
          result_identification :=
            {| ident_version_id := "detected";
               ident_student_id := "detected";
               ident_confidence_version_id := 0;
               ident_confidence_student_id := 0 |};
          result_rectification := meta_rectification meta;
          result_answers := answers;
          result_quality_metrics := meta_quality_metrics meta |}.

(** [main] with an image argument: seeds the generator when [--seed] is
    given and not zero, then scans.  The random state is not read. *)
Definition main `{RS : RandomSource} (seed : option Z) (ambient : rng)
    (ck : clock) (fs : string -> option file_content)
    (image_path : string) (layout : template_layout) : option scan_result * rng :=
  let s := TestGen.seed_rng seed ambient in
  (scan_image ck fs image_path layout, s).

(** *** [scan_synthetic]

    The question order as [scan_synthetic] reads it: every key but
    [question_id] is read with [.get].  Texts are taken to be ASCII. *)

Record synthetic_question := {
  sq_question_id : string;
  sq_correct_answer : option string;
  sq_question_number : option Z;
  sq_options : option (list option_entry)
}.

(** [random.uniform(a, b)], which is [a + (b - a) * random.random()]. *)
Definition random_uniform `{RS : RandomSource} (a b : Q) (s : rng) : Q * rng :=
  let '(r, s) := random_random s in ((a + (b - a) * r)%Q, s).

(** [t.replace(a, b)] for single characters. *)
Fixpoint str_replace (a b : ascii) (t : string) : string :=
  match t with
  | EmptyString => EmptyString
  | String c rest => String (if Ascii.eqb c a then b else c) (str_replace a b rest)
  end.

Definition ascii_lower (c : ascii) : ascii :=
  let n := nat_of_ascii c in
  if (65 <=? n)%nat && (n <=? 90)%nat then ascii_of_nat (n + 32) else c.

Definition ascii_upper (c : ascii) : ascii :=
  let n := nat_of_ascii c in
  if (97 <=? n)%nat && (n <=? 122)%nat then ascii_of_nat (n - 32) else c.

(** [t.lower()] and [t.upper()]. *)
Fixpoint str_lower (t : string) : string :=
  match t with
  | EmptyString => EmptyString
  | String c rest => String (ascii_lower c) (str_lower rest)
  end.

Fixpoint str_upper (t : string) : string :=
  match t with
  | EmptyString => EmptyString
  | String c rest => String (ascii_upper c) (str_upper rest)
  end.

(** [t[:-1]]. *)
Fixpoint str_drop_last (t : string) : string :=
  match t with
  | EmptyString => EmptyString
  | String c EmptyString => EmptyString
  | String c rest => String c (str_drop_last rest)
  end.

(** The list [errors] of [_simulate_ocr_error]. *)
Definition ocr_errors : list (string -> string) :=
  [ str_replace "o" "0";
    str_replace "l" "1";
    str_replace "i" "1";
    str_lower;
    str_upper;
    (fun t => t +:+ " ");
    (fun t => if (1 <? String.length t)%nat then str_drop_last t else t) ].

(** [_simulate_ocr_error]; the text is [None] when the question has no
    correct answer, and every error then raises. *)
Definition _simulate_ocr_error `{RS : RandomSource} (text : option string) (s : rng)
    : option (option string * rng) :=
  let '(r, s) := random_random s in
  if Py.ltb r (3 # 10) then
    let '(i, s) := random_choice (length ocr_errors) s in
    t ← text;
    Some (Some (default t ((fun e => e t) <$> ocr_errors !! i)), s)
  else Some (text, s).

(** The search [for q in questions: if q["question_id"] == q_id]. *)
Definition find_question (version_questions : list synthetic_question) (q_id : string)
    : option synthetic_question :=
  head (filter (fun q => sq_question_id q = q_id) version_questions).

(** The body of [for i, layout_q in enumerate(template_layout["questions"])]. *)
Definition synthetic_step `{RS : RandomSource}
    (version_questions : list synthetic_question)
    (accuracy : Q) (st : option (list answer * rng)) (entry : nat * question_layout)
    : option (list answer * rng) :=
  '(answers, s) ← st;
  let '(i, layout_q) := entry in
  let q_id := question_id layout_q in
  let q_type := q_type layout_q in
  match find_question version_questions q_id with
  | None => Some (answers, s)
  | Some question_data =>
    let correct_answer := sq_correct_answer question_data in
    let number := default (Z.of_nat i + 1) (sq_question_number question_data) in
    let '(r, s) := random_random s in
    let is_correct := Py.ltb r accuracy in
    if is_choice_type q_type then
      let '(extracted, confidence, s) :=
        if is_correct then
          let '(c, s) := random_uniform (85 # 100) (99 # 100) s in
          (correct_answer, c, s)
        else
          let options := default [] (sq_options question_data) in
          let wrong_options :=
            map option_label
              (filter (fun opt => Some (option_label opt) <> correct_answer) options) in
          let '(extracted, s) :=
            match wrong_options with
            | [] => (correct_answer, s)
            | _ =>
              let '(k, s) := random_choice (length wrong_options) s in
              (wrong_options !! k, s)
            end in
          let '(c, s) := random_uniform (70 # 100) (95 # 100) s in
          (extracted, c, s) in
      Some (answers ++
              [ {| ans_question_id := q_id;
                   ans_question_number := number;
                   ans_question_type := q_type;
                   extracted_answer := extracted;
                   confidence := Py.round3 confidence;
                   extraction_method := "bubble_detection";
                   flags := None |} ], s)
    else if String.eqb q_type "short_answer" then
      '(extracted, confidence, s) ←
        (if is_correct then
           let '(c, s) := random_uniform (75 # 100) (95 # 100) s in
           Some (correct_answer, c, s)
         else
           '(extracted, s) ← _simulate_ocr_error correct_answer s;
           let '(c, s) := random_uniform (60 # 100) (85 # 100) s in
           Some (extracted, c, s));
      Some (answers ++
              [ {| ans_question_id := q_id;
                   ans_question_number := number;
                   ans_question_type := q_type;
                   extracted_answer := extracted;
                   confidence := Py.round3 confidence;
                   extraction_method := "ocr";
                   flags := None |} ], s)
    else
      Some (answers ++
              [ {| ans_question_id := q_id;
                   ans_question_number := number;
                   ans_question_type := q_type;
                   extracted_answer := Some "[OCR text would be here]";
                   confidence := 0;
                   extraction_method := "ocr";
                   flags := Some ["manual_review_required"] |} ], s)
  end.

(** [scan_synthetic]: the scan result, the [skew_angle] it adds to the
    rectification report, and the state of the generator afterwards;
    [None] stands for a raised exception. *)
Definition scan_synthetic `{RS : RandomSource} (ck : clock)
    (student_id version_id : string) (layout : template_layout)
    (versions : gmap string (list synthetic_question)) (accuracy : Q) (s : rng)
    : option (scan_result * Q * rng) :=
  let version_questions := default [] (versions !! version_id) in
  '(answers, s) ←
    fold_left (synthetic_step version_questions accuracy)
      (imap (fun i layout_q => (i, layout_q)) (questions layout))
      (Some ([], s));
  let processing_time := ((time_end ck - time_start ck) * 1000)%Q in
  let '(skew, s) := random_uniform (-2) 2 s in
  Some ({| result_version := "1.0.0";
           result_scan_metadata :=
             {| scan_timestamp := utcnow_isoformat ck +:+ "Z";
                image_source := "synthetic_" +:+ student_id +:+ "_" +:+ version_id;
                scanner_version_used := scanner_version;
                processing_time_ms := Py.round2 processing_time |};
           result_identification :=
             {| ident_version_id := version_id;
                ident_student_id := student_id;
                ident_confidence_version_id := 99 # 100;
                ident_confidence_student_id := 98 # 100 |};
           result_rectification :=
             {| markers_detected := 4; markers_expected := 4;
                rectification_applied := true |};
           result_answers := answers;
           result_quality_metrics :=
             {| overall_confidence :=
                  match answers with
                  | [] => 0%Q
                  | _ => Py.round3 (sum_confidence answers
                                    / inject_Z (Z.of_nat (length answers)))
                  end;
                low_confidence_count :=
                  Z.of_nat (length (filter (fun a => Py.ltb (confidence a) (7 # 10) = true)
                                      answers));
                flags_count := count_flags answers |} |},
        Py.round2 skew, s).

End TestScan.

(** ** Descriptions used by the properties *)

(** The pixels a [count_window] loop counts, in loop order. *)
Definition window_pixels (img : image) (cx cy r : Z) (inside : Z -> Z -> bool)
    : list (Z * Z) :=
  dy ← Py.range (- r) (r + 1);
  dx ← Py.range (- r) (r + 1);
  if inside dx dy && in_bounds (width img) (height img) (cx + dx) (cy + dy)
  then [(cx + dx, cy + dy)] else [].

(** How many pixels of a list satisfy a test on their intensity. *)
Definition count_px (img : image) (hit : Z -> bool) (ps : list (Z * Z)) : Z :=
  Z.of_nat (length (filter (fun p => hit (getpx img p.1 p.2) = true) ps)).

(** [a / b] as a rational. *)
Definition ratio (a b : Z) : Q := (inject_Z a / inject_Z b)%Q.

(** [a / b], and 0 when there is nothing to count. *)
Definition fraction (a b : Z) : Q := if 0 <? b then ratio a b else 0%Q.

(** The in-bounds pixels of the disk of radius [r] around [(cx, cy)]. *)
Definition disk_pixels (img : image) (cx cy r : Z) : list (Z * Z) :=
  window_pixels img cx cy r (fun dx dy => dx * dx + dy * dy <=? r * r).

(** The in-bounds pixels at a distance in [(r, outer]] of [(cx, cy)],
    [outer] being a whole number of pixels. *)
Definition ring_pixels (img : image) (cx cy r outer : Z) : list (Z * Z) :=
  window_pixels img cx cy outer
    (fun dx dy => (r * r <? dx * dx + dy * dy) && (dx * dx + dy * dy <=? outer * outer)).

(** A canvas of the data model: [h] rows of [w] intensities in [0, 255]. *)
Definition is_canvas (img : image) (w h : Z) : Prop :=
  has_dims img w h /\ Forall (Forall (fun v => 0 <= v <= 255)) img.

(** The number of non-white pixels of an image. *)
Definition nonwhite_count (img : image) : Z :=
  Z.of_nat (length (filter (fun v => v <> 255) (concat img))).

(** The stores of [load_image], as plain pixel stores. *)
Definition store_all (ps : list (Z * Z * Z)) (img : image) : image :=
  fold_left (fun img '(x, y, v) => setpx img x y v) ps img.


(** The verdict of the bubble classifier on an answer field, as
    [extract_answers] calls it (default threshold 0.3). *)
Definition field_verdict (img : image) (dpi : Z) (f : answer_field) : option (bool * Q) :=
  TestScan.detect_bubble_fill img
    (TestScan._mm_to_pixels (field_x_mm f) dpi)
    (TestScan._mm_to_pixels (field_y_mm f) dpi)
    (TestScan._mm_to_pixels (field_radius f) dpi) (3 # 10).

(** The field was judged filled. *)
Definition field_filled (img : image) (dpi : Z) (f : answer_field) : bool :=
  match field_verdict img dpi f with
  | Some (true, _) => true
  | _ => false
  end.

(** The layout record enters one of the two branches of the extraction
    loop: a choice type with answer fields, or a free-text type with an
    OCR region. *)
Definition has_branch (q : question_layout) : bool :=
  (TestScan.is_choice_type (q_type q) && bool_decide (is_Some (answer_fields q)))
  || (TestScan.is_text_type (q_type q) && bool_decide (is_Some (ocr_region q))).

(** The answers of a sheet: one per record that enters a branch. *)
Definition answers_match (qs : list question_layout) (answers : list TestScan.answer) : Prop :=
  Forall2 (fun q a =>
    TestScan.ans_question_id a = question_id q
    /\ TestScan.ans_question_number a = default 0 (question_number q)
    /\ TestScan.ans_question_type a = q_type q
    /\ TestScan.extraction_method a =
         if TestScan.is_choice_type (q_type q) then "bubble_detection" else "ocr_simulation")
    (filter (fun q => has_branch q = true) qs) answers.

(** ** Registration marks, declaratively *)

(** The disk of radius [r] around [(cx, cy)] lies wholly inside the image. *)
Definition disk_inside (img : image) (cx cy r : Z) : bool :=
  (0 <=? r) && (r <=? cx) && (cx <? width img - r) && (r <=? cy) && (cy <? height img - r).

(** The score of a candidate centre: 0 when the disk of the mark radius
    does not lie wholly inside the image, otherwise 0.7 times the dark
    fraction of the disk plus 0.3 times the white fraction of the ring
    between the radius and [int(1.5 * radius)]. *)
Definition mark_score (img : image) (cx cy r : Z) : Q :=
  if disk_inside img cx cy r then
    let disk := disk_pixels img cx cy r in
    let ring := ring_pixels img cx cy r (Py.int (inject_Z r * (15 # 10))) in
    (fraction (count_px img (fun v => v <? 128) disk) (Z.of_nat (length disk)) * (7 # 10)
     + fraction (count_px img (fun v => 200 <? v) ring) (Z.of_nat (length ring)) * (3 # 10))%Q
  else 0%Q.

(** The candidate offsets of the search: a 5-pixel grid within 20 pixels. *)
Definition search_grid : list Z := [-20; -15; -10; -5; 0; 5; 10; 15; 20].

(** ** Runs of the two tools *)

(** What a run takes from its surroundings: the state the random
    generator has when the interpreter starts, and the clock. *)
Record environment `{RS : RandomSource} := {
  env_ambient : rng;
  env_clock : TestScan.clock
}.

(** The files written by a run of testgen, as a file system: a later
    file of the same name replaces an earlier one. *)
Definition written_files (files : list (string * file_content)) (path : string)
    : option file_content :=
  (list_to_map (reverse files) : gmap string file_content) !! path.

(** One run of the pipeline: testgen writes the sheets, testscan reads
    the sheet at [path].  Returns the files and the scan result. *)
Definition pipeline `{RS : RandomSource} `{ML : MathLib}
    (env : environment) (args : TestGen.gen_args) (layout : template_layout)
    (order : question_order) (path : string)
    : option (list (string * file_content) * TestScan.scan_result) :=
  files ← TestGen.main args layout order (env_ambient env);
  result ← fst (TestScan.main (TestGen.arg_seed args) (env_ambient env) (env_clock env)
                  (written_files files) path layout);
  Some (files, result).

(** Two scan results agree on every field but the two clock readings. *)
Definition same_but_clock (a b : TestScan.scan_result) : Prop :=
  TestScan.result_version a = TestScan.result_version b
  /\ TestScan.image_source (TestScan.result_scan_metadata a)
     = TestScan.image_source (TestScan.result_scan_metadata b)
  /\ TestScan.scanner_version_used (TestScan.result_scan_metadata a)
     = TestScan.scanner_version_used (TestScan.result_scan_metadata b)
  /\ TestScan.result_identification a = TestScan.result_identification b
  /\ TestScan.result_rectification a = TestScan.result_rectification b
  /\ TestScan.result_answers a = TestScan.result_answers b
  /\ TestScan.result_quality_metrics a = TestScan.result_quality_metrics b.

(** ** The synthesis-extraction round trip *)

(** The answer map of a student who answers every question correctly:
    [answers[q_id] = correct_answer] for each question of the version. *)
Definition correct_answers (qs : list order_question) : gmap string string :=
  fold_left (fun answers q => <[oq_question_id q := oq_correct_answer q]> answers) qs ∅.

(** The sheet of the round trip: answers drawn with accuracy 1, the image
    generated and then passed through [apply_distortions]. *)
Definition round_trip_sheet `{RS : RandomSource} `{ML : MathLib}
    (g : TestGen.TestImageGenerator) (layout : template_layout)
    (qs : list order_question) (add_noise : bool)
    (rotation skew : Q) (noise_level : Z) (s : rng) : image :=
  let '(answers, s) := TestGen.simulate_answers 1 qs s in
  let '(img, s) := TestGen.generate_test_image g layout answers add_noise s in
  fst (TestGen.apply_distortions g img rotation skew noise_level s).

(** A pixel operation on sheets of [w] by [h] pixels that keeps the
    dimensions and keeps inked pixels (intensity at most 80) inked. *)
Definition keeps_ink (w h : Z) (f : image -> image) : Prop :=
  forall img, has_dims img w h ->
    has_dims (f img) w h
    /\ forall x y, 0 <= x < w -> 0 <= y < h ->
         getpx img x y <= 80 -> getpx (f img) x y <= 80.

(** The offset [(dx, dy)] from the centre is drawn by [draw_circle] with
    radius [r]. *)
Definition offset_covered (r : Z) (filled : bool) (dx dy : Z) : bool :=
  (- r <=? dx) && (dx <=? r) && (- r <=? dy) && (dy <=? r)
  && (dx * dx + dy * dy <=? r * r)
  && (filled || ((r - 2) * (r - 2) <=? dx * dx + dy * dy)).

(** A pixel is covered by the circle drawn at [(cx, cy)] with radius [r]. *)
Definition circle_covers (cx cy r : Z) (filled : bool) (x y : Z) : bool :=
  offset_covered r filled (x - cx) (y - cy).

(** ** The wording of the specification, where the code differs *)


(** The score of a candidate as the specification words it: no condition
    on the position of the disk, and the ring reaches to 1.5 times the
    radius ([4 * d^2 <= 9 * r^2]). *)
Definition claimed_mark_score (img : image) (cx cy r : Z) : Q :=
  let disk := disk_pixels img cx cy r in
  let ring :=
    window_pixels img cx cy (2 * r)
      (fun dx dy => (r * r <? dx * dx + dy * dy)
                    && (4 * (dx * dx + dy * dy) <=? 9 * (r * r))) in
  (fraction (count_px img (fun v => v <? 128) disk) (Z.of_nat (length disk)) * (7 # 10)
   + fraction (count_px img (fun v => 200 <? v) ring) (Z.of_nat (length ring)) * (3 # 10))%Q.



(** ** Sample instances of the external interfaces, to run examples *)

(** A linear congruential generator. *)
Definition lcg_next (s : Z) : Z := (1103515245 * s + 12345) mod 2147483648.

#[export] Program Instance lcg_random : RandomSource := {|
  rng := Z;
  random_seed := fun n => n mod 2147483648;
  random_random := fun s => (inject_Z (lcg_next s) / 2147483648, lcg_next s)%Q;
  random_randint := fun a b s => (a + lcg_next s mod (Z.max 1 (b - a + 1)), lcg_next s);
  random_choice := fun n s => (Z.to_nat (lcg_next s mod Z.max 1 (Z.of_nat n)), lcg_next s)
|}.
Next Obligation.
  intros s. cbn [fst]. unfold lcg_next.
  pose proof (Z.mod_pos_bound (1103515245 * s + 12345) 2147483648 ltac:(lia)) as H.
  split.
  - apply Qle_shift_div_l; [reflexivity|]. rewrite Qmult_0_l.
    change 0%Q with (inject_Z 0). rewrite <- Zle_Qle. lia.
  - apply Qlt_shift_div_r; [reflexivity|]. rewrite Qmult_1_l.
    change 2147483648%Q with (inject_Z 2147483648). rewrite <- Zlt_Qlt. lia.
Qed.
Next Obligation.
  intros a b s Hab. cbn [fst].
  pose proof (Z.mod_pos_bound (lcg_next s) (Z.max 1 (b - a + 1)) ltac:(lia)). lia.
Qed.
Next Obligation.
  intros n s Hn. cbn [fst].
  pose proof (Z.mod_pos_bound (lcg_next s) (Z.max 1 (Z.of_nat n)) ltac:(lia)). lia.
Qed.

(** Polynomial approximations of the trigonometric functions. *)
#[export] Instance poly_math : MathLib := {|
  math_pi := 355 # 113;
  math_cos := fun x => (1 - x * x / 2 + x * x * x * x / 24)%Q;
  math_sin := fun x => (x - x * x * x / 6 + x * x * x * x * x / 120)%Q
|}.

(** ** Sample data, to run examples *)

Definition sample_gen : TestGen.TestImageGenerator :=
  {| TestGen.gen_width := 30; TestGen.gen_height := 24 |}.

Definition sample_region : region :=
  {| region_x_mm := 0; region_y_mm := 0; region_width_mm := 1; region_height_mm := 1 |}.

Definition sample_field (l : string) (x : Q) : answer_field :=
  {| field_label := l; field_x_mm := x; field_y_mm := 1;
     field_type := "circle"; field_radius_mm := Some (45 # 100) |}.

(** A multiple-choice question with bubbles A and B, 5 pixels in radius. *)
Definition sample_question : question_layout :=
  {| question_id := "q1"; q_type := "multiple_choice"; question_number := None;
     answer_region := sample_region;
     answer_fields := Some [sample_field "A" (5 # 10); sample_field "B" (15 # 10)];
     ocr_region := None |}.

Definition sample_layout : template_layout :=
  {| page_dpi := 300; registration_marks := []; questions := [sample_question] |}.

(** The sheet of a student who answered B, without noise. *)
Definition sample_sheet : image :=
  fst (TestGen.generate_test_image sample_gen sample_layout (<["q1" := "B"]> ∅) false (1 : rng)).

(** The sample layout declared at 150 dpi; the generator still draws at
    300 dpi. *)
Definition sample_layout_150 : template_layout :=
  {| page_dpi := 150; registration_marks := []; questions := [sample_question] |}.

(** A layout record as in the test of the synthetic mode of the
    repository: a choice type without answer fields. *)
Definition bare_question : question_layout :=
  {| question_id := "q1"; q_type := "multiple_choice"; question_number := Some 1;
     answer_region := sample_region; answer_fields := None; ocr_region := None |}.

Definition bare_layout : template_layout :=
  {| page_dpi := 300; registration_marks := []; questions := [bare_question] |}.





(** A choice layout whose bubbles are 3 pixels in radius. *)
Definition small_field (l : string) (x : Q) : answer_field :=
  {| field_label := l; field_x_mm := x; field_y_mm := 1;
     field_type := "circle"; field_radius_mm := Some (3 # 10) |}.

Definition small_question : question_layout :=
  {| question_id := "q1"; q_type := "multiple_choice"; question_number := None;
     answer_region := sample_region;
     answer_fields := Some [small_field "A" (5 # 10); small_field "B" (15 # 10)];
     ocr_region := None |}.

Definition small_layout : template_layout :=
  {| page_dpi := 300; registration_marks := []; questions := [small_question] |}.

Definition choice_order : list order_question :=
  [ {| oq_question_id := "q1"; oq_correct_answer := "B";
       oq_options := Some [ {| option_label := "A" |}; {| option_label := "B" |} ] |} ].

(** Four marks of radius 2 pixels, one pixel from each corner of a
    12 x 12 sheet, as the generator draws them. *)
Definition corner_marks : list mark :=
  [ {| mark_x_mm := 1 # 10; mark_y_mm := 1 # 10; mark_size_mm := 2 # 10 |};
    {| mark_x_mm := 9 # 10; mark_y_mm := 1 # 10; mark_size_mm := 2 # 10 |};
    {| mark_x_mm := 1 # 10; mark_y_mm := 9 # 10; mark_size_mm := 2 # 10 |};
    {| mark_x_mm := 9 # 10; mark_y_mm := 9 # 10; mark_size_mm := 2 # 10 |} ].

Definition corner_sheet : image :=
  fst (TestGen.generate_test_image
         {| TestGen.gen_width := 12; TestGen.gen_height := 12 |}
         {| page_dpi := 300; registration_marks := corner_marks; questions := [] |}
         ∅ false (1 : rng)).

(** One mark of radius 1 pixel in the middle of a 12 x 12 sheet. *)
Definition dot_marks : list mark :=
  [ {| mark_x_mm := 5 # 10; mark_y_mm := 5 # 10; mark_size_mm := 1 # 10 |} ].

Definition dot_sheet : image :=
  fst (TestGen.generate_test_image
         {| TestGen.gen_width := 12; TestGen.gen_height := 12 |}
         {| page_dpi := 300; registration_marks := dot_marks; questions := [] |}
         ∅ false (1 : rng)).

(** Four marks of radius 2 pixels, 5 pixels from each corner of a
    24 x 24 sheet. *)
Definition inner_marks : list mark :=
  [ {| mark_x_mm := 5 # 10; mark_y_mm := 5 # 10; mark_size_mm := 2 # 10 |};
    {| mark_x_mm := 16 # 10; mark_y_mm := 5 # 10; mark_size_mm := 2 # 10 |};
    {| mark_x_mm := 5 # 10; mark_y_mm := 16 # 10; mark_size_mm := 2 # 10 |};
    {| mark_x_mm := 16 # 10; mark_y_mm := 16 # 10; mark_size_mm := 2 # 10 |} ].

Definition inner_sheet : image :=
  fst (TestGen.generate_test_image
         {| TestGen.gen_width := 24; TestGen.gen_height := 24 |}
         {| page_dpi := 300; registration_marks := inner_marks; questions := [] |}
         ∅ false (1 : rng)).

(** A question order for the sample layout: one student, one version. *)
Definition sample_order : question_order :=
  {| versions :=
       {[ "v1" := [ {| oq_question_id := "q1"; oq_correct_answer := "B";
                       oq_options := Some [ {| option_label := "A" |};
                                            {| option_label := "B" |} ] |} ] ]};
     student_assignments := [("s001", "v1")] |}.

Definition sample_args (seed : option Z) : TestGen.gen_args :=
  {| TestGen.arg_accuracy := 1; TestGen.arg_noise := 0;
     TestGen.arg_rotation := 0; TestGen.arg_skew := 0;
     TestGen.arg_format := "json"; TestGen.arg_students := None;
     TestGen.arg_seed := seed |}.

(** A sheet file for the scanner examples. *)
Definition sample_files : list (string * file_content) :=
  [("s001_v1.json", JsonFile (TestGen.save_compact sample_gen sample_sheet))].

Definition clock_morning : TestScan.clock :=
  {| TestScan.time_start := 1000; TestScan.time_end := 1000 + (25 # 100);
     TestScan.utcnow_isoformat := "2024-01-01T08:00:00" |}.

Definition clock_evening : TestScan.clock :=
  {| TestScan.time_start := 2000; TestScan.time_end := 2000 + (5 # 10);
     TestScan.utcnow_isoformat := "2024-01-01T20:00:00" |}.

(** Two environments: different ambient generator states and clocks. *)
Definition morning_env : environment :=
  {| env_ambient := (1 : rng); env_clock := clock_morning |}.

Definition evening_env : environment :=
  {| env_ambient := (2 : rng); env_clock := clock_evening |}.

(** ** Descriptions used by the further properties *)

(** The answer a student gives when the draw says "wrong": the label of
    an option other than the correct one; the correct answer when every
    option carries it; the text "Wrong Answer" when the question has no
    options. *)
Definition wrong_pick (q : order_question) (a : string) : Prop :=
  match oq_options q with
  | Some ((_ :: _) as opts) =>
    (a ∈ map option_label opts /\ a <> oq_correct_answer q)
    \/ ((forall o, o ∈ opts -> option_label o = oq_correct_answer q)
        /\ a = oq_correct_answer q)
  | _ => a = "Wrong Answer"
  end.

(** The version a student is assigned, when it exists in the question
    order: [versions[student_assignments[student_id]]]. *)
Definition assigned_version (order : question_order) (student_id : string)
    : option string :=
  version_id ← (list_to_map (student_assignments order) : gmap string string) !! student_id;
  _ ← versions order !! version_id;
  Some version_id.

(** The suffix of the files written for a value of [--format]. *)
Definition format_suffix (format : string) : string :=
  if String.eqb format "pgm" then ".pgm" else ".json".

(** The figures of one extracted answer are in range: a confidence
    between 0 and 0.99, at most one flag. *)
Definition answer_in_range (a : TestScan.answer) : Prop :=
  (0 <= TestScan.confidence a <= 99 # 100)%Q
  /\ (length (default [] (TestScan.flags a)) <= 1)%nat.

(** A coordinate of a sparse file that [load_image] accepts as a list
    index: [-n <= i < n] for a dimension of [n] pixels. *)
Definition valid_index (n i : Z) : Prop := - Z.max 0 n <= i < Z.max 0 n.

(** The pixel a store of [load_image] lands on: a negative coordinate
    counts from the far edge. *)
Definition wrap_pixel (w h : Z) (p : Z * Z * Z) : Z * Z * Z :=
  (p.1.1 mod Z.max 0 w, p.1.2 mod Z.max 0 h, p.2).

(** What [scan_synthetic] records for a layout question, given as
    [(i, layout_q)] with its index, that has a question of the same id
    in the version: identity, number, method, and the range of the
    confidence drawn. *)
Definition synthetic_record (version_questions : list TestScan.synthetic_question)
    (entry : nat * question_layout) (a : TestScan.answer) : Prop :=
  exists question_data,
    TestScan.find_question version_questions (question_id entry.2) = Some question_data
    /\ TestScan.ans_question_id a = question_id entry.2
    /\ TestScan.ans_question_type a = q_type entry.2
    /\ TestScan.ans_question_number a
       = default (Z.of_nat entry.1 + 1) (TestScan.sq_question_number question_data)
    /\ if TestScan.is_choice_type (q_type entry.2) then
         TestScan.extraction_method a = "bubble_detection"
         /\ TestScan.flags a = None
         /\ (70 # 100 <= TestScan.confidence a <= 99 # 100)%Q
         /\ (TestScan.extracted_answer a = TestScan.sq_correct_answer question_data
             \/ exists l,
                  TestScan.extracted_answer a = Some l
                  /\ l ∈ map option_label (default [] (TestScan.sq_options question_data))
                  /\ Some l <> TestScan.sq_correct_answer question_data)
       else if String.eqb (q_type entry.2) "short_answer" then
         TestScan.extraction_method a = "ocr"
         /\ TestScan.flags a = None
         /\ (60 # 100 <= TestScan.confidence a <= 95 # 100)%Q
       else
         TestScan.extraction_method a = "ocr"
         /\ TestScan.extracted_answer a = Some "[OCR text would be here]"
         /\ TestScan.confidence a = 0%Q
         /\ TestScan.flags a = Some ["manual_review_required"].

(** The four registration marks docgen puts on an A4 page
    ([PAGE_SIZES["A4"] = (210, 297)]): 10 mm from each edge, 5 mm in
    size. *)
Definition a4_marks : list mark :=
  [ {| mark_x_mm := 10; mark_y_mm := 10; mark_size_mm := 5 |};
    {| mark_x_mm := 210 - 10; mark_y_mm := 10; mark_size_mm := 5 |};
    {| mark_x_mm := 10; mark_y_mm := 297 - 10; mark_size_mm := 5 |};
    {| mark_x_mm := 210 - 10; mark_y_mm := 297 - 10; mark_size_mm := 5 |} ].
(** * Properties *)

(** ** Ranges and loops *)

Lemma range_elem (lo hi x : Z) : x ∈ Py.range lo hi <-> lo <= x < hi.
Proof.
  unfold Py.range. rewrite list_elem_of_fmap. split.
  - intros (i & -> & Hi). apply elem_of_seq in Hi. lia.
  - intros Hx. exists (Z.to_nat (x - lo)). split; [lia|].
    apply elem_of_seq. lia.
Qed.

Lemma range_NoDup (lo hi : Z) : NoDup (Py.range lo hi).
Proof.
  unfold Py.range. apply NoDup_fmap_2.
  - intros i j Hij. lia.
  - apply NoDup_seq.
Qed.

Lemma range_length (lo hi : Z) : length (Py.range lo hi) = Z.to_nat (hi - lo).
Proof. unfold Py.range. by rewrite length_map, length_seq. Qed.

(** An invariant of a loop is an invariant of its result. *)
Lemma fold_left_invariant {A B} (P : A -> Prop) (f : A -> B -> A) (l : list B) (a : A) :
  P a -> (forall a x, x ∈ l -> P a -> P (f a x)) -> P (fold_left f l a).
Proof.
  revert a. induction l as [|x l IH]; intros a Ha Hf; simpl; [done|].
  apply IH.
  - apply Hf; [left | done].
  - intros a' y Hy. apply Hf. by right.
Qed.

(** ** Python numbers *)

Lemma py_int_floor (q : Q) : (0 <= q)%Q -> Py.int q = Qfloor q.
Proof.
  destruct q as [n d]. unfold Qle, Py.int, Qfloor. simpl. intros Hn.
  apply Z.quot_div_nonneg; lia.
Qed.

Lemma py_int_ceiling (q : Q) : (q <= 0)%Q -> Py.int q = Qceiling q.
Proof.
  destruct q as [n d]. unfold Qle, Py.int, Qceiling, Qfloor. simpl. intros Hn.
  replace n with (- (- n)) at 1 by lia.
  rewrite Z.quot_opp_l by lia. rewrite Z.quot_div_nonneg by lia. done.
Qed.

Lemma py_ltb_lt (a b : Q) : Py.ltb a b = true <-> (a < b)%Q.
Proof.
  unfold Py.ltb. rewrite negb_true_iff. split.
  - intros H. apply Qnot_le_lt. intros Hle. apply Qle_bool_iff in Hle. congruence.
  - intros H. destruct (Qle_bool b a) eqn:E; [|done].
    apply Qle_bool_iff in E. exfalso. by apply (Qlt_not_le a b).
Qed.

Lemma py_leb_le (a b : Q) : Py.leb a b = true <-> (a <= b)%Q.
Proof. apply Qle_bool_iff. Qed.

Lemma py_gtb_gt (a b : Q) : Py.gtb a b = true <-> (b < a)%Q.
Proof. apply py_ltb_lt. Qed.

Lemma py_geb_ge (a b : Q) : Py.geb a b = true <-> (b <= a)%Q.
Proof. apply Qle_bool_iff. Qed.

Lemma py_div_nonzero (x y : Q) : ~ (y == 0)%Q -> Py.div x y = Some (x / y)%Q.
Proof.
  intros Hy. unfold Py.div. destruct (Qeq_bool y 0) eqn:E; [|done].
  apply Qeq_bool_iff in E. done.
Qed.

(** ** Pixels *)

Lemma has_dims_width (img : image) (w h : Z) :
  has_dims img w h -> 0 < h -> 0 <= w -> width img = w.
Proof.
  intros [Hl Hr] Hh Hw. destruct img as [|row img]; simpl in *; [lia|].
  apply Forall_cons in Hr as [Hrow _]. lia.
Qed.

Lemma has_dims_height (img : image) (w h : Z) :
  has_dims img w h -> 0 <= h -> height img = h.
Proof. intros [Hl _] Hh. unfold height. lia. Qed.

Lemma has_dims_rectangular (img : image) (w h : Z) :
  has_dims img w h -> rectangular img.
Proof.
  intros [Hl Hr]. unfold rectangular.
  destruct img as [|row img]; [constructor|].
  pose proof Hr as Hr'. apply Forall_cons in Hr' as [Hrow _].
  eapply Forall_impl; [exact Hr|]. simpl. intros r Hlen. lia.
Qed.

Lemma rectangular_has_dims (img : image) :
  rectangular img -> has_dims img (width img) (height img).
Proof. intros H. split; [unfold height; lia | exact H]. Qed.

Lemma white_has_dims (w h : Z) : has_dims (white w h) w h.
Proof.
  unfold white. split; [by rewrite length_replicate|].
  apply Forall_replicate. by rewrite length_replicate.
Qed.

Lemma setpx_has_dims (img : image) (w h x y v : Z) :
  has_dims img w h -> has_dims (setpx img x y v) w h.
Proof.
  intros [Hl Hr]. unfold setpx. split; [by rewrite length_alter|].
  apply Forall_alter; [done|]. intros row _ Hrow. by rewrite length_insert.
Qed.

Lemma getpx_white (w h x y : Z) : getpx (white w h) x y = 255.
Proof.
  unfold getpx, white.
  destruct (replicate _ _ !! Z.to_nat y) as [row|] eqn:E; simpl; [|done].
  apply lookup_replicate in E as [-> _].
  destruct (replicate _ _ !! Z.to_nat x) as [v|] eqn:E; simpl; [|done].
  by apply lookup_replicate in E as [-> _].
Qed.

(** Reading after a store, for in-range reads and non-negative stores. *)
Lemma getpx_setpx (img : image) (w h x y v x' y' : Z) :
  has_dims img w h ->
  0 <= x < w -> 0 <= y < h -> 0 <= x' -> 0 <= y' ->
  getpx (setpx img x' y' v) x y =
    if bool_decide (x' = x /\ y' = y) then v else getpx img x y.
Proof.
  intros [Hl Hr] Hx Hy Hx' Hy'. unfold getpx, setpx.
  destruct (decide (Z.to_nat y' = Z.to_nat y)) as [Ey|Ny].
  - assert (y' = y) as -> by lia.
    rewrite list_lookup_alter_eq.
    destruct (img !! Z.to_nat y) as [row|] eqn:Erow; simpl.
    + assert (length row = Z.to_nat w) as Hrow.
      { eapply Forall_lookup_1 in Hr; [exact Hr | exact Erow]. }
      destruct (decide (Z.to_nat x' = Z.to_nat x)) as [Ex|Nx].
      * assert (x' = x) as -> by lia.
        rewrite list_lookup_insert_eq by lia. simpl.
        rewrite bool_decide_eq_true_2; done.
      * rewrite list_lookup_insert_ne by done.
        rewrite bool_decide_eq_false_2; [done | lia].
    + apply lookup_ge_None in Erow. lia.
  - rewrite list_lookup_alter_ne by done.
    rewrite bool_decide_eq_false_2; [done | lia].
Qed.

Lemma getpx_setpx_same (img : image) (w h x y v : Z) :
  has_dims img w h -> 0 <= x < w -> 0 <= y < h ->
  getpx (setpx img x y v) x y = v.
Proof.
  intros Hd Hx Hy. rewrite (getpx_setpx img w h) by (done || lia).
  rewrite bool_decide_eq_true_2; done.
Qed.

(** Two images of the same dimensions with the same pixels are equal. *)
Lemma image_ext (a b : image) (w h : Z) :
  has_dims a w h -> has_dims b w h ->
  (forall x y, 0 <= x < w -> 0 <= y < h -> getpx a x y = getpx b x y) ->
  a = b.
Proof.
  intros [Hla Hra] [Hlb Hrb] Hpx.
  apply list_eq_same_length with (Z.to_nat h); [done..|].
  intros i ra rb Hi Ea Eb.
  assert (length ra = Z.to_nat w) as Hlra by (eapply Forall_lookup_1 in Hra; eauto).
  assert (length rb = Z.to_nat w) as Hlrb by (eapply Forall_lookup_1 in Hrb; eauto).
  apply list_eq_same_length with (Z.to_nat w); [done..|].
  intros j va vb Hj Eva Evb.
  specialize (Hpx (Z.of_nat j) (Z.of_nat i) ltac:(lia) ltac:(lia)).
  unfold getpx in Hpx. rewrite !Nat2Z.id in Hpx.
  rewrite Ea, Eb in Hpx. simpl in Hpx. rewrite Eva, Evb in Hpx. done.
Qed.

(** ** Coordinate conversion *)






(** ** Bubble classifier *)

(** C10: a bubble centre outside the image is reported unfilled with
    confidence 0 whatever the radius and the threshold, and whatever the
    pixels are: every image of the same width and height gets the same
    answer.  In particular the confidence is not above 0.8. *)
Theorem detect_bubble_fill_out_of_bounds (img : image) (cx cy radius : Z) (threshold : Q) :
  cx < 0 \/ cy < 0 \/ width img <= cx \/ height img <= cy ->
  TestScan.detect_bubble_fill img cx cy radius threshold = Some (false, 0%Q)
  /\ (forall img', width img' = width img -> height img' = height img ->
        TestScan.detect_bubble_fill img' cx cy radius threshold = Some (false, 0%Q))
  /\ forall b c, TestScan.detect_bubble_fill img cx cy radius threshold = Some (b, c) ->
       b = false /\ ~ (8 # 10 < c)%Q.
Proof.
  intros Hout.
  assert (forall img', width img' = width img -> height img' = height img ->
            TestScan.detect_bubble_fill img' cx cy radius threshold = Some (false, 0%Q)) as E.
  { intros img' Hw Hh. unfold TestScan.detect_bubble_fill. rewrite Hw, Hh.
    destruct ((cx <? 0) || (cy <? 0) || (width img <=? cx) || (height img <=? cy)) eqn:G; [done|].
    repeat (apply orb_false_iff in G as [G ?]). lia. }
  split; [by apply E|]. split; [exact E|].
  intros b c. rewrite E by done. intros [= <- <-]. split; [done|]. discriminate.
Qed.

Lemma detect_bubble_fill_out_of_bounds_witness :
  TestScan.detect_bubble_fill (white 4 4) 4 2 1 (3 # 10) = Some (false, 0%Q).
Proof.
  assert (4 < 0 \/ 2 < 0 \/ width (white 4 4) <= 4 \/ height (white 4 4) <= 2) as H.
  { right; right; left. change (4 <= 4). lia. }
  exact (proj1 (detect_bubble_fill_out_of_bounds (white 4 4) 4 2 1 (3 # 10) H)).
Defined.

(** ** The counting loop *)

Lemma count_px_app (img : image) (hit : Z -> bool) (ps qs : list (Z * Z)) :
  count_px img hit (ps ++ qs) = count_px img hit ps + count_px img hit qs.
Proof. unfold count_px. rewrite filter_app, length_app. lia. Qed.

Lemma count_px_cons (img : image) (hit : Z -> bool) (p : Z * Z) (ps : list (Z * Z)) :
  count_px img hit (p :: ps) =
    (if hit (getpx img p.1 p.2) then 1 else 0) + count_px img hit ps.
Proof.
  unfold count_px. rewrite filter_cons.
  destruct (hit (getpx img p.1 p.2)).
  - rewrite decide_True by done. simpl. lia.
  - rewrite decide_False by done. simpl. lia.
Qed.

Lemma count_px_nil (img : image) (hit : Z -> bool) : count_px img hit [] = 0.
Proof. done. Qed.

Lemma count_px_bounds (img : image) (hit : Z -> bool) (ps : list (Z * Z)) :
  0 <= count_px img hit ps <= Z.of_nat (length ps).
Proof.
  unfold count_px. pose proof (length_filter (fun p => hit (getpx img p.1 p.2) = true) ps). lia.
Qed.

Lemma count_window_spec (img : image) (cx cy r : Z)
    (inside : Z -> Z -> bool) (hit : Z -> bool) :
  TestScan.count_window img cx cy r inside hit =
    (count_px img hit (window_pixels img cx cy r inside),
     Z.of_nat (length (window_pixels img cx cy r inside))).
Proof.
  unfold TestScan.count_window, window_pixels.
  set (cell := fun dy dx =>
    if inside dx dy && in_bounds (width img) (height img) (cx + dx) (cy + dy)
    then [(cx + dx, cy + dy)] else []).
  set (dxs := Py.range (- r) (r + 1)).
  assert (forall dy l h0 t0,
    fold_left (fun '(hits, total) dx =>
      if inside dx dy then
        if in_bounds (width img) (height img) (cx + dx) (cy + dy) then
          (if hit (getpx img (cx + dx) (cy + dy)) then hits + 1 else hits, total + 1)
        else (hits, total)
      else (hits, total)) l (h0, t0)
    = (h0 + count_px img hit (l ≫= cell dy), t0 + Z.of_nat (length (l ≫= cell dy)))) as Hrow.
  { intros dy l. induction l as [|dx l IH]; intros h0 t0.
    - simpl. rewrite count_px_nil. f_equal; lia.
    - cbn [fold_left]. change ((dx :: l) ≫= cell dy) with (cell dy dx ++ (l ≫= cell dy)).
      rewrite count_px_app, length_app. unfold cell at 1 3.
      destruct (inside dx dy); simpl.
      + destruct (in_bounds _ _ _ _); simpl.
        * rewrite IH, count_px_cons, count_px_nil. simpl.
          destruct (hit (getpx img (cx + dx) (cy + dy))); f_equal; lia.
        * rewrite IH, count_px_nil. f_equal; lia.
      + rewrite IH, count_px_nil. f_equal; lia. }
  assert (forall l h0 t0,
    fold_left (fun st dy =>
      fold_left (fun '(hits, total) dx =>
        if inside dx dy then
          if in_bounds (width img) (height img) (cx + dx) (cy + dy) then
            (if hit (getpx img (cx + dx) (cy + dy)) then hits + 1 else hits, total + 1)
          else (hits, total)
        else (hits, total)) dxs st) l (h0, t0)
    = (h0 + count_px img hit (l ≫= fun dy => dxs ≫= cell dy),
       t0 + Z.of_nat (length (l ≫= fun dy => dxs ≫= cell dy)))) as Hall.
  { intros l. induction l as [|dy l IH]; intros h0 t0.
    - simpl. rewrite count_px_nil. f_equal; lia.
    - cbn [fold_left].
      change ((dy :: l) ≫= fun dy => dxs ≫= cell dy)
        with ((dxs ≫= cell dy) ++ (l ≫= fun dy => dxs ≫= cell dy)).
      rewrite Hrow, IH, count_px_app, length_app. f_equal; lia. }
  rewrite Hall. done.
Qed.

Lemma window_pixels_elem (img : image) (cx cy r : Z) (inside : Z -> Z -> bool) (x y : Z) :
  (x, y) ∈ window_pixels img cx cy r inside <->
  - r <= x - cx <= r /\ - r <= y - cy <= r
  /\ inside (x - cx) (y - cy) = true
  /\ in_bounds (width img) (height img) x y = true.
Proof.
  unfold window_pixels. rewrite list_elem_of_bind. split.
  - intros (dy & Hin & Hdy). apply list_elem_of_bind in Hin as (dx & Hin & Hdx).
    apply range_elem in Hdy, Hdx.
    destruct (inside dx dy && in_bounds _ _ _ _) eqn:E; [|by apply elem_of_nil in Hin].
    apply list_elem_of_singleton in Hin. injection Hin as -> ->.
    apply andb_true_iff in E as [E1 E2].
    replace (cx + dx - cx) with dx by lia. replace (cy + dy - cy) with dy by lia.
    repeat split; try lia; done.
  - intros (Hx & Hy & Hi & Hb). exists (y - cy). split; [|apply range_elem; lia].
    apply list_elem_of_bind. exists (x - cx). split; [|apply range_elem; lia].
    rewrite Hi. replace (cx + (x - cx)) with x by lia. replace (cy + (y - cy)) with y by lia.
    rewrite Hb. simpl. by apply list_elem_of_singleton.
Qed.


(** A disk test confines the offsets to the window by itself. *)
Lemma disk_in_window (r dx dy : Z) :
  0 <= r -> dx * dx + dy * dy <= r * r -> - r <= dx <= r /\ - r <= dy <= r.
Proof. intros Hr H. nia. Qed.

Lemma in_bounds_true (w h x y : Z) :
  in_bounds w h x y = true <-> 0 <= x < w /\ 0 <= y < h.
Proof. unfold in_bounds. rewrite !andb_true_iff. lia. Qed.

Lemma disk_pixels_elem (img : image) (cx cy r : Z) (x y : Z) :
  0 <= r ->
  (x, y) ∈ window_pixels img cx cy r (fun dx dy => dx * dx + dy * dy <=? r * r) <->
  0 <= x < width img /\ 0 <= y < height img
  /\ (x - cx) * (x - cx) + (y - cy) * (y - cy) <= r * r.
Proof.
  intros Hr. rewrite window_pixels_elem, in_bounds_true. split.
  - intros (_ & _ & Hd & Hb). apply Z.leb_le in Hd. lia.
  - intros (Hx & Hy & Hd). pose proof (disk_in_window r _ _ Hr Hd).
    repeat split; first [lia | by apply Z.leb_le].
Qed.



(** The all-white sheet of the tests of the repository. *)
Example detect_white_sheet :
  TestScan.detect_bubble_fill (white 30 30) 15 15 10 (3 # 10) = Some (false, (99 # 100)%Q).
Proof. vm_compute. reflexivity. Qed.

(** At threshold 0 the quotient [fill_ratio / threshold] raises. *)
Example detect_zero_threshold :
  TestScan.detect_bubble_fill (white 30 30) 15 15 10 0 = None.
Proof. vm_compute. reflexivity. Qed.

(** ** Sparse image files *)

Lemma getpx_canvas (img : image) (w h x y : Z) :
  is_canvas img w h -> 0 <= x < w -> 0 <= y < h -> 0 <= getpx img x y <= 255.
Proof.
  intros [[Hl Hr] Hv] Hx Hy. unfold getpx.
  destruct (img !! Z.to_nat y) as [row|] eqn:Erow; simpl; [|lia].
  destruct (row !! Z.to_nat x) as [v|] eqn:Ev; simpl; [|lia].
  eapply Forall_lookup_1 in Hv; [|exact Erow].
  eapply Forall_lookup_1 in Hv; [|exact Ev]. done.
Qed.

(** The pixel list of [save_compact]: row by row, the non-white pixels. *)
Lemma save_compact_pixels (g : TestGen.TestImageGenerator) (img : image) :
  sp_pixels (TestGen.save_compact g img) =
    y ← Py.range 0 (TestGen.gen_height g);
    x ← Py.range 0 (TestGen.gen_width g);
    if getpx img x y <? 255 then [(x, y, getpx img x y)] else [].
Proof.
  unfold TestGen.save_compact. simpl.
  set (cell := fun y x => if getpx img x y <? 255 then [(x, y, getpx img x y)] else []).
  assert (forall y l acc,
    fold_left (fun pixels x =>
      if getpx img x y <? 255 then pixels ++ [(x, y, getpx img x y)] else pixels) l acc
    = acc ++ (l ≫= cell y)) as Hrow.
  { intros y l. induction l as [|x l IH]; intros acc.
    - simpl. by rewrite app_nil_r.
    - cbn [fold_left]. change ((x :: l) ≫= cell y) with (cell y x ++ (l ≫= cell y)).
      rewrite IH. unfold cell at 2. destruct (getpx img x y <? 255); simpl.
      + by rewrite <- app_assoc.
      + done. }
  assert (forall l acc,
    fold_left (fun pixels y =>
      fold_left (fun pixels x =>
        if getpx img x y <? 255 then pixels ++ [(x, y, getpx img x y)] else pixels)
        (Py.range 0 (TestGen.gen_width g)) pixels) l acc
    = acc ++ (l ≫= fun y => Py.range 0 (TestGen.gen_width g) ≫= cell y)) as Hall.
  { intros l. induction l as [|y l IH]; intros acc.
    - simpl. by rewrite app_nil_r.
    - cbn [fold_left].
      change ((y :: l) ≫= fun y => Py.range 0 (TestGen.gen_width g) ≫= cell y)
        with ((Py.range 0 (TestGen.gen_width g) ≫= cell y)
              ++ (l ≫= fun y => Py.range 0 (TestGen.gen_width g) ≫= cell y)).
      rewrite Hrow, IH. by rewrite <- app_assoc. }
  rewrite Hall. done.
Qed.

Lemma save_compact_elem (g : TestGen.TestImageGenerator) (img : image) (x y v : Z) :
  (x, y, v) ∈ sp_pixels (TestGen.save_compact g img) <->
  0 <= x < TestGen.gen_width g /\ 0 <= y < TestGen.gen_height g
  /\ v = getpx img x y /\ v < 255.
Proof.
  rewrite save_compact_pixels, list_elem_of_bind. split.
  - intros (y' & Hin & Hy). apply list_elem_of_bind in Hin as (x' & Hin & Hx).
    apply range_elem in Hx, Hy.
    destruct (getpx img x' y' <? 255) eqn:E; [|by apply elem_of_nil in Hin].
    apply list_elem_of_singleton in Hin. simplify_eq. lia.
  - intros (Hx & Hy & -> & Hv). exists y. split; [|apply range_elem; lia].
    apply list_elem_of_bind. exists x. split; [|apply range_elem; lia].
    destruct (getpx img x y <? 255) eqn:E; [|lia]. by apply list_elem_of_singleton.
Qed.


Lemma store_all_has_dims (ps : list (Z * Z * Z)) (img : image) (w h : Z) :
  has_dims img w h -> has_dims (store_all ps img) w h.
Proof.
  intros Hd. unfold store_all. apply fold_left_invariant; [done|].
  intros a [[x y] v] _ Ha. by apply setpx_has_dims.
Qed.

Lemma py_index_in_range (len : nat) (i : Z) :
  0 <= i < Z.of_nat len -> Py.index len i = Some (Z.to_nat i).
Proof.
  intros Hi. unfold Py.index.
  destruct ((0 <=? i) && (i <? Z.of_nat len)) eqn:E; [done|].
  apply andb_false_iff in E as [E|E]; lia.
Qed.

(** With every listed pixel in range, no store of [load_image] fails. *)
Lemma load_sparse_in_range (data : sparse_image) :
  (forall x y v, (x, y, v) ∈ sp_pixels data ->
     0 <= x < sp_width data /\ 0 <= y < sp_height data) ->
  TestScan.load_sparse data =
    Some (store_all (sp_pixels data) (white (sp_width data) (sp_height data))).
Proof.
  unfold TestScan.load_sparse, store_all.
  generalize (white_has_dims (sp_width data) (sp_height data)).
  generalize (white (sp_width data) (sp_height data)) as img0.
  generalize (sp_width data) as w. generalize (sp_height data) as h.
  induction (sp_pixels data) as [|[[x y] v] ps IH]; intros h w img0 Hd Hin; [done|].
  cbn [fold_left].
  destruct (Hin x y v) as [Hx Hy]; [left|].
  destruct Hd as [Hl Hr].
  cbn [mbind option_bind].
  rewrite py_index_in_range by lia. cbn [mbind option_bind].
  destruct (img0 !! Z.to_nat y) as [row|] eqn:Erow;
    [|apply lookup_ge_None in Erow; lia].
  cbn [mbind option_bind].
  assert (length row = Z.to_nat w) as Hrow by (eapply Forall_lookup_1 in Hr; eauto).
  rewrite py_index_in_range by lia. cbn [mbind option_bind].
  assert (<[Z.to_nat y := <[Z.to_nat x := v]> row]> img0 = setpx img0 x y v) as ->.
  { unfold setpx. rewrite list_insert_alter. apply list_alter_ext; [|done].
    intros r Hr'. congruence. }
  apply (IH h w).
  - apply setpx_has_dims. by split.
  - intros x' y' v' H'. apply (Hin x' y' v'). by right.
Qed.

(** Reading after a list of stores that agree with a function [f]. *)
Lemma getpx_store_all (f : Z -> Z -> Z) (ps : list (Z * Z * Z)) (img0 : image) (w h x y : Z) :
  has_dims img0 w h ->
  (forall x y v, (x, y, v) ∈ ps -> 0 <= x < w /\ 0 <= y < h /\ v = f x y) ->
  0 <= x < w -> 0 <= y < h ->
  ((exists v, (x, y, v) ∈ ps) -> getpx (store_all ps img0) x y = f x y)
  /\ ((forall v, (x, y, v) ∉ ps) -> getpx (store_all ps img0) x y = getpx img0 x y).
Proof.
  intros Hd Hps Hx Hy. induction ps as [|[[x' y'] v'] ps IH] using rev_ind.
  - split; [|done]. intros [v Hv]. by apply elem_of_nil in Hv.
  - unfold store_all in *. rewrite fold_left_app. cbn [fold_left].
    destruct (Hps x' y' v') as (Hx' & Hy' & Hv'); [apply elem_of_app; right; left|].
    destruct IH as [IH1 IH2].
    { intros a b c H'. apply (Hps a b c). apply elem_of_app. by left. }
    rewrite (getpx_setpx _ w h) by (try apply (store_all_has_dims ps img0 w h); done || lia).
    destruct (bool_decide (x' = x /\ y' = y)) eqn:E.
    + apply bool_decide_eq_true in E as [-> ->]. split; [done|].
      intros Hnone. exfalso. apply (Hnone v'). apply elem_of_app. right. left.
    + apply bool_decide_eq_false in E. split.
      * intros [v Hv]. apply IH1. exists v.
        apply elem_of_app in Hv as [Hv|Hv]; [done|].
        apply list_elem_of_singleton in Hv. simplify_eq. tauto.
      * intros Hnone. apply IH2. intros v Hv. apply (Hnone v). apply elem_of_app. by left.
Qed.

(** The round trip holds for every canvas, whatever its share of
    non-white pixels. *)
Lemma canvas_round_trip (g : TestGen.TestImageGenerator) (img : image) :
  is_canvas img (TestGen.gen_width g) (TestGen.gen_height g) ->
  TestScan.load_sparse (TestGen.save_compact g img) = Some img
  /\ store_all (sp_pixels (TestGen.save_compact g img))
       (white (TestGen.gen_width g) (TestGen.gen_height g)) = img.
Proof.
  intros Hc. pose proof Hc as [Hd _].
  set (w := TestGen.gen_width g) in *. set (h := TestGen.gen_height g) in *.
  assert (store_all (sp_pixels (TestGen.save_compact g img)) (white w h) = img) as Hst.
  { apply (image_ext _ _ w h); [apply store_all_has_dims, white_has_dims | done |].
    intros x y Hx Hy.
    destruct (getpx_store_all (getpx img) (sp_pixels (TestGen.save_compact g img))
                (white w h) w h x y) as [H1 H2]; [apply white_has_dims | | done | done |].
    { intros x' y' v' H'. apply save_compact_elem in H'. tauto. }
    destruct (decide (getpx img x y < 255)) as [Hlt|Hge].
    - apply H1. exists (getpx img x y). apply save_compact_elem. tauto.
    - rewrite H2, getpx_white.
      + pose proof (getpx_canvas img w h x y Hc Hx Hy). lia.
      + intros v Hv. apply save_compact_elem in Hv. lia. }
  split; [|done].
  rewrite load_sparse_in_range.
  - change (sp_width (TestGen.save_compact g img)) with w.
    change (sp_height (TestGen.save_compact g img)) with h. by rewrite Hst.
  - intros x y v Hv. apply save_compact_elem in Hv. simpl. tauto.
Qed.

(** C7: for a canvas with fewer than 5% non-white pixels, reading back
    the sparse file written by [save_compact] gives the original grid;
    the reader starts from the white canvas of the stored width and height
    and applies the stored triples, so a pixel is white exactly when no
    triple is stored for it. *)
Theorem sparse_round_trip (g : TestGen.TestImageGenerator) (img : image) :
  is_canvas img (TestGen.gen_width g) (TestGen.gen_height g) ->
  20 * nonwhite_count img < TestGen.gen_width g * TestGen.gen_height g ->
  let data := TestGen.save_compact g img in
  TestScan.load_image ".json" (JsonFile data) = Some img
  /\ TestScan.load_image ".json" (JsonFile data)
     = Some (store_all (sp_pixels data) (white (sp_width data) (sp_height data)))
  /\ forall x y, 0 <= x < TestGen.gen_width g -> 0 <= y < TestGen.gen_height g ->
       (getpx img x y = 255 <-> forall v, (x, y, v) ∉ sp_pixels data).
Proof.
  intros Hc _ data. destruct (canvas_round_trip g img Hc) as [Hload Hst].
  split; [exact Hload|]. split.
  - change (TestScan.load_image ".json" (JsonFile data)) with (TestScan.load_sparse data).
    unfold data. rewrite Hload.
    change (sp_width (TestGen.save_compact g img)) with (TestGen.gen_width g).
    change (sp_height (TestGen.save_compact g img)) with (TestGen.gen_height g).
    by rewrite Hst.
  - intros x y Hx Hy. split.
    + intros Hw v Hv. apply save_compact_elem in Hv. lia.
    + intros Hnone. pose proof (getpx_canvas img _ _ x y Hc Hx Hy).
      destruct (decide (getpx img x y < 255)) as [Hlt|Hge]; [|lia].
      exfalso. apply (Hnone (getpx img x y)). apply save_compact_elem. tauto.
Qed.

Lemma sparse_round_trip_witness :
  TestScan.load_image ".json"
    (JsonFile (TestGen.save_compact {| TestGen.gen_width := 5; TestGen.gen_height := 5 |}
       [[255; 255; 255; 255; 255]; [255; 255; 255; 255; 255]; [255; 255; 50; 255; 255];
        [255; 255; 255; 255; 255]; [255; 255; 255; 255; 255]]))
  = Some [[255; 255; 255; 255; 255]; [255; 255; 255; 255; 255]; [255; 255; 50; 255; 255];
          [255; 255; 255; 255; 255]; [255; 255; 255; 255; 255]].
Proof.
  apply (sparse_round_trip {| TestGen.gen_width := 5; TestGen.gen_height := 5 |}).
  - split; [split; [reflexivity | repeat constructor] | repeat constructor; lia].
  - vm_compute. reflexivity.
Defined.

(** ** Loops of stores *)

Lemma store_all_app (ps qs : list (Z * Z * Z)) (img : image) :
  store_all (ps ++ qs) img = store_all qs (store_all ps img).
Proof. unfold store_all. apply fold_left_app. Qed.

Lemma fold_left_ext {A B} (f g : A -> B -> A) (l : list B) (a : A) :
  (forall a x, x ∈ l -> f a x = g a x) -> fold_left f l a = fold_left g l a.
Proof.
  revert a. induction l as [|x l IH]; intros a H; [done|]. simpl.
  rewrite H by left. apply IH. intros a' y Hy. apply H. by right.
Qed.

(** A loop whose body is a list of stores is the list of all its stores. *)
Lemma fold_store_all {B} (cell : B -> list (Z * Z * Z)) (l : list B) (img : image) :
  fold_left (fun img b => store_all (cell b) img) l img = store_all (l ≫= cell) img.
Proof.
  revert img. induction l as [|b l IH]; intros img; [done|].
  cbn [fold_left]. change ((b :: l) ≫= cell) with (cell b ++ (l ≫= cell)).
  by rewrite store_all_app, IH.
Qed.

Lemma nested_store_all {B C} (cell : B -> C -> list (Z * Z * Z))
    (ys : list B) (xs : list C) (img : image) :
  fold_left (fun img y => fold_left (fun img x => store_all (cell y x) img) xs img) ys img
  = store_all (ys ≫= fun y => xs ≫= cell y) img.
Proof.
  rewrite <- fold_store_all. apply fold_left_ext. intros a y _. apply fold_store_all.
Qed.

(** ** Skew *)

Lemma apply_skew_stores (img : image) (k : Q) :
  TestGen._apply_skew img k =
    store_all
      (y ← Py.range 0 (height img);
       x ← Py.range 0 (width img);
       let src_x := x - Py.int (k * (inject_Z y - inject_Z (height img) / 2)) in
       if (0 <=? src_x) && (src_x <? width img) then [(x, y, getpx img src_x y)] else [])
      (white (width img) (height img)).
Proof.
  unfold TestGen._apply_skew. rewrite <- nested_store_all.
  apply fold_left_ext. intros a y _. apply fold_left_ext. intros b x _.
  by destruct ((0 <=? _) && (_ <? width img)).
Qed.






(** ** Extraction of one question *)

Lemma Qmin_left (x y : Q) : (x <= y)%Q -> Qmin x y = x.
Proof.
  intros H. unfold Qmin, GenericMinMax.gmin.
  destruct (Qcompare_spec x y) as [E|E|E]; try done.
  exfalso. by apply (Qlt_not_le _ _ E).
Qed.

(** At the default threshold the classifier always answers, and a filled
    verdict always carries confidence 0.99. *)
Lemma field_verdict_default (img : image) (dpi : Z) (f : answer_field) :
  exists b c, field_verdict img dpi f = Some (b, c) /\ (b = true -> c = (99 # 100)%Q).
Proof.
  unfold field_verdict, TestScan.detect_bubble_fill.
  destruct (_ || _ || _ || _); [by exists false, 0%Q|].
  destruct (TestScan.count_window _ _ _ _ _ _) as [dark total].
  destruct (total =? 0) eqn:Et; [by exists false, 0%Q|].
  rewrite !py_div_nonzero by discriminate.
  destruct (Py.geb _ _) eqn:E; simpl.
  - eexists _, _. split; [done|]. intros _. apply Qmin_left.
    apply py_geb_ge in E. apply Qle_shift_div_l; [reflexivity|].
    eapply Qle_trans; [|exact E]. discriminate.
  - eexists _, _. split; [done|]. discriminate.
Qed.

Lemma field_filled_verdict (img : image) (dpi : Z) (f : answer_field) :
  (field_filled img dpi f = true -> field_verdict img dpi f = Some (true, (99 # 100)%Q))
  /\ (field_filled img dpi f = false -> exists c, field_verdict img dpi f = Some (false, c)).
Proof.
  unfold field_filled.
  destruct (field_verdict_default img dpi f) as (b & c & -> & Hc).
  destruct b; split; try done.
  - intros _. by rewrite Hc.
  - intros _. by exists c.
Qed.

Lemma bubble_step_filled (img : image) (dpi : Z) (f : answer_field)
    (e : option string) (m : Q) (fb : list (string * Q)) :
  field_filled img dpi f = true ->
  TestScan.bubble_step img dpi (Some (e, m, fb)) f =
    if Py.gtb (99 # 100) m
    then Some (Some (field_label f), (99 # 100)%Q, fb ++ [(field_label f, (99 # 100)%Q)])
    else Some (e, m, fb ++ [(field_label f, (99 # 100)%Q)]).
Proof.
  intros H. apply field_filled_verdict in H. unfold field_verdict in H.
  unfold TestScan.bubble_step. cbn [mbind option_bind]. rewrite H. done.
Qed.

Lemma bubble_step_unfilled (img : image) (dpi : Z) (f : answer_field)
    (st : TestScan.bubble_state) :
  field_filled img dpi f = false ->
  TestScan.bubble_step img dpi (Some st) f = Some st.
Proof.
  intros H. apply field_filled_verdict in H as [c H]. unfold field_verdict in H.
  destruct st as [[e m] fb].
  unfold TestScan.bubble_step. cbn [mbind option_bind]. rewrite H. done.
Qed.

(** Once a filled field has been seen, later fields only extend the list. *)
Lemma bubble_fold_after (img : image) (dpi : Z) (fields : list answer_field)
    (e : option string) (fb : list (string * Q)) :
  fold_left (TestScan.bubble_step img dpi) fields (Some (e, (99 # 100)%Q, fb)) =
    Some (e, (99 # 100)%Q,
          fb ++ map (fun f => (field_label f, (99 # 100)%Q))
                  (filter (fun f => field_filled img dpi f = true) fields)).
Proof.
  revert fb. induction fields as [|f fields IH]; intros fb.
  - simpl. by rewrite app_nil_r.
  - cbn [fold_left]. rewrite filter_cons.
    destruct (field_filled img dpi f) eqn:E.
    + rewrite bubble_step_filled by done.
      change (Py.gtb (99 # 100) (99 # 100)) with false. cbv iota.
      rewrite IH. rewrite decide_True by done. simpl. by rewrite <- app_assoc.
    + rewrite bubble_step_unfilled by done. rewrite IH.
      rewrite decide_False by done. done.
Qed.

Lemma bubble_fold (img : image) (dpi : Z) (fields : list answer_field) :
  fold_left (TestScan.bubble_step img dpi) fields (Some (None, 0%Q, [])) =
    match filter (fun f => field_filled img dpi f = true) fields with
    | [] => Some (None, 0%Q, [])
    | f :: rest =>
      Some (Some (field_label f), (99 # 100)%Q,
            map (fun f => (field_label f, (99 # 100)%Q)) (f :: rest))
    end.
Proof.
  induction fields as [|f fields IH]; [done|].
  cbn [fold_left]. rewrite filter_cons.
  destruct (field_filled img dpi f) eqn:E.
  - rewrite bubble_step_filled by done.
    change (Py.gtb (99 # 100) 0) with true. cbv iota.
    rewrite bubble_fold_after. rewrite decide_True by done. done.
  - rewrite bubble_step_unfilled by done. rewrite IH.
    rewrite decide_False by done. done.
Qed.



(** ** Extraction of a sheet *)

Lemma extract_question_total (img : image) (dpi : Z) (q : question_layout) :
  exists l, TestScan.extract_question img dpi q = Some l
    /\ (has_branch q = false -> l = [])
    /\ (has_branch q = true ->
          exists a, l = [a]
            /\ TestScan.ans_question_id a = question_id q
            /\ TestScan.ans_question_number a = default 0 (question_number q)
            /\ TestScan.ans_question_type a = q_type q
            /\ TestScan.extraction_method a =
                 if TestScan.is_choice_type (q_type q)
                 then "bubble_detection" else "ocr_simulation").
Proof.
  unfold TestScan.extract_question, has_branch.
  assert (TestScan.is_choice_type (q_type q) = true ->
          TestScan.is_text_type (q_type q) = false) as Hexcl.
  { unfold TestScan.is_choice_type, TestScan.is_text_type.
    intros H. apply bool_decide_eq_true in H. apply bool_decide_eq_false.
    intros H'.
    apply elem_of_cons in H as [E|H];
      [|apply elem_of_cons in H as [E|H]; [|by apply elem_of_nil in H]];
      rewrite E in H';
      (apply elem_of_cons in H' as [H'|H']; [discriminate|];
       apply elem_of_cons in H' as [H'|H']; [discriminate | by apply elem_of_nil in H']). }
  destruct (answer_fields q) as [fields|] eqn:Ef.
  - destruct (TestScan.is_choice_type (q_type q)) eqn:Ec.
    + unfold TestScan.extract_choice. rewrite bubble_fold.
      destruct (filter _ fields) as [|f [|f' rest]]; cbn;
        (eexists; split; [done|]; split; [done|]; intros _; eexists; split; [done|]; done).
    + destruct (ocr_region q) as [ocr|]; cbn.
      * destruct (TestScan.is_text_type (q_type q)); cbn.
        -- eexists. split; [done|]. split; [done|]. intros _. eexists. split; [done|].
           unfold TestScan.extract_ocr. destruct (TestScan.ocr_count _ _ _ _ _).
           by destruct (Py.gtb _ _).
        -- eexists. split; [done|]. split; [done|]. done.
      * eexists. split; [done|]. split; [done|]. rewrite andb_false_r. done.
  - destruct (ocr_region q) as [ocr|]; cbn.
    + destruct (TestScan.is_text_type (q_type q)) eqn:Et; cbn.
      * rewrite andb_false_r. cbn.
        eexists. split; [done|]. split; [done|]. intros _. eexists. split; [done|].
        destruct (TestScan.is_choice_type (q_type q)) eqn:Ec;
          [by specialize (Hexcl eq_refl)|].
        unfold TestScan.extract_ocr. destruct (TestScan.ocr_count _ _ _ _ _).
        by destruct (Py.gtb _ _).
      * rewrite andb_false_r. cbn. eexists. split; [done|]. split; [done|]. done.
    + rewrite !andb_false_r. cbn. eexists. split; [done|]. split; [done|]. done.
Qed.

Lemma extract_loop (img : image) (dpi : Z) (qs : list question_layout)
    (acc : list TestScan.answer) :
  exists answers,
    fold_left (fun acc q_layout =>
                 answers ← acc;
                 new ← TestScan.extract_question img dpi q_layout;
                 Some (answers ++ new)) qs (Some acc) = Some (acc ++ answers)
    /\ answers_match qs answers.
Proof.
  revert acc. induction qs as [|q qs IH]; intros acc.
  - exists []. split; [by rewrite app_nil_r | constructor].
  - cbn [fold_left]. destruct (extract_question_total img dpi q) as (l & El & Hno & Hyes).
    cbn [mbind option_bind]. rewrite El. cbn [mbind option_bind].
    destruct (IH (acc ++ l)) as (answers & Efold & Hm).
    exists (l ++ answers). split; [by rewrite Efold, app_assoc|].
    unfold answers_match. rewrite filter_cons.
    destruct (has_branch q) eqn:Eb.
    + destruct Hyes as (a & -> & Ha); [done|]. rewrite decide_True by done.
      simpl. constructor; done.
    + rewrite Hno by done. rewrite decide_False by done. done.
Qed.

(** C9 (as amended): extraction always returns, and its answers are, in
    layout order, one record for each layout record that is a choice type
    with answer fields or a free-text type with an OCR region, carrying that
    record's id, number and type and the method tag of its branch; a layout
    record that enters neither branch contributes no answer.  When every
    record enters a branch there is one answer per layout record. *)
Theorem extract_answers_records (img : image) (layout : template_layout) :
  rectangular img ->
  exists answers meta,
    TestScan.extract_answers img layout = Some (answers, meta)
    /\ answers_match (questions layout) answers
    /\ (Forall (fun q => has_branch q = true) (questions layout) ->
          length answers = length (questions layout)).
Proof.
  intros _. unfold TestScan.extract_answers.
  destruct (TestScan.detect_registration_marks _ _ _) as [detected success].
  destruct (extract_loop img (page_dpi layout) (questions layout) []) as (answers & E & Hm).
  rewrite E. cbn. eexists _, _. split; [done|]. split; [done|].
  intros Hall. apply Forall2_length in Hm. rewrite <- Hm.
  f_equal. clear -Hall. induction Hall as [|q qs Hq _ IH]; [done|].
  rewrite filter_cons, decide_True by done. by rewrite IH.
Qed.

Lemma extract_answers_records_witness :
  exists answers meta,
    TestScan.extract_answers sample_sheet sample_layout = Some (answers, meta)
    /\ answers_match (questions sample_layout) answers.
Proof.
  destruct (extract_answers_records sample_sheet sample_layout) as (answers & meta & H1 & H2 & _).
  - vm_compute. repeat constructor.
  - exists answers, meta. split; assumption.
Defined.

(** C9, as stated, fails on a layout record that enters no branch: the
    record of type [multiple_choice] without answer fields gets no answer. *)
Lemma bare_record_gets_no_answer :
  fst <$> TestScan.extract_answers (white 10 10) bare_layout = Some []
  /\ length (questions bare_layout) = 1%nat
  /\ ~ (exists answers meta,
          TestScan.extract_answers (white 10 10) bare_layout = Some (answers, meta)
          /\ length answers = length (questions bare_layout)).
Proof.
  assert (fst <$> TestScan.extract_answers (white 10 10) bare_layout = Some []) as E
    by (vm_compute; reflexivity).
  split; [exact E|]. split; [reflexivity|].
  intros (answers & meta & H & Hlen). rewrite H in E. simpl in E.
  injection E as ->. discriminate.
Qed.

(** ** Registration marks *)

Lemma window_pixels_empty (img : image) (cx cy r : Z) (inside : Z -> Z -> bool) :
  r < 0 -> window_pixels img cx cy r inside = [].
Proof.
  intros Hr. unfold window_pixels.
  assert (Py.range (- r) (r + 1) = []) as ->; [|done].
  unfold Py.range. replace (Z.to_nat (r + 1 - - r)) with 0%nat by lia. done.
Qed.

Lemma py_int_negative (q : Q) : (q < 0)%Q -> Py.int q <= 0.
Proof.
  destruct q as [n d]. unfold Qlt, Py.int. simpl. intros Hn.
  apply Z.quot_le_upper_bound; lia.
Qed.

(** The score computed by [_is_dark_circle] is [mark_score]. *)
Lemma is_dark_circle_score (img : image) (cx cy r : Z) :
  TestScan._is_dark_circle img cx cy r = mark_score img cx cy r.
Proof.
  unfold TestScan._is_dark_circle, mark_score, disk_inside.
  destruct ((cx <? r) || (cy <? r) || (width img - r <=? cx) || (height img - r <=? cy)) eqn:G.
  - assert ((0 <=? r) && (r <=? cx) && (cx <? width img - r) && (r <=? cy)
            && (cy <? height img - r) = false) as ->; [|done].
    repeat (apply orb_true_iff in G as [G|G]); rewrite !andb_false_iff; lia.
  - repeat (apply orb_false_iff in G as [G ?]).
    rewrite !count_window_spec. fold (disk_pixels img cx cy r).
    destruct (0 <=? r) eqn:Er.
    + assert ((r <=? cx) && (cx <? width img - r) && (r <=? cy)
              && (cy <? height img - r) = true) as Hg
        by (rewrite !andb_true_iff; lia).
      cbn [andb]. rewrite Hg.
      assert ((cx, cy) ∈ disk_pixels img cx cy r) as Hc.
      { apply disk_pixels_elem; [lia|]. nia. }
      assert (0 < Z.of_nat (length (disk_pixels img cx cy r))) as Hpos.
      { destruct (disk_pixels img cx cy r); [by apply elem_of_nil in Hc | simpl; lia]. }
      destruct (Z.of_nat (length (disk_pixels img cx cy r)) =? 0) eqn:E0; [lia|].
      unfold fraction at 1. destruct (0 <? Z.of_nat (length (disk_pixels img cx cy r))) eqn:E1; [|lia].
      done.
    + cbn [andb]. unfold disk_pixels. rewrite window_pixels_empty by lia. done.
Qed.

(** The candidates of the search, in loop order. *)
Lemma search_grid_range : Py.range_step (- 20) (20 + 1) 5 = search_grid.
Proof. reflexivity. Qed.

Lemma nested_fold_flat {A B C D} (f : A -> D -> A) (g : B -> C -> D)
    (ys : list B) (xs : list C) (a : A) :
  fold_left (fun a y => fold_left (fun a x => f a (g y x)) xs a) ys a
  = fold_left f (ys ≫= fun y => g y <$> xs) a.
Proof.
  assert (forall y a, fold_left (fun a x => f a (g y x)) xs a = fold_left f (g y <$> xs) a) as Hin.
  { intros y. induction xs as [|x xs IHx]; intros a'; [done|]. simpl. apply IHx. }
  revert a. induction ys as [|y ys IH]; intros a; [done|].
  cbn [fold_left]. change ((y :: ys) ≫= fun y => g y <$> xs)
    with ((g y <$> xs) ++ (ys ≫= fun y => g y <$> xs)).
  by rewrite fold_left_app, <- IH, Hin.
Qed.

(** Keeping the best of a list of scored candidates. *)
Lemma best_of_candidates (score : Z * Z -> Q) (cands : list (Z * Z))
    (s0 : Q) (b0 : option TestScan.best_match) :
  let step := fun (st : Q * option TestScan.best_match) (c : Z * Z) =>
    if Py.gtb (score c) st.1
    then (score c, Some {| TestScan.match_x := c.1; TestScan.match_y := c.2;
                           TestScan.match_score := score c |})
    else st in
  let r := fold_left step cands (s0, b0) in
  (s0 <= r.1)%Q
  /\ (forall c, c ∈ cands -> (score c <= r.1)%Q)
  /\ (r = (s0, b0)
      \/ exists c, c ∈ cands /\ (s0 < score c)%Q
           /\ r = (score c, Some {| TestScan.match_x := c.1; TestScan.match_y := c.2;
                                    TestScan.match_score := score c |})).
Proof.
  intros step. revert s0 b0. induction cands as [|c cands IH]; intros s0 b0 r.
  - split; [apply Qle_refl|]. split; [|by left]. intros c Hc. by apply elem_of_nil in Hc.
  - subst r. cbn [fold_left].
    destruct (Py.gtb (score c) s0) eqn:E.
    + assert (step (s0, b0) c =
              (score c, Some {| TestScan.match_x := c.1; TestScan.match_y := c.2;
                                TestScan.match_score := score c |})) as ->
        by (unfold step; cbn [fst]; by rewrite E).
      apply py_gtb_gt in E.
      destruct (IH (score c) (Some {| TestScan.match_x := c.1; TestScan.match_y := c.2;
                                      TestScan.match_score := score c |}))
        as (H1 & H2 & H3).
      split; [eapply Qle_trans; [apply Qlt_le_weak, E | exact H1]|].
      split.
      * intros c' Hc'. apply elem_of_cons in Hc' as [->|Hc']; [exact H1 | by apply H2].
      * right. destruct H3 as [H3|(c' & Hc' & Hlt & H3)].
        -- exists c. split; [left|]. split; [done|]. exact H3.
        -- exists c'. split; [by right|]. split; [|exact H3].
           eapply Qlt_trans; [exact E | exact Hlt].
    + assert (step (s0, b0) c = (s0, b0)) as ->
        by (unfold step; cbn [fst]; by rewrite E).
      assert (score c <= s0)%Q as Hle.
      { apply Qnot_lt_le. intros Hlt. apply py_gtb_gt in Hlt. congruence. }
      destruct (IH s0 b0) as (H1 & H2 & H3).
      split; [exact H1|]. split.
      * intros c' Hc'. apply elem_of_cons in Hc' as [->|Hc'];
          [eapply Qle_trans; [exact Hle | exact H1] | by apply H2].
      * destruct H3 as [H3|(c' & Hc' & Hlt & H3)]; [by left|].
        right. exists c'. split; [by right|]. split; [done | exact H3].
Qed.

Lemma search_mark_flat (img : image) (ex ey er : Z) :
  TestScan.search_mark img ex ey er =
    fold_left (fun (st : Q * option TestScan.best_match) (c : Z * Z) =>
      if Py.gtb (mark_score img c.1 c.2 er) st.1
      then (mark_score img c.1 c.2 er,
            Some {| TestScan.match_x := c.1; TestScan.match_y := c.2;
                    TestScan.match_score := mark_score img c.1 c.2 er |})
      else st)
      (search_grid ≫= fun dy => (fun dx => (ex + dx, ey + dy)) <$> search_grid)
      (0%Q, None).
Proof.
  unfold TestScan.search_mark. cbv zeta.
  change (Py.range_step (- 20) (20 + 1) 5) with search_grid.
  rewrite <- (nested_fold_flat _ (fun dy dx => (ex + dx, ey + dy))).
  apply fold_left_ext. intros st dy _. apply fold_left_ext. intros [bs b] dx _.
  cbn [fst snd]. by rewrite is_dark_circle_score.
Qed.

(** A mark is reported detected exactly when some candidate of the grid
    scores above 0.7. *)
Lemma detect_mark_spec (img : image) (dpi : Z) (m : mark) :
  let ex := TestScan._mm_to_pixels (mark_x_mm m) dpi in
  let ey := TestScan._mm_to_pixels (mark_y_mm m) dpi in
  let er := TestScan._mm_to_pixels (mark_size_mm m) dpi in
  let d := TestScan.detect_mark img dpi m in
  TestScan.expected_x d = ex /\ TestScan.expected_y d = ey
  /\ (is_Some (TestScan.detected_x d) <->
      exists dx dy, dx ∈ search_grid /\ dy ∈ search_grid
        /\ (7 # 10 < mark_score img (ex + dx) (ey + dy) er)%Q).
Proof.
  intros ex ey er d. subst d. unfold TestScan.detect_mark. fold ex ey er.
  rewrite search_mark_flat.
  set (cands := search_grid ≫= fun dy => (fun dx => (ex + dx, ey + dy)) <$> search_grid).
  assert (forall c, c ∈ cands <->
            exists dx dy, dx ∈ search_grid /\ dy ∈ search_grid /\ c = (ex + dx, ey + dy)) as Hc.
  { intros c. unfold cands. rewrite list_elem_of_bind. split.
    - intros (dy & Hin & Hdy). apply list_elem_of_fmap in Hin as (dx & -> & Hdx).
      by exists dx, dy.
    - intros (dx & dy & Hdx & Hdy & ->). exists dy. split; [|done].
      apply list_elem_of_fmap. by exists dx. }
  destruct (best_of_candidates (fun c => mark_score img c.1 c.2 er) cands 0%Q None)
    as (H1 & H2 & H3).
  cbv zeta in H1, H2, H3.
  match type of H3 with ?r = _ \/ _ => set (res := r) in * end.
  destruct H3 as [H3|(c & Hin & Hlt & H3)].
  - rewrite H3. cbn. split; [done|]. split; [done|]. split.
    + intros [? ?]. discriminate.
    + intros (dx & dy & Hdx & Hdy & Hs). exfalso.
      assert ((ex + dx, ey + dy) ∈ cands) as Hin by (apply Hc; by exists dx, dy).
      apply H2 in Hin. rewrite H3 in Hin. cbn in Hin.
      apply (Qlt_not_le _ _ Hs). eapply Qle_trans; [exact Hin|]. discriminate.
  - rewrite H3. cbn [snd TestScan.match_score].
    destruct (Py.gtb (mark_score img c.1 c.2 er) (7 # 10)) eqn:E; cbn.
    + split; [done|]. split; [done|]. split; [|by eexists].
      intros _. apply py_gtb_gt in E. apply Hc in Hin as (dx & dy & Hdx & Hdy & ->).
      by exists dx, dy.
    + split; [done|]. split; [done|]. split.
      * intros [? ?]. discriminate.
      * intros (dx & dy & Hdx & Hdy & Hs). exfalso.
        assert ((ex + dx, ey + dy) ∈ cands) as Hin' by (apply Hc; by exists dx, dy).
        apply H2 in Hin'. rewrite H3 in Hin'. cbn in Hin'.
        assert (7 # 10 < mark_score img c.1 c.2 er)%Q as Hgt
          by (eapply Qlt_le_trans; [exact Hs | exact Hin']).
        apply py_gtb_gt in Hgt. congruence.
Qed.

Lemma search_grid_elem (d : Z) :
  d ∈ search_grid <-> -20 <= d <= 20 /\ d mod 5 = 0.
Proof.
  unfold search_grid. rewrite !elem_of_cons, elem_of_nil. split.
  - intros H. repeat (destruct H as [->|H]; [done|]). done.
  - intros [Hd Hm]. apply Z.mod_divide in Hm as [k ->]; lia.
Qed.



(** The four marks of [inner_sheet] are found where they were drawn. *)
Example inner_marks_detected :
  snd (TestScan.detect_registration_marks inner_sheet inner_marks 300) = true
  /\ map TestScan.detected_x (fst (TestScan.detect_registration_marks inner_sheet inner_marks 300))
     = [Some 5; Some 18; Some 5; Some 18].
Proof. vm_compute. done. Qed.


(** The outer radius of the ring is [int(1.5 * radius)].  For a mark of
    radius 1 it is 1, the ring is empty and the score cannot exceed 0.7: the
    mark of [dot_sheet], a dark disk on white, is not detected, while the
    ring up to 1.5 pixels holds the four white diagonal neighbours. *)
Example ring_radius_truncated :
  Py.int (inject_Z 1 * (15 # 10)) = 1
  /\ ring_pixels dot_sheet 5 5 1 1 = []
  /\ TestScan._is_dark_circle dot_sheet 5 5 1 == 7 # 10
  /\ claimed_mark_score dot_sheet 5 5 1 == 1
  /\ map TestScan.detected_x (fst (TestScan.detect_registration_marks dot_sheet dot_marks 300))
     = [None].
Proof. vm_compute. done. Qed.

(** ** Reproducibility *)

Lemma seed_rng_seeded `{RS : RandomSource} (n : Z) (a b : rng) :
  n <> 0 -> TestGen.seed_rng (Some n) a = TestGen.seed_rng (Some n) b.
Proof. intros Hn. unfold TestGen.seed_rng. by destruct (n =? 0) eqn:E; [lia|]. Qed.

(** A seed of 0, like no seed, leaves the generator in its ambient state. *)
Lemma seed_rng_zero `{RS : RandomSource} (a : rng) :
  TestGen.seed_rng (Some 0) a = a /\ TestGen.seed_rng None a = a.
Proof. done. Qed.

Lemma scan_image_same_but_clock (ck1 ck2 : TestScan.clock)
    (fs : string -> option file_content) (path : string) (layout : template_layout) :
  match TestScan.scan_image ck1 fs path layout, TestScan.scan_image ck2 fs path layout with
  | Some a, Some b => same_but_clock a b
  | None, None => True
  | _, _ => False
  end.
Proof.
  unfold TestScan.scan_image.
  destruct (fs path) as [content|]; cbn [mbind option_bind]; [|done].
  destruct (TestScan.load_image _ content) as [img|]; cbn [mbind option_bind]; [|done].
  destruct (TestScan.extract_answers img layout) as [[answers meta]|];
    cbn [mbind option_bind]; [|done].
  repeat split.
Qed.

(** C2 (as amended): for a fixed non-zero seed and identical inputs, two
    runs of the pipeline in different environments (ambient generator
    state, clock) write identical files, both fail or both succeed, and
    their scan results agree on every field except [scan_timestamp] and
    [processing_time_ms], which are read from the clock; with equal clock
    readings the two results are equal. *)
Theorem pipeline_reproducible `{RS : RandomSource} `{ML : MathLib}
    (env1 env2 : environment) (args : TestGen.gen_args) (layout : template_layout)
    (order : question_order) (path : string) (n : Z) :
  TestGen.arg_seed args = Some n -> n <> 0 ->
  TestGen.main args layout order (env_ambient env1)
    = TestGen.main args layout order (env_ambient env2)
  /\ match pipeline env1 args layout order path, pipeline env2 args layout order path with
     | Some (files1, r1), Some (files2, r2) => files1 = files2 /\ same_but_clock r1 r2
     | None, None => True
     | _, _ => False
     end
  /\ (env_clock env1 = env_clock env2 ->
      pipeline env1 args layout order path = pipeline env2 args layout order path).
Proof.
  intros Hseed Hn.
  assert (TestGen.main args layout order (env_ambient env1)
          = TestGen.main args layout order (env_ambient env2)) as Hgen.
  { unfold TestGen.main. rewrite Hseed.
    by rewrite (seed_rng_seeded n (env_ambient env1) (env_ambient env2)). }
  split; [exact Hgen|]. unfold pipeline. rewrite Hgen.
  destruct (TestGen.main args layout order (env_ambient env2)) as [files|];
    cbn [mbind option_bind]; [|done].
  unfold TestScan.main. cbn [fst]. split.
  - pose proof (scan_image_same_but_clock (env_clock env1) (env_clock env2)
                  (written_files files) path layout) as H.
    destruct (TestScan.scan_image (env_clock env1) _ _ _) as [r1|],
             (TestScan.scan_image (env_clock env2) _ _ _) as [r2|];
      cbn [mbind option_bind]; done.
  - intros ->. done.
Qed.

Lemma pipeline_reproducible_witness :
  TestGen.main (sample_args (Some 42)) sample_layout sample_order (env_ambient morning_env)
  = TestGen.main (sample_args (Some 42)) sample_layout sample_order (env_ambient evening_env).
Proof.
  assert (42 <> 0) as Hn by discriminate.
  exact (proj1 (pipeline_reproducible morning_env evening_env
                  (sample_args (Some 42)) sample_layout sample_order "s001_v1.json" 42
                  eq_refl Hn)).
Defined.

(** C2, as stated, fails: the scan result records the time of the scan
    and its duration.  The same sheet scanned with the same seed at two
    times gives two results that differ in [scan_metadata]. *)
Lemma scan_result_depends_on_clock :
  let run := fun ck =>
    fst (TestScan.main (Some 42) (1 : @rng lcg_random) ck (written_files sample_files)
           "s001_v1.json" sample_layout) in
  (TestScan.scan_timestamp <$> (TestScan.result_scan_metadata <$> run clock_morning))
    = Some "2024-01-01T08:00:00Z"
  /\ (TestScan.scan_timestamp <$> (TestScan.result_scan_metadata <$> run clock_evening))
    = Some "2024-01-01T20:00:00Z"
  /\ (TestScan.result_answers <$> run clock_morning)
     = (TestScan.result_answers <$> run clock_evening)
  /\ run clock_morning <> run clock_evening.
Proof.
  intros run.
  assert ((TestScan.scan_timestamp <$> (TestScan.result_scan_metadata <$> run clock_morning))
          = Some "2024-01-01T08:00:00Z") as H1 by (vm_compute; reflexivity).
  assert ((TestScan.scan_timestamp <$> (TestScan.result_scan_metadata <$> run clock_evening))
          = Some "2024-01-01T20:00:00Z") as H2 by (vm_compute; reflexivity).
  split; [exact H1|]. split; [exact H2|]. split; [vm_compute; reflexivity|].
  intros E.
  pose proof (f_equal (fun r => TestScan.scan_timestamp <$> (TestScan.result_scan_metadata <$> r)) E) as E'.
  cbv beta in E'.
  congruence.
Qed.

(** ** Drawing *)

Lemma keeps_ink_id (w h : Z) : keeps_ink w h (fun img => img).
Proof. intros img Hd. split; [done|]. auto. Qed.

Lemma keeps_ink_compose (w h : Z) (f1 f2 : image -> image) :
  keeps_ink w h f1 -> keeps_ink w h f2 -> keeps_ink w h (fun img => f2 (f1 img)).
Proof.
  intros H1 H2 img Hd. destruct (H1 img Hd) as [Hd1 Hk1].
  destruct (H2 (f1 img) Hd1) as [Hd2 Hk2]. split; [done|].
  intros x y Hx Hy Hv. apply Hk2; [done..|]. by apply Hk1.
Qed.

Lemma keeps_ink_fold {B} (w h : Z) (step : image -> B -> image) (l : list B) :
  (forall b, b ∈ l -> keeps_ink w h (fun img => step img b)) ->
  keeps_ink w h (fun img => fold_left step l img).
Proof.
  induction l as [|b l IH]; intros Hl; [apply keeps_ink_id|].
  cbn [fold_left].
  apply (keeps_ink_compose w h (fun img => step img b) (fun img => fold_left step l img)).
  - apply Hl. left.
  - apply IH. intros b' Hb'. apply Hl. by right.
Qed.

(** A store guarded by the bounds test, of an ink value. *)
Lemma keeps_ink_store (w h px py v : Z) (c : bool) :
  v <= 80 ->
  keeps_ink w h (fun img =>
    if in_bounds w h px py then (if c then setpx img px py v else img) else img).
Proof.
  intros Hv img Hd. destruct (in_bounds w h px py) eqn:Eb; [|by apply keeps_ink_id].
  apply in_bounds_true in Eb. destruct c; [|by apply keeps_ink_id].
  split; [by apply setpx_has_dims|].
  intros x y Hx Hy Hpx. rewrite (getpx_setpx img w h) by (done || lia).
  by destruct (bool_decide _).
Qed.

Lemma draw_circle_keeps_ink (g : TestGen.TestImageGenerator) (x y r v : Z) (filled : bool) :
  v <= 80 ->
  keeps_ink (TestGen.gen_width g) (TestGen.gen_height g)
    (fun img => TestGen.draw_circle g img x y r filled v).
Proof.
  intros Hv. unfold TestGen.draw_circle.
  apply keeps_ink_fold. intros dy _. apply keeps_ink_fold. intros dx _.
  destruct (dx * dx + dy * dy <=? r * r); [|apply keeps_ink_id].
  by apply keeps_ink_store.
Qed.

Lemma fill_rectangle_keeps_ink (g : TestGen.TestImageGenerator) (x y w h v : Z) :
  v <= 80 ->
  keeps_ink (TestGen.gen_width g) (TestGen.gen_height g)
    (fun img => TestGen.fill_rectangle g img x y w h v).
Proof.
  intros Hv. unfold TestGen.fill_rectangle.
  apply keeps_ink_fold. intros dy _. apply keeps_ink_fold. intros dx _.
  apply (keeps_ink_store _ _ (x + dx) (y + dy) v true Hv).
Qed.

(** A store guarded by two separate range tests, as [draw_rectangle] has. *)
Lemma keeps_ink_store2 (w h px py v : Z) :
  v <= 80 -> 0 <= px < w ->
  keeps_ink w h (fun img =>
    if (0 <=? py) && (py <? h) then setpx img px py v else img).
Proof.
  intros Hv Hpx img Hd. destruct ((0 <=? py) && (py <? h)) eqn:Eb; [|by apply keeps_ink_id].
  apply andb_true_iff in Eb as [E1 E2].
  split; [by apply setpx_has_dims|].
  intros x y Hx Hy Hp. rewrite (getpx_setpx img w h) by (done || lia).
  by destruct (bool_decide _).
Qed.

Lemma keeps_ink_store3 (w h px py v : Z) :
  v <= 80 -> 0 <= py < h ->
  keeps_ink w h (fun img =>
    if (0 <=? px) && (px <? w) then setpx img px py v else img).
Proof.
  intros Hv Hpy img Hd. destruct ((0 <=? px) && (px <? w)) eqn:Eb; [|by apply keeps_ink_id].
  apply andb_true_iff in Eb as [E1 E2].
  split; [by apply setpx_has_dims|].
  intros x y Hx Hy Hp. rewrite (getpx_setpx img w h) by (done || lia).
  by destruct (bool_decide _).
Qed.

Lemma draw_rectangle_keeps_ink (g : TestGen.TestImageGenerator) (x y w h v : Z) :
  v <= 80 ->
  keeps_ink (TestGen.gen_width g) (TestGen.gen_height g)
    (fun img => TestGen.draw_rectangle g img x y w h v).
Proof.
  intros Hv. unfold TestGen.draw_rectangle.
  set (W := TestGen.gen_width g). set (H := TestGen.gen_height g).
  match goal with
  | |- keeps_ink _ _ (fun img => fold_left ?s2 ?l2 (fold_left ?s1 ?l1 img)) =>
    apply (keeps_ink_compose W H (fun img => fold_left s1 l1 img)
                                 (fun img => fold_left s2 l2 img))
  end.
  - apply keeps_ink_fold. intros dx _.
    destruct ((0 <=? x + dx) && (x + dx <? W)) eqn:E; [|apply keeps_ink_id].
    apply andb_true_iff in E as [E1 E2].
    apply (keeps_ink_compose W H
             (fun img => if (0 <=? y) && (y <? H) then setpx img (x + dx) y v else img)
             (fun img => if (0 <=? y + h) && (y + h <? H)
                         then setpx img (x + dx) (y + h) v else img));
      apply keeps_ink_store2; (done || lia).
  - apply keeps_ink_fold. intros dy _.
    destruct ((0 <=? y + dy) && (y + dy <? H)) eqn:E; [|apply keeps_ink_id].
    apply andb_true_iff in E as [E1 E2].
    apply (keeps_ink_compose W H
             (fun img => if (0 <=? x) && (x <? W) then setpx img x (y + dy) v else img)
             (fun img => if (0 <=? x + w) && (x + w <? W)
                         then setpx img (x + w) (y + dy) v else img));
      apply keeps_ink_store3; (done || lia).
Qed.

Lemma draw_answer_field_keeps_ink (g : TestGen.TestImageGenerator)
    (answers : gmap string string) (q_id : string) (f : answer_field) :
  keeps_ink (TestGen.gen_width g) (TestGen.gen_height g)
    (fun img => TestGen.draw_answer_field g answers q_id img f).
Proof.
  unfold TestGen.draw_answer_field.
  destruct (String.eqb (field_type f) "circle"); [|apply keeps_ink_id].
  destruct (bool_decide _).
  - apply (keeps_ink_compose _ _
             (fun img => TestGen.draw_circle g img _ _ _ false 0)
             (fun img => TestGen.draw_circle g img _ _ _ true 50));
      apply draw_circle_keeps_ink; lia.
  - apply draw_circle_keeps_ink. lia.
Qed.

Lemma draw_question_keeps_ink (g : TestGen.TestImageGenerator)
    (answers : gmap string string) (q : question_layout) :
  keeps_ink (TestGen.gen_width g) (TestGen.gen_height g)
    (fun img => TestGen.draw_question g answers img q).
Proof.
  unfold TestGen.draw_question.
  destruct (answer_fields q) as [fields|].
  - apply keeps_ink_fold. intros f _. apply draw_answer_field_keeps_ink.
  - destruct (ocr_region q) as [ocr|]; [|apply keeps_ink_id].
    destruct (bool_decide _).
    + apply (keeps_ink_compose _ _
               (fun img => TestGen.draw_rectangle g img _ _ _ _ 0)
               (fun img => fold_left _ (Py.range 0 5) img)).
      * apply draw_rectangle_keeps_ink. lia.
      * apply keeps_ink_fold. intros i _. apply fill_rectangle_keeps_ink. lia.
    + apply draw_rectangle_keeps_ink. lia.
Qed.

Lemma draw_circle_stores (g : TestGen.TestImageGenerator) (img : image)
    (cx cy r v : Z) (filled : bool) :
  TestGen.draw_circle g img cx cy r filled v =
    store_all
      (dy ← Py.range (- r) (r + 1);
       dx ← Py.range (- r) (r + 1);
       if (dx * dx + dy * dy <=? r * r)
          && in_bounds (TestGen.gen_width g) (TestGen.gen_height g) (cx + dx) (cy + dy)
          && (filled || ((r - 2) * (r - 2) <=? dx * dx + dy * dy))
       then [(cx + dx, cy + dy, v)] else [])
      img.
Proof.
  unfold TestGen.draw_circle. rewrite <- nested_store_all.
  apply fold_left_ext. intros a dy _. apply fold_left_ext. intros b dx _.
  destruct (dx * dx + dy * dy <=? r * r); [|done].
  destruct (in_bounds _ _ _ _); [|done].
  by destruct (filled || _).
Qed.

(** The pixels of a sheet after a circle is drawn on it. *)
Lemma draw_circle_getpx (g : TestGen.TestImageGenerator) (img : image)
    (cx cy r v : Z) (filled : bool) (x y : Z) :
  has_dims img (TestGen.gen_width g) (TestGen.gen_height g) ->
  0 <= x < TestGen.gen_width g -> 0 <= y < TestGen.gen_height g ->
  getpx (TestGen.draw_circle g img cx cy r filled v) x y =
    if circle_covers cx cy r filled x y then v else getpx img x y.
Proof.
  intros Hd Hx Hy. rewrite draw_circle_stores.
  match goal with |- getpx (store_all ?l _) _ _ = _ => set (ps := l) end.
  assert (forall x' y' v', (x', y', v') ∈ ps <->
            in_bounds (TestGen.gen_width g) (TestGen.gen_height g) x' y' = true
            /\ circle_covers cx cy r filled x' y' = true /\ v' = v) as Hps.
  { intros x' y' v'. unfold ps, circle_covers, offset_covered. rewrite list_elem_of_bind. split.
    - intros (dy & Hin & Hdy). apply list_elem_of_bind in Hin as (dx & Hin & Hdx).
      apply range_elem in Hdx, Hdy.
      destruct (_ && _ && _) eqn:E; [|by apply elem_of_nil in Hin].
      apply list_elem_of_singleton in Hin. simplify_eq.
      apply andb_true_iff in E as [E E3]. apply andb_true_iff in E as [E1 E2].
      replace (cx + dx - cx) with dx by lia. replace (cy + dy - cy) with dy by lia.
      split; [done|]. split; [|done].
      rewrite E1, E3. rewrite !andb_true_r. rewrite !andb_true_iff. lia.
    - intros (Hb & Hc & ->).
      repeat (apply andb_true_iff in Hc as [Hc ?]).
      exists (y' - cy). split; [|apply range_elem; lia].
      apply list_elem_of_bind. exists (x' - cx). split; [|apply range_elem; lia].
      replace (cx + (x' - cx)) with x' by lia. replace (cy + (y' - cy)) with y' by lia.
      rewrite Hb. match goal with H : (_ <=? r * r) = true |- _ => rewrite H end.
      match goal with H : (filled || _) = true |- _ => rewrite H end.
      by apply list_elem_of_singleton. }
  destruct (getpx_store_all (fun _ _ => v) ps img _ _ x y Hd) as [H1 H2]; [|done|done|].
  { intros x' y' v' H'. apply Hps in H' as (Hb & _ & ->).
    apply in_bounds_true in Hb. tauto. }
  destruct (circle_covers cx cy r filled x y) eqn:Ec.
  - apply H1. exists v. apply Hps. split; [apply in_bounds_true; lia|]. done.
  - apply H2. intros v' Hv'. apply Hps in Hv' as (_ & Hc & _). congruence.
Qed.

(** ** Noise *)

Lemma range_step_elem (hi step x : Z) :
  0 < step -> x ∈ Py.range_step 0 hi step -> 0 <= x.
Proof.
  intros Hs Hx. unfold Py.range_step in Hx.
  apply list_elem_of_fmap in Hx as (i & -> & _). lia.
Qed.

Lemma range_step_NoDup (lo hi step : Z) : 0 < step -> NoDup (Py.range_step lo hi step).
Proof.
  intros Hs. unfold Py.range_step. apply NoDup_fmap_2; [|apply NoDup_seq].
  intros i j Hij. nia.
Qed.

(** One visit of a noise position, on the state [(image, generator)]. *)
Lemma add_noise_flat `{RS : RandomSource} (g : TestGen.TestImageGenerator)
    (img : image) (intensity : Z) (s : rng) :
  TestGen._add_noise g img intensity s =
    fold_left (fun (st : list (list Z) * rng) (p : Z * Z) =>
      let '(r, s') := random_random st.2 in
      if Py.ltb r (1 # 10) then
        let '(noise, s'') := random_randint (- intensity) intensity s' in
        (setpx st.1 p.1 p.2 (Z.max 0 (Z.min 255 (getpx st.1 p.1 p.2 + noise))), s'')
      else (st.1, s'))
      (Py.range_step 0 (TestGen.gen_height g) 5 ≫= fun y =>
         (fun x => (x, y)) <$> Py.range_step 0 (TestGen.gen_width g) 5)
      (img, s).
Proof.
  unfold TestGen._add_noise.
  rewrite <- (nested_fold_flat _ (fun y x => (x, y))).
  apply fold_left_ext. intros st y _. apply fold_left_ext. intros [i s0] x _.
  cbn [fst snd]. done.
Qed.

(** Noise of intensity [i] keeps the dimensions and raises an inked pixel
    by at most [i]. *)
Lemma add_noise_bound `{RS : RandomSource} (g : TestGen.TestImageGenerator)
    (img : image) (intensity : Z) (s : rng) :
  0 <= intensity ->
  has_dims img (TestGen.gen_width g) (TestGen.gen_height g) ->
  has_dims (TestGen._add_noise g img intensity s).1 (TestGen.gen_width g) (TestGen.gen_height g)
  /\ forall x y, 0 <= x < TestGen.gen_width g -> 0 <= y < TestGen.gen_height g ->
       getpx img x y <= 80 ->
       getpx (TestGen._add_noise g img intensity s).1 x y <= 80 + intensity.
Proof.
  intros Hi Hd. rewrite add_noise_flat.
  set (W := TestGen.gen_width g) in *. set (H := TestGen.gen_height g) in *.
  match goal with |- context [fold_left ?f ?l _] => set (step := f); set (ps := l) end.
  assert (NoDup ps) as Hnd.
  { unfold ps. apply NoDup_bind; [| |by apply range_step_NoDup].
    - intros y1 y2 [a b] _ _ H1 H2.
      apply list_elem_of_fmap in H1 as (x1 & E1 & _).
      apply list_elem_of_fmap in H2 as (x2 & E2 & _). congruence.
    - intros y' _. apply NoDup_fmap_2; [|by apply range_step_NoDup].
      intros a b E. congruence. }
  assert (forall p, p ∈ ps -> 0 <= p.1 /\ 0 <= p.2) as Hnn.
  { intros p Hp. unfold ps in Hp. apply list_elem_of_bind in Hp as (y' & Hp & Hy').
    apply list_elem_of_fmap in Hp as (x' & -> & Hx').
    apply range_step_elem in Hx', Hy'; simpl; lia. }
  assert (forall st p, has_dims st.1 W H -> 0 <= p.1 -> 0 <= p.2 ->
            has_dims (step st p).1 W H
            /\ forall a b, 0 <= a < W -> 0 <= b < H ->
                 ((a, b) <> p -> getpx (step st p).1 a b = getpx st.1 a b)
                 /\ (getpx st.1 a b <= 80 -> getpx (step st p).1 a b <= 80 + intensity)) as Hstep.
  { intros [cur s0] [px py] Hdc Hpx Hpy. cbn [fst snd] in *. unfold step. cbn [fst snd].
    destruct (random_random s0) as [r s1].
    destruct (Py.ltb r (1 # 10)); [|cbn [fst]; split; [done|]; intros; split; [done | lia]].
    pose proof (random_randint_range (- intensity) intensity s1 ltac:(lia)) as Hn.
    destruct (random_randint (- intensity) intensity s1) as [noise s2].
    cbn [fst] in *. split; [by apply setpx_has_dims|].
    intros a b Ha Hb. rewrite (getpx_setpx cur W H) by (done || lia).
    destruct (bool_decide (px = a /\ py = b)) eqn:E.
    - apply bool_decide_eq_true in E as [-> ->]. split; [done|]. lia.
    - apply bool_decide_eq_false in E. split; [done | lia]. }
  clearbody step ps.
  assert (forall st, has_dims st.1 W H ->
            has_dims (fold_left step ps st).1 W H
            /\ forall a b, 0 <= a < W -> 0 <= b < H ->
                 ((a, b) ∉ ps -> getpx (fold_left step ps st).1 a b = getpx st.1 a b)
                 /\ (getpx st.1 a b <= 80 ->
                     getpx (fold_left step ps st).1 a b <= 80 + intensity)) as Hfold.
  { induction ps as [|p ps IH]; intros st Hds.
    - cbn. split; [done|]. intros. split; [done | lia].
    - cbn [fold_left]. apply NoDup_cons in Hnd as [Hp Hnd].
      destruct (Hnn p) as [Hp1 Hp2]; [left|].
      destruct (Hstep st p Hds Hp1 Hp2) as [Hd1 Hs1].
      destruct (IH Hnd (fun q Hq => Hnn q (list_elem_of_further _ _ _ Hq)) (step st p) Hd1)
        as [Hd2 Hs2].
      split; [done|]. intros a b Ha Hb.
      destruct (Hs1 a b Ha Hb) as [Hs1a Hs1b]. destruct (Hs2 a b Ha Hb) as [Hs2a Hs2b].
      split.
      + intros Hnin. rewrite Hs2a.
        * apply Hs1a. intros E. apply Hnin. rewrite E. left.
        * intros Hin. apply Hnin. by right.
      + intros Hle. destruct (decide ((a, b) = p)) as [E|Hne].
        * rewrite Hs2a by (by rewrite E). by apply Hs1b.
        * apply Hs2b. rewrite Hs1a by done. done. }
  destruct (Hfold (img, s) Hd) as [Hdf Hf]. split; [done|].
  intros x y Hx Hy Hv. by apply Hf.
Qed.

(** ** The round trip *)




Lemma count_px_all (img : image) (hit : Z -> bool) (ps : list (Z * Z)) :
  (forall p, p ∈ ps -> hit (getpx img p.1 p.2) = true) ->
  count_px img hit ps = Z.of_nat (length ps).
Proof.
  induction ps as [|p ps IH]; intros Hall; [done|].
  rewrite count_px_cons, Hall by left. rewrite IH.
  - simpl. lia.
  - intros q Hq. apply Hall. by right.
Qed.











(** Bubbles of 3 pixels in radius: the outline of an empty bubble fills
    its check disk, every bubble is judged filled, and the round trip
    returns the first label at half confidence. *)
Example round_trip_small_bubbles :
  (map (fun a => (TestScan.extracted_answer a, TestScan.confidence a, TestScan.flags a))
     <$> (fst <$> TestScan.extract_answers
            (round_trip_sheet sample_gen small_layout choice_order false 0 0 0 (1 : @rng lcg_random))
            small_layout))
  = Some [(Some "A", (99 # 200)%Q, Some ["multiple_bubbles_filled"])].
Proof. vm_compute. reflexivity. Qed.

(** A layout declared at 150 dpi: the sheet is drawn at 300 dpi and read
    at 150 dpi, and the answer is not recovered. *)
Example round_trip_other_dpi :
  (map (fun a => (TestScan.extracted_answer a, TestScan.flags a))
     <$> (fst <$> TestScan.extract_answers
            (round_trip_sheet sample_gen sample_layout_150 choice_order false 0 0 0 (1 : @rng lcg_random))
            sample_layout_150))
  = Some [(None, Some ["no_bubble_filled"])].
Proof. vm_compute. reflexivity. Qed.

(** * Further properties of the drawing primitives *)

Lemma draw_circle_has_dims (g : TestGen.TestImageGenerator) (img : image)
    (cx cy r v : Z) (filled : bool) (w h : Z) :
  has_dims img w h -> has_dims (TestGen.draw_circle g img cx cy r filled v) w h.
Proof. intros Hd. rewrite draw_circle_stores. by apply store_all_has_dims. Qed.

(** X1. [draw_circle] keeps the dimensions of the sheet and changes
    exactly the pixels of the sheet at a squared distance of at most
    [r * r] from the centre (and, for an outline, of at least
    [(r - 2) * (r - 2)]): these get the value drawn, every other pixel
    keeps its value.  With a negative radius nothing is drawn. *)
Theorem draw_circle_pixels (g : TestGen.TestImageGenerator) (img : image)
    (cx cy r v : Z) (filled : bool) :
  has_dims img (TestGen.gen_width g) (TestGen.gen_height g) ->
  let out := TestGen.draw_circle g img cx cy r filled v in
  has_dims out (TestGen.gen_width g) (TestGen.gen_height g)
  /\ (forall x y, 0 <= x < TestGen.gen_width g -> 0 <= y < TestGen.gen_height g ->
        let d2 := (x - cx) * (x - cx) + (y - cy) * (y - cy) in
        (0 <= r -> d2 <= r * r -> filled = true \/ (r - 2) * (r - 2) <= d2 ->
           getpx out x y = v)
        /\ (r * r < d2 -> getpx out x y = getpx img x y)
        /\ (filled = false -> d2 < (r - 2) * (r - 2) -> getpx out x y = getpx img x y))
  /\ (r < 0 -> out = img).
Proof.
  intros Hd out. split; [by apply draw_circle_has_dims|]. split.
  - intros x y Hx Hy d2. unfold out. rewrite (draw_circle_getpx g img) by done.
    unfold circle_covers, offset_covered. fold d2.
    split; [|split].
    + intros Hr Hd2 Hf.
      destruct (disk_in_window r (x - cx) (y - cy) Hr Hd2) as [H1 H2].
      replace ((- r <=? x - cx) && (x - cx <=? r) && (- r <=? y - cy) && (y - cy <=? r)
               && (d2 <=? r * r)) with true
        by (symmetry; rewrite !andb_true_iff; unfold d2; lia).
      destruct Hf as [-> | Hf]; [done|].
      replace ((r - 2) * (r - 2) <=? d2) with true by (symmetry; lia).
      by rewrite orb_true_r.
    + intros Hd2. replace (d2 <=? r * r) with false by (symmetry; lia).
      by rewrite andb_false_r.
    + intros -> Hd2. replace ((r - 2) * (r - 2) <=? d2) with false by (symmetry; lia).
      by rewrite andb_false_r.
  - intros Hr. unfold out. rewrite draw_circle_stores.
    replace (Py.range (- r) (r + 1)) with (@nil Z); [done|].
    unfold Py.range. by replace (Z.to_nat (r + 1 - - r)) with 0%nat by lia.
Qed.

Lemma draw_circle_pixels_witness :
  getpx (TestGen.draw_circle sample_gen (white 30 24) 10 10 3 true 0) 11 12 = 0.
Proof.
  assert (has_dims (white 30 24) (TestGen.gen_width sample_gen) (TestGen.gen_height sample_gen))
    as Hd by apply white_has_dims.
  destruct (draw_circle_pixels sample_gen (white 30 24) 10 10 3 0 true Hd) as (_ & Hpx & _).
  destruct (Hpx 11 12 ltac:(simpl; lia) ltac:(simpl; lia)) as (Hin & _).
  apply Hin; [lia | lia | by left].
Defined.

Lemma fill_rectangle_stores (g : TestGen.TestImageGenerator) (img : image)
    (x y w h v : Z) :
  TestGen.fill_rectangle g img x y w h v =
    store_all
      (dy ← Py.range 0 h;
       dx ← Py.range 0 w;
       if in_bounds (TestGen.gen_width g) (TestGen.gen_height g) (x + dx) (y + dy)
       then [(x + dx, y + dy, v)] else [])
      img.
Proof.
  unfold TestGen.fill_rectangle. rewrite <- nested_store_all.
  apply fold_left_ext. intros a dy _. apply fold_left_ext. intros b dx _.
  by destruct (in_bounds _ _ _ _).
Qed.

(** The pixels of a sheet after stores of one value. *)
Lemma getpx_store_const (ps : list (Z * Z * Z)) (img : image) (w h v x y : Z) :
  has_dims img w h ->
  (forall x y v', (x, y, v') ∈ ps -> 0 <= x < w /\ 0 <= y < h /\ v' = v) ->
  0 <= x < w -> 0 <= y < h ->
  ((x, y, v) ∈ ps -> getpx (store_all ps img) x y = v)
  /\ ((x, y, v) ∉ ps -> getpx (store_all ps img) x y = getpx img x y).
Proof.
  intros Hd Hps Hx Hy.
  destruct (getpx_store_all (fun _ _ => v) ps img w h x y Hd Hps Hx Hy) as [H1 H2].
  split.
  - intros Hin. apply H1. by exists v.
  - intros Hnin. apply H2. intros v' Hin.
    destruct (Hps _ _ _ Hin) as (_ & _ & ->). done.
Qed.

(** X2. [fill_rectangle] keeps the dimensions of the sheet and changes
    exactly the pixels of the sheet with [x <= px < x + w] and
    [y <= py < y + h]. *)
Theorem fill_rectangle_pixels (g : TestGen.TestImageGenerator) (img : image)
    (x y w h v : Z) :
  has_dims img (TestGen.gen_width g) (TestGen.gen_height g) ->
  let out := TestGen.fill_rectangle g img x y w h v in
  has_dims out (TestGen.gen_width g) (TestGen.gen_height g)
  /\ forall px py, 0 <= px < TestGen.gen_width g -> 0 <= py < TestGen.gen_height g ->
       (x <= px < x + w /\ y <= py < y + h -> getpx out px py = v)
       /\ (~ (x <= px < x + w /\ y <= py < y + h) -> getpx out px py = getpx img px py).
Proof.
  intros Hd out. unfold out. rewrite fill_rectangle_stores.
  split; [by apply store_all_has_dims|].
  intros px py Hpx Hpy.
  match goal with |- context [store_all ?l _] => set (ps := l) end.
  assert (forall a b c, (a, b, c) ∈ ps <->
            (0 <= a < TestGen.gen_width g /\ 0 <= b < TestGen.gen_height g)
            /\ (x <= a < x + w /\ y <= b < y + h) /\ c = v) as Hps.
  { intros a b c. unfold ps. rewrite list_elem_of_bind. split.
    - intros (dy & Hin & Hdy). apply list_elem_of_bind in Hin as (dx & Hin & Hdx).
      apply range_elem in Hdx, Hdy.
      destruct (in_bounds _ _ _ _) eqn:E; [|by apply elem_of_nil in Hin].
      apply list_elem_of_singleton in Hin. simplify_eq.
      apply in_bounds_true in E. lia.
    - intros (Hb & Hr & ->). exists (b - y). split; [|apply range_elem; lia].
      apply list_elem_of_bind. exists (a - x). split; [|apply range_elem; lia].
      replace (x + (a - x)) with a by lia. replace (y + (b - y)) with b by lia.
      replace (in_bounds _ _ a b) with true by (symmetry; apply in_bounds_true; lia).
      by apply list_elem_of_singleton. }
  destruct (getpx_store_const ps img _ _ v px py Hd) as [H1 H2]; [|done|done|].
  { intros a b c Hin. apply Hps in Hin. tauto. }
  split.
  - intros Hr. apply H1. apply Hps. tauto.
  - intros Hr. apply H2. intros Hin. apply Hps in Hin. tauto.
Qed.

Lemma fill_rectangle_pixels_witness :
  getpx (TestGen.fill_rectangle sample_gen (white 30 24) 5 6 8 2 80) 12 7 = 80.
Proof.
  assert (has_dims (white 30 24) (TestGen.gen_width sample_gen) (TestGen.gen_height sample_gen))
    as Hd by apply white_has_dims.
  destruct (fill_rectangle_pixels sample_gen (white 30 24) 5 6 8 2 80 Hd) as (_ & Hpx).
  destruct (Hpx 12 7 ltac:(simpl; lia) ltac:(simpl; lia)) as (Hin & _).
  apply Hin. lia.
Defined.

Lemma draw_rectangle_stores (g : TestGen.TestImageGenerator) (img : image)
    (x y w h v : Z) :
  TestGen.draw_rectangle g img x y w h v =
    store_all
      ((dx ← Py.range 0 w;
        if (0 <=? x + dx) && (x + dx <? TestGen.gen_width g) then
          (if (0 <=? y) && (y <? TestGen.gen_height g) then [(x + dx, y, v)] else [])
          ++ (if (0 <=? y + h) && (y + h <? TestGen.gen_height g)
              then [(x + dx, y + h, v)] else [])
        else [])
       ++
       (dy ← Py.range 0 h;
        if (0 <=? y + dy) && (y + dy <? TestGen.gen_height g) then
          (if (0 <=? x) && (x <? TestGen.gen_width g) then [(x, y + dy, v)] else [])
          ++ (if (0 <=? x + w) && (x + w <? TestGen.gen_width g)
              then [(x + w, y + dy, v)] else [])
        else []))
      img.
Proof.
  unfold TestGen.draw_rectangle. rewrite store_all_app, <- !fold_store_all.
  cbv zeta.
  match goal with
  | |- fold_left ?f2 _ (fold_left ?f1 _ _) = fold_left ?g2 _ (fold_left ?g1 _ _) =>
    rewrite (fold_left_ext f1 g1); [apply (fold_left_ext f2 g2)|]
  end.
  - intros a dy _.
    destruct ((0 <=? y + dy) && _); [|done].
    by destruct ((0 <=? x) && _), ((0 <=? x + w) && _).
  - intros a dx _.
    destruct ((0 <=? x + dx) && _); [|done].
    by destruct ((0 <=? y) && _), ((0 <=? y + h) && _).
Qed.

(** X3. [draw_rectangle] keeps the dimensions of the sheet and changes
    exactly the pixels of the sheet on the outline it draws: the rows
    [y] and [y + h] for [x <= px < x + w], the columns [x] and [x + w]
    for [y <= py < y + h].  The far corner [(x + w, y + h)] belongs to
    neither and is left as it was. *)
Theorem draw_rectangle_pixels (g : TestGen.TestImageGenerator) (img : image)
    (x y w h v : Z) :
  has_dims img (TestGen.gen_width g) (TestGen.gen_height g) ->
  let out := TestGen.draw_rectangle g img x y w h v in
  let on_outline := fun px py =>
    (x <= px < x + w /\ (py = y \/ py = y + h))
    \/ (y <= py < y + h /\ (px = x \/ px = x + w)) in
  has_dims out (TestGen.gen_width g) (TestGen.gen_height g)
  /\ (forall px py, 0 <= px < TestGen.gen_width g -> 0 <= py < TestGen.gen_height g ->
        (on_outline px py -> getpx out px py = v)
        /\ (~ on_outline px py -> getpx out px py = getpx img px py))
  /\ ~ on_outline (x + w) (y + h).
Proof.
  intros Hd out on_outline. unfold out. rewrite draw_rectangle_stores.
  match goal with |- context [store_all ?l _] => set (ps := l) end.
  assert (forall a b c, (a, b, c) ∈ ps <->
            (0 <= a < TestGen.gen_width g /\ 0 <= b < TestGen.gen_height g)
            /\ on_outline a b /\ c = v) as Hps.
  { intros a b c. unfold ps, on_outline. rewrite elem_of_app, !list_elem_of_bind. split.
    - intros [(dx & Hin & Hdx) | (dy & Hin & Hdy)].
      + apply range_elem in Hdx.
        destruct ((0 <=? x + dx) && _) eqn:E0; [|by apply elem_of_nil in Hin].
        apply elem_of_app in Hin as [Hin | Hin].
        * destruct ((0 <=? y) && _) eqn:E1; [|by apply elem_of_nil in Hin].
          apply list_elem_of_singleton in Hin. simplify_eq. lia.
        * destruct ((0 <=? y + h) && _) eqn:E1; [|by apply elem_of_nil in Hin].
          apply list_elem_of_singleton in Hin. simplify_eq. lia.
      + apply range_elem in Hdy.
        destruct ((0 <=? y + dy) && _) eqn:E0; [|by apply elem_of_nil in Hin].
        apply elem_of_app in Hin as [Hin | Hin].
        * destruct ((0 <=? x) && _) eqn:E1; [|by apply elem_of_nil in Hin].
          apply list_elem_of_singleton in Hin. simplify_eq. lia.
        * destruct ((0 <=? x + w) && _) eqn:E1; [|by apply elem_of_nil in Hin].
          apply list_elem_of_singleton in Hin. simplify_eq. lia.
    - intros (Hb & [[Hr Hc] | [Hr Hc]] & ->).
      + left. exists (a - x). split; [|apply range_elem; lia].
        replace (x + (a - x)) with a by lia.
        replace ((0 <=? a) && (a <? TestGen.gen_width g)) with true by (symmetry; lia).
        apply elem_of_app. destruct Hc as [-> | ->].
        * left. replace ((0 <=? y) && _) with true by (symmetry; lia).
          by apply list_elem_of_singleton.
        * right. replace ((0 <=? y + h) && _) with true by (symmetry; lia).
          by apply list_elem_of_singleton.
      + right. exists (b - y). split; [|apply range_elem; lia].
        replace (y + (b - y)) with b by lia.
        replace ((0 <=? b) && (b <? TestGen.gen_height g)) with true by (symmetry; lia).
        apply elem_of_app. destruct Hc as [-> | ->].
        * left. replace ((0 <=? x) && _) with true by (symmetry; lia).
          by apply list_elem_of_singleton.
        * right. replace ((0 <=? x + w) && _) with true by (symmetry; lia).
          by apply list_elem_of_singleton. }
  assert (forall px py, 0 <= px < TestGen.gen_width g -> 0 <= py < TestGen.gen_height g ->
            (on_outline px py -> getpx (store_all ps img) px py = v)
            /\ (~ on_outline px py -> getpx (store_all ps img) px py = getpx img px py)) as Hpx.
  { intros px py Hpx Hpy.
    destruct (getpx_store_const ps img _ _ v px py Hd) as [H1 H2]; [|done|done|].
    { intros a b c Hin. apply Hps in Hin. tauto. }
    split.
    - intros Hr. apply H1. apply Hps. tauto.
    - intros Hr. apply H2. intros Hin. apply Hps in Hin. tauto. }
  split; [by apply store_all_has_dims|]. split; [done|].
  unfold on_outline. lia.
Qed.

Lemma draw_rectangle_pixels_witness :
  getpx (TestGen.draw_rectangle sample_gen (white 30 24) 5 6 8 4 0) 9 10 = 0
  /\ getpx (TestGen.draw_rectangle sample_gen (white 30 24) 5 6 8 4 0) 13 10 = 255.
Proof.
  assert (has_dims (white 30 24) (TestGen.gen_width sample_gen) (TestGen.gen_height sample_gen))
    as Hd by apply white_has_dims.
  destruct (draw_rectangle_pixels sample_gen (white 30 24) 5 6 8 4 0 Hd) as (_ & Hpx & _).
  split.
  - destruct (Hpx 9 10 ltac:(simpl; lia) ltac:(simpl; lia)) as (Hin & _).
    apply Hin. lia.
  - destruct (Hpx 13 10 ltac:(simpl; lia) ltac:(simpl; lia)) as (_ & Hout).
    rewrite Hout by lia. apply getpx_white.
Defined.

(** * Further properties of the distortions *)

Lemma range_step_multiple (lo hi step x : Z) :
  x ∈ Py.range_step lo hi step -> exists i, 0 <= i /\ x = lo + step * i.
Proof.
  unfold Py.range_step. intros Hin. apply list_elem_of_fmap in Hin as (i & -> & _).
  exists (Z.of_nat i). lia.
Qed.

(** X4. [_add_noise] keeps the dimensions of the sheet, leaves every
    pixel off the 5-pixel grid as it was, and moves a pixel of the grid
    by at most [intensity], never out of [0, 255]. *)
Theorem add_noise_effect `{RS : RandomSource} (g : TestGen.TestImageGenerator)
    (img : image) (intensity : Z) (s : rng) :
  0 <= intensity ->
  has_dims img (TestGen.gen_width g) (TestGen.gen_height g) ->
  let out := (TestGen._add_noise g img intensity s).1 in
  has_dims out (TestGen.gen_width g) (TestGen.gen_height g)
  /\ forall x y, 0 <= x < TestGen.gen_width g -> 0 <= y < TestGen.gen_height g ->
       (x mod 5 <> 0 \/ y mod 5 <> 0 -> getpx out x y = getpx img x y)
       /\ (0 <= getpx img x y <= 255 ->
           0 <= getpx out x y <= 255
           /\ Z.abs (getpx out x y - getpx img x y) <= intensity).
Proof.
  intros Hi Hd out. unfold out. rewrite add_noise_flat.
  set (W := TestGen.gen_width g) in *. set (H := TestGen.gen_height g) in *.
  match goal with |- context [fold_left ?f ?l _] => set (step := f); set (ps := l) end.
  assert (NoDup ps) as Hnd.
  { unfold ps. apply NoDup_bind; [| |by apply range_step_NoDup].
    - intros y1 y2 [a b] _ _ H1 H2.
      apply list_elem_of_fmap in H1 as (x1 & E1 & _).
      apply list_elem_of_fmap in H2 as (x2 & E2 & _). congruence.
    - intros y' _. apply NoDup_fmap_2; [|by apply range_step_NoDup].
      intros a b E. congruence. }
  assert (forall p, p ∈ ps -> (0 <= p.1 /\ 0 <= p.2) /\ p.1 mod 5 = 0 /\ p.2 mod 5 = 0) as Hnn.
  { intros p Hp. unfold ps in Hp. apply list_elem_of_bind in Hp as (y' & Hp & Hy').
    apply list_elem_of_fmap in Hp as (x' & -> & Hx').
    apply range_step_multiple in Hx' as (i & Hi0 & ->).
    apply range_step_multiple in Hy' as (j & Hj0 & ->). cbn [fst snd].
    rewrite !Z.add_0_l, !(Z.mul_comm 5), !Z.mod_mul by lia. lia. }
  assert (forall st p, has_dims st.1 W H -> 0 <= p.1 -> 0 <= p.2 ->
            has_dims (step st p).1 W H
            /\ forall a b, 0 <= a < W -> 0 <= b < H ->
                 ((a, b) <> p -> getpx (step st p).1 a b = getpx st.1 a b)
                 /\ (0 <= getpx st.1 a b <= 255 ->
                     0 <= getpx (step st p).1 a b <= 255
                     /\ Z.abs (getpx (step st p).1 a b - getpx st.1 a b) <= intensity)) as Hstep.
  { intros [cur s0] [px py] Hdc Hpx Hpy. cbn [fst snd] in *. unfold step. cbn [fst snd].
    destruct (random_random s0) as [r s1].
    destruct (Py.ltb r (1 # 10)); [|cbn [fst]; split; [done|]; intros; split; [done | lia]].
    pose proof (random_randint_range (- intensity) intensity s1 ltac:(lia)) as Hn.
    destruct (random_randint (- intensity) intensity s1) as [noise s2].
    cbn [fst] in *. split; [by apply setpx_has_dims|].
    intros a b Ha Hb. rewrite (getpx_setpx cur W H) by (done || lia).
    destruct (bool_decide (px = a /\ py = b)) eqn:E.
    - apply bool_decide_eq_true in E as [-> ->]. split; [done|]. lia.
    - apply bool_decide_eq_false in E. split; [done | lia]. }
  clearbody step.
  assert (forall st, has_dims st.1 W H ->
            has_dims (fold_left step ps st).1 W H
            /\ forall a b, 0 <= a < W -> 0 <= b < H ->
                 ((a, b) ∉ ps -> getpx (fold_left step ps st).1 a b = getpx st.1 a b)
                 /\ (0 <= getpx st.1 a b <= 255 ->
                     0 <= getpx (fold_left step ps st).1 a b <= 255
                     /\ Z.abs (getpx (fold_left step ps st).1 a b - getpx st.1 a b)
                        <= intensity)) as Hfold.
  { clear Hd. generalize dependent ps. intros ps. induction ps as [|p ps IH]; intros Hnd Hnn st Hds.
    - cbn. split; [done|]. intros. split; [done | lia].
    - cbn [fold_left]. apply NoDup_cons in Hnd as [Hp Hnd].
      destruct (Hnn p) as [[Hp1 Hp2] _]; [left|].
      destruct (Hstep st p Hds Hp1 Hp2) as [Hd1 Hs1].
      destruct (IH Hnd (fun q Hq => Hnn q (list_elem_of_further _ _ _ Hq)) (step st p) Hd1)
        as [Hd2 Hs2].
      split; [done|]. intros a b Ha Hb.
      destruct (Hs1 a b Ha Hb) as [Hs1a Hs1b]. destruct (Hs2 a b Ha Hb) as [Hs2a Hs2b].
      split.
      + intros Hnin. rewrite Hs2a.
        * apply Hs1a. intros E. apply Hnin. rewrite E. left.
        * intros Hin. apply Hnin. by right.
      + intros Hle. destruct (decide ((a, b) = p)) as [E|Hne].
        * rewrite Hs2a by (by rewrite E). by apply Hs1b.
        * rewrite <- (Hs1a Hne) in *. by apply Hs2b. }
  destruct (Hfold (img, s) Hd) as [Hd' Hpx]. split; [done|].
  intros x y Hx Hy. destruct (Hpx x y Hx Hy) as [H1 H2]. split; [|done].
  intros Hoff. apply H1. intros Hin. apply Hnn in Hin. cbn [fst snd] in Hin. lia.
Qed.

Lemma add_noise_effect_witness :
  getpx (TestGen._add_noise sample_gen sample_sheet 10 (1 : @rng lcg_random)).1 3 5
  = getpx sample_sheet 3 5.
Proof.
  assert (has_dims sample_sheet (TestGen.gen_width sample_gen) (TestGen.gen_height sample_gen))
    as Hd by (split; [reflexivity | vm_compute; repeat constructor]).
  destruct (add_noise_effect sample_gen sample_sheet 10 (1 : @rng lcg_random)
              ltac:(lia) Hd) as (_ & Hpx).
  destruct (Hpx 3 5 ltac:(simpl; lia) ltac:(simpl; lia)) as (Hoff & _).
  apply Hoff. left. discriminate.
Defined.

Lemma py_int_proper (q q' : Q) : (q == q')%Q -> Py.int q = Py.int q'.
Proof.
  intros E. destruct (Qlt_le_dec q 0) as [Hneg | Hpos].
  - rewrite !py_int_ceiling.
    + by apply Qceiling_comp.
    + rewrite <- E. by apply Qlt_le_weak.
    + by apply Qlt_le_weak.
  - rewrite !py_int_floor.
    + by apply Qfloor_comp.
    + by rewrite <- E.
    + done.
Qed.


Lemma apply_rotation_stores `{ML : MathLib} (img : image) (angle : Q) :
  TestGen._apply_rotation img angle =
    store_all
      (y ← Py.range 0 (height img);
       x ← Py.range 0 (width img);
       let theta := (- angle * math_pi / 180)%Q in
       let cx := (inject_Z (width img) / 2)%Q in
       let cy := (inject_Z (height img) / 2)%Q in
       let tx := (inject_Z x - cx)%Q in
       let ty := (inject_Z y - cy)%Q in
       let src_x := Py.int (tx * math_cos theta - ty * math_sin theta + cx) in
       let src_y := Py.int (tx * math_sin theta + ty * math_cos theta + cy) in
       if in_bounds (width img) (height img) src_x src_y
       then [(x, y, getpx img src_x src_y)] else [])
      (white (width img) (height img)).
Proof.
  unfold TestGen._apply_rotation. cbv zeta. rewrite <- nested_store_all.
  apply fold_left_ext. intros a y _. apply fold_left_ext. intros b x _.
  by destruct (in_bounds _ _ _ _).
Qed.



(** * Every sheet of the generator is a canvas *)

Lemma setpx_canvas (img : image) (w h x y v : Z) :
  is_canvas img w h -> 0 <= v <= 255 -> is_canvas (setpx img x y v) w h.
Proof.
  intros [Hd Hv] Hr. split; [by apply setpx_has_dims|].
  unfold setpx. apply Forall_alter; [done|].
  intros row _ Hrow. by apply Forall_insert.
Qed.

Lemma store_all_canvas (ps : list (Z * Z * Z)) (img : image) (w h : Z) :
  is_canvas img w h ->
  (forall x y v, (x, y, v) ∈ ps -> 0 <= v <= 255) ->
  is_canvas (store_all ps img) w h.
Proof.
  intros Hc Hps. unfold store_all. apply fold_left_invariant; [done|].
  intros a [[x y] v] Hin Ha. apply setpx_canvas; [done|]. by apply (Hps x y).
Qed.

Lemma white_canvas (w h : Z) : is_canvas (white w h) w h.
Proof.
  split; [apply white_has_dims|]. unfold white.
  apply Forall_replicate, Forall_replicate. lia.
Qed.

(** Any read of a canvas, in range or not, gives an intensity. *)
Lemma getpx_intensity (img : image) (w h x y : Z) :
  is_canvas img w h -> 0 <= getpx img x y <= 255.
Proof.
  intros [_ Hv]. unfold getpx.
  destruct (img !! Z.to_nat y) as [row|] eqn:E; cbn; [|lia].
  destruct (row !! Z.to_nat x) as [v|] eqn:E'; cbn; [|lia].
  pose proof (Forall_lookup_1 _ _ _ _ Hv E) as Hrow.
  by apply (Forall_lookup_1 _ _ _ _ Hrow E').
Qed.

(** An image as large as another one has the dimensions of that one. *)
Lemma has_dims_same (img img' : image) (w h : Z) :
  has_dims img w h -> has_dims img' (width img) (height img) -> has_dims img' w h.
Proof.
  intros [Hl Hrows] [Hl' Hrows']. unfold height in Hl'. rewrite Nat2Z.id in Hl'.
  split; [congruence|].
  destruct img as [|row rest].
  - destruct img'; [constructor | done].
  - cbn in Hrows'. rewrite Nat2Z.id in Hrows'.
    apply Forall_cons in Hrows as [Hrow _]. by rewrite <- Hrow.
Qed.

Lemma draw_circle_canvas (g : TestGen.TestImageGenerator) (img : image)
    (cx cy r v : Z) (filled : bool) (w h : Z) :
  is_canvas img w h -> 0 <= v <= 255 ->
  is_canvas (TestGen.draw_circle g img cx cy r filled v) w h.
Proof.
  intros Hc Hv. rewrite draw_circle_stores. apply store_all_canvas; [done|].
  intros x y v' Hin. apply list_elem_of_bind in Hin as (dy & Hin & _).
  apply list_elem_of_bind in Hin as (dx & Hin & _).
  destruct (_ && _ && _); [|by apply elem_of_nil in Hin].
  apply list_elem_of_singleton in Hin. by simplify_eq.
Qed.

Lemma fill_rectangle_canvas (g : TestGen.TestImageGenerator) (img : image)
    (x y w h v : Z) (cw ch : Z) :
  is_canvas img cw ch -> 0 <= v <= 255 ->
  is_canvas (TestGen.fill_rectangle g img x y w h v) cw ch.
Proof.
  intros Hc Hv. rewrite fill_rectangle_stores. apply store_all_canvas; [done|].
  intros a b v' Hin. apply list_elem_of_bind in Hin as (dy & Hin & _).
  apply list_elem_of_bind in Hin as (dx & Hin & _).
  destruct (in_bounds _ _ _ _); [|by apply elem_of_nil in Hin].
  apply list_elem_of_singleton in Hin. by simplify_eq.
Qed.

Lemma draw_rectangle_canvas (g : TestGen.TestImageGenerator) (img : image)
    (x y w h v : Z) (cw ch : Z) :
  is_canvas img cw ch -> 0 <= v <= 255 ->
  is_canvas (TestGen.draw_rectangle g img x y w h v) cw ch.
Proof.
  intros Hc Hv. rewrite draw_rectangle_stores. apply store_all_canvas; [done|].
  intros a b v' Hin. apply elem_of_app in Hin as [Hin | Hin];
    apply list_elem_of_bind in Hin as (d & Hin & _);
    (destruct (_ && _) in Hin; [|by apply elem_of_nil in Hin]);
    apply elem_of_app in Hin as [Hin | Hin];
    (destruct (_ && _) in Hin; [|by apply elem_of_nil in Hin]);
    apply list_elem_of_singleton in Hin; by simplify_eq.
Qed.

Lemma draw_question_canvas (g : TestGen.TestImageGenerator)
    (answers : gmap string string) (img : image) (q : question_layout) (w h : Z) :
  is_canvas img w h -> is_canvas (TestGen.draw_question g answers img q) w h.
Proof.
  intros Hc. unfold TestGen.draw_question.
  destruct (answer_fields q) as [fields|].
  - apply fold_left_invariant; [done|]. intros a f _ Ha.
    unfold TestGen.draw_answer_field. destruct (String.eqb _ _); [|done].
    destruct (bool_decide _); repeat apply draw_circle_canvas; (done || lia).
  - destruct (ocr_region q) as [ocr|]; [|done].
    destruct (bool_decide _); [|apply draw_rectangle_canvas; (done || lia)].
    apply fold_left_invariant; [apply draw_rectangle_canvas; (done || lia)|].
    intros a i _ Ha. apply fill_rectangle_canvas; (done || lia).
Qed.

Lemma add_noise_canvas `{RS : RandomSource} (g : TestGen.TestImageGenerator)
    (img : image) (intensity : Z) (s : rng) (w h : Z) :
  is_canvas img w h -> is_canvas (TestGen._add_noise g img intensity s).1 w h.
Proof.
  intros Hc. rewrite add_noise_flat.
  apply (fold_left_invariant (fun st : list (list Z) * rng => is_canvas st.1 w h)); [done|].
  intros [cur s0] [x y] _ Hcur. cbn [fst snd] in *.
  destruct (random_random s0) as [r s1]. destruct (Py.ltb r (1 # 10)); [|done].
  destruct (random_randint _ _ s1) as [noise s2]. cbn [fst].
  apply setpx_canvas; [done | lia].
Qed.

Lemma generate_test_image_canvas `{RS : RandomSource} (g : TestGen.TestImageGenerator)
    (layout : template_layout) (answers : gmap string string)
    (add_noise : bool) (s : rng) :
  is_canvas (TestGen.generate_test_image g layout answers add_noise s).1
    (TestGen.gen_width g) (TestGen.gen_height g).
Proof.
  unfold TestGen.generate_test_image.
  match goal with
  | |- context [if add_noise then TestGen._add_noise g ?i _ _ else _] =>
    assert (is_canvas i (TestGen.gen_width g) (TestGen.gen_height g)) as Hc
  end.
  { apply fold_left_invariant.
    - apply fold_left_invariant; [apply white_canvas|].
      intros a m _ Ha. apply draw_circle_canvas; (done || lia).
    - intros a q _ Ha. by apply draw_question_canvas. }
  destruct add_noise; [by apply add_noise_canvas | done].
Qed.

Lemma apply_rotation_canvas `{ML : MathLib} (img : image) (angle : Q) (w h : Z) :
  is_canvas img w h -> is_canvas (TestGen._apply_rotation img angle) w h.
Proof.
  intros Hc. rewrite apply_rotation_stores.
  destruct (store_all_canvas
    (y ← Py.range 0 (height img);
       x ← Py.range 0 (width img);
       let theta := (- angle * math_pi / 180)%Q in
       let cx := (inject_Z (width img) / 2)%Q in
       let cy := (inject_Z (height img) / 2)%Q in
       let tx := (inject_Z x - cx)%Q in
       let ty := (inject_Z y - cy)%Q in
       let src_x := Py.int (tx * math_cos theta - ty * math_sin theta + cx) in
       let src_y := Py.int (tx * math_sin theta + ty * math_cos theta + cy) in
       if in_bounds (width img) (height img) src_x src_y
       then [(x, y, getpx img src_x src_y)] else [])
    (white (width img) (height img)) (width img) (height img)) as [Hd Hv].
  - apply white_canvas.
  - intros x y v Hin. apply list_elem_of_bind in Hin as (y0 & Hin & _).
    apply list_elem_of_bind in Hin as (x0 & Hin & _). cbv zeta in Hin.
    destruct (in_bounds _ _ _ _); [|by apply elem_of_nil in Hin].
    apply list_elem_of_singleton in Hin. simplify_eq. by apply (getpx_intensity img w h).
  - split; [|done]. apply (has_dims_same img); [apply Hc | done].
Qed.

Lemma apply_skew_canvas (img : image) (k : Q) (w h : Z) :
  is_canvas img w h -> is_canvas (TestGen._apply_skew img k) w h.
Proof.
  intros Hc. rewrite apply_skew_stores.
  destruct (store_all_canvas
    (y ← Py.range 0 (height img);
       x ← Py.range 0 (width img);
       let src_x := x - Py.int (k * (inject_Z y - inject_Z (height img) / 2)) in
       if (0 <=? src_x) && (src_x <? width img) then [(x, y, getpx img src_x y)] else [])
    (white (width img) (height img)) (width img) (height img)) as [Hd Hv].
  - apply white_canvas.
  - intros x y v Hin. apply list_elem_of_bind in Hin as (y0 & Hin & _).
    apply list_elem_of_bind in Hin as (x0 & Hin & _). cbv zeta in Hin.
    destruct (_ && _); [|by apply elem_of_nil in Hin].
    apply list_elem_of_singleton in Hin. simplify_eq. by apply (getpx_intensity img w h).
  - split; [|done]. apply (has_dims_same img); [apply Hc | done].
Qed.

Lemma apply_distortions_canvas `{RS : RandomSource} `{ML : MathLib}
    (g : TestGen.TestImageGenerator) (img : image)
    (rotation skew : Q) (noise_level : Z) (s : rng) (w h : Z) :
  is_canvas img w h ->
  is_canvas (TestGen.apply_distortions g img rotation skew noise_level s).1 w h.
Proof.
  intros Hc. unfold TestGen.apply_distortions.
  match goal with
  | |- context [if 0 <? noise_level then TestGen._add_noise g ?i _ _ else _] =>
    assert (is_canvas i w h) as Hc'
  end.
  { destruct (Py.gtb (Py.abs skew) _).
    - apply apply_skew_canvas. destruct (Py.gtb _ _); [by apply apply_rotation_canvas | done].
    - destruct (Py.gtb _ _); [by apply apply_rotation_canvas | done]. }
  destruct (0 <? noise_level); [by apply add_noise_canvas | done].
Qed.

Lemma generated_sheet_canvas `{RS : RandomSource} `{ML : MathLib}
    (g : TestGen.TestImageGenerator) (layout : template_layout)
    (answers : gmap string string) (add_noise : bool)
    (rotation skew : Q) (noise_level : Z) (s : rng) :
  let generated := TestGen.generate_test_image g layout answers add_noise s in
  is_canvas
    (TestGen.apply_distortions g generated.1 rotation skew noise_level generated.2).1
    (TestGen.gen_width g) (TestGen.gen_height g).
Proof. apply apply_distortions_canvas, generate_test_image_canvas. Qed.

(** A canvas of the generator's dimensions is read back from both
    formats. *)
Lemma canvas_files_load (g : TestGen.TestImageGenerator) (sheet : image) :
  is_canvas sheet (TestGen.gen_width g) (TestGen.gen_height g) ->
  TestScan.load_image ".json" (JsonFile (TestGen.save_compact g sheet)) = Some sheet
  /\ TestScan.load_image ".pgm" (PgmFile (TestGen.save_pgm g sheet)) = Some sheet.
Proof.
  intros Hc. split; [|done].
  change (TestScan.load_sparse (TestGen.save_compact g sheet) = Some sheet).
  by apply canvas_round_trip.
Qed.

(** X6. Whatever the layout, the answers, the random draws and the
    distortion parameters, the sheet that [generate_test_image] and
    [apply_distortions] produce is a canvas of the generator's dimensions
    with intensities in [0, 255]; saved in either format it is read back
    by [load_image] as the same sheet, and [extract_answers] returns a
    result on it. *)
Theorem generated_sheet_loads `{RS : RandomSource} `{ML : MathLib}
    (g : TestGen.TestImageGenerator) (layout : template_layout)
    (answers : gmap string string) (add_noise : bool)
    (rotation skew : Q) (noise_level : Z) (s : rng) :
  let generated := TestGen.generate_test_image g layout answers add_noise s in
  let sheet :=
    (TestGen.apply_distortions g generated.1 rotation skew noise_level generated.2).1 in
  is_canvas sheet (TestGen.gen_width g) (TestGen.gen_height g)
  /\ TestScan.load_image ".json" (JsonFile (TestGen.save_compact g sheet)) = Some sheet
  /\ TestScan.load_image ".pgm" (PgmFile (TestGen.save_pgm g sheet)) = Some sheet
  /\ is_Some (TestScan.extract_answers sheet layout).
Proof.
  intros generated sheet.
  assert (is_canvas sheet (TestGen.gen_width g) (TestGen.gen_height g)) as Hc
    by apply generated_sheet_canvas.
  destruct (canvas_files_load g sheet Hc) as [Hjson Hpgm].
  split; [done|]. split; [done|]. split; [done|].
  destruct (extract_loop sheet (page_dpi layout) (questions layout) []) as (ans & E & _).
    unfold TestScan.extract_answers.
    destruct (TestScan.detect_registration_marks _ _ _) as [dm ok].
    rewrite E. cbn. by eexists.
Qed.

(** * The answers drawn for a student and the files written *)

Lemma simulate_answers_snoc `{RS : RandomSource} (accuracy : Q)
    (qs : list order_question) (q : order_question) (s : rng) :
  let before := TestGen.simulate_answers accuracy qs s in
  exists a s',
    TestGen.simulate_answers accuracy (qs ++ [q]) s
    = (<[oq_question_id q := a]> before.1, s')
    /\ (((random_random before.2).1 < accuracy)%Q /\ a = oq_correct_answer q
        \/ (accuracy <= (random_random before.2).1)%Q /\ wrong_pick q a).
Proof.
  cbv zeta. unfold TestGen.simulate_answers. rewrite fold_left_app.
  match goal with |- context [fold_left ?f qs (∅, s)] =>
    destruct (fold_left f qs (∅, s)) as [answers s0] end.
  cbn [fst snd]. clear s. rename s0 into s.
  cbn [fold_left]. unfold wrong_pick.
  destruct (random_random s) as [r s1] eqn:Er. cbn [fst].
  destruct (Py.ltb r accuracy) eqn:E.
  { apply py_ltb_lt in E. eexists _, _. split; [reflexivity|]. by left. }
  assert (accuracy <= r)%Q as Hr.
  { apply Qnot_lt_le. intros Hlt. apply py_ltb_lt in Hlt. congruence. }
  destruct (oq_options q) as [[|o opts]|];
    [eexists _, _; (split; [reflexivity|]); right; by split | |
     eexists _, _; (split; [reflexivity|]); right; by split].
  set (all := o :: opts).
  destruct (map option_label (filter (fun opt => option_label opt <> oq_correct_answer q) all))
    as [|l ls] eqn:Ew.
  - eexists _, _. split; [reflexivity|]. right. split; [done|]. right. split; [|done].
    intros o' Ho'. destruct (decide (option_label o' = oq_correct_answer q)) as [|Hne]; [done|].
    apply fmap_nil_inv in Ew.
    assert (o' ∈ filter (fun opt => option_label opt <> oq_correct_answer q) all) as Hin
      by (by apply list_elem_of_filter).
    rewrite Ew in Hin. by apply elem_of_nil in Hin.
  - pose proof (random_choice_range (length (l :: ls)) s1 ltac:(cbn; lia)) as Hi.
    destruct (random_choice (length (l :: ls)) s1) as [i s2]. cbn [fst] in Hi.
    destruct (lookup_lt_is_Some_2 (l :: ls) i Hi) as [a Ha].
    eexists _, _. split; [reflexivity|]. right. split; [done|]. left.
    rewrite Ha. cbn [default].
    apply list_elem_of_lookup_2 in Ha. rewrite <- Ew in Ha.
    apply list_elem_of_fmap in Ha as (o' & -> & Ho').
    apply list_elem_of_filter in Ho' as [Hne Ho']. split; [|done].
    apply list_elem_of_fmap. by exists o'.
Qed.

(** X7. The answers [main] draws for a student: every question of the
    version gets an answer and nothing else does; an answer is the
    correct answer of a question with that id, or a wrong pick for it
    (the label of another option, the correct answer again when no other
    option exists, the text "Wrong Answer" when the question has no
    options).  With an accuracy of at least 1 every answer is the
    correct one of the last question with its id; with an accuracy of 0
    or less every answer is a wrong pick. *)
Theorem simulate_answers_values `{RS : RandomSource} (accuracy : Q)
    (qs : list order_question) (s : rng) :
  let answers := (TestGen.simulate_answers accuracy qs s).1 in
  (forall k, is_Some (answers !! k) <-> exists q, q ∈ qs /\ oq_question_id q = k)
  /\ (forall k a, answers !! k = Some a ->
        exists q, q ∈ qs /\ oq_question_id q = k
          /\ (a = oq_correct_answer q \/ wrong_pick q a))
  /\ ((1 <= accuracy)%Q -> answers = correct_answers qs)
  /\ ((accuracy <= 0)%Q -> forall k a, answers !! k = Some a ->
        exists q, q ∈ qs /\ oq_question_id q = k /\ wrong_pick q a).
Proof.
  cbv zeta.
  induction qs as [|q qs IH] using rev_ind.
  - cbn. split; [|split; [|split]].
    + intros k. rewrite lookup_empty. split; [by intros [? ?]|].
      intros (q & Hq & _). by apply elem_of_nil in Hq.
    + intros k a. by rewrite lookup_empty.
    + done.
    + intros _ k a. by rewrite lookup_empty.
  - destruct (simulate_answers_snoc accuracy qs q s) as (a & s2 & Estep & Ha).
    rewrite Estep. cbn [fst].
    destruct (TestGen.simulate_answers accuracy qs s) as [answers s1].
    cbn [fst snd] in *. destruct IH as (IHdom & IHval & IHone & IHzero).
    split; [|split; [|split]].
    + intros k. destruct (decide (oq_question_id q = k)) as [<- | Hne].
      * rewrite lookup_insert_eq. split; [|by eexists].
        intros _. exists q. split; [|done]. apply elem_of_app. right. by left.
      * rewrite lookup_insert_ne by done. rewrite IHdom. split.
        -- intros (q' & Hq' & E). exists q'. split; [|done]. apply elem_of_app. by left.
        -- intros (q' & Hq' & E). apply elem_of_app in Hq' as [Hq' | Hq'].
           ++ by exists q'.
           ++ apply list_elem_of_singleton in Hq'. congruence.
    + intros k a'. destruct (decide (oq_question_id q = k)) as [<- | Hne].
      * rewrite lookup_insert_eq. intros [= <-]. exists q.
        split; [apply elem_of_app; right; by left|]. split; [done|].
        destruct Ha as [[_ ->] | [_ Hw]]; [by left | by right].
      * rewrite lookup_insert_ne by done. intros Hk.
        destruct (IHval k a' Hk) as (q' & Hq' & E & Hv). exists q'.
        split; [apply elem_of_app; by left | done].
    + intros Hacc. unfold correct_answers. rewrite fold_left_app. cbn [fold_left].
      fold (correct_answers qs). rewrite <- (IHone Hacc). f_equal.
      destruct Ha as [[_ ->] | [Hle _]]; [done|].
      pose proof (random_random_range s1) as [_ Hlt]. exfalso.
      apply (Qlt_not_le _ _ Hlt). by apply (Qle_trans _ accuracy).
    + intros Hacc k a'. destruct (decide (oq_question_id q = k)) as [<- | Hne].
      * rewrite lookup_insert_eq. intros [= <-]. exists q.
        split; [apply elem_of_app; right; by left|]. split; [done|].
        destruct Ha as [[Hlt _] | [_ Hw]]; [|done].
        pose proof (random_random_range s1) as [Hge _]. exfalso.
        apply (Qlt_not_le _ _ Hlt). by apply (Qle_trans _ 0).
      * rewrite lookup_insert_ne by done. intros Hk.
        destruct (IHzero Hacc k a' Hk) as (q' & Hq' & E & Hv). exists q'.
        split; [apply elem_of_app; by left | done].
Qed.

Lemma generate_student_file `{RS : RandomSource} `{ML : MathLib}
    (g : TestGen.TestImageGenerator) (args : TestGen.gen_args)
    (layout : template_layout) (order : question_order)
    (student_id : string) (s : rng) :
  match TestGen.generate_student g args layout order student_id s with
  | None => assigned_version order student_id = None
  | Some (name, content, _) =>
    exists version_id img,
      assigned_version order student_id = Some version_id
      /\ name = student_id +:+ "_" +:+ version_id
                +:+ format_suffix (TestGen.arg_format args)
      /\ TestScan.load_image (format_suffix (TestGen.arg_format args)) content = Some img
      /\ is_canvas img (TestGen.gen_width g) (TestGen.gen_height g)
  end.
Proof.
  unfold TestGen.generate_student, assigned_version.
  destruct ((list_to_map (student_assignments order) : gmap string string) !! student_id)
    as [vid|]; [|done]. cbn [mbind option_bind].
  destruct (versions order !! vid) as [qs|]; [|done]. cbn [mbind option_bind].
  destruct (TestGen.simulate_answers _ qs s) as [answers s1].
  pose proof (generated_sheet_canvas g layout answers true (TestGen.arg_rotation args)
                (TestGen.arg_skew args) (TestGen.arg_noise args) s1) as Hc.
  cbv zeta in Hc.
  destruct (TestGen.generate_test_image g layout answers true s1) as [img0 s2].
  cbn [fst snd] in Hc.
  destruct (TestGen.apply_distortions g img0 _ _ _ s2) as [img s3].
  cbn [fst] in Hc. destruct (canvas_files_load g img Hc) as [Hjson Hpgm].
  unfold format_suffix. destruct (String.eqb (TestGen.arg_format args) "pgm").
  - cbn beta iota. exists vid, img. done.
  - cbn beta iota. exists vid, img. done.
Qed.

(** X8. [main] of testgen writes one file per selected student, in
    order, named [<student>_<version>] with the suffix of the format;
    each file is read back by [load_image] as a canvas of 2100 x 2970
    pixels.  It fails (with [KeyError]) exactly when one of the selected
    students has no assignment or is assigned a version that the
    question order does not hold. *)
Theorem main_files `{RS : RandomSource} `{ML : MathLib}
    (args : TestGen.gen_args) (layout : template_layout)
    (order : question_order) (ambient : rng) :
  let student_ids :=
    default (map fst (student_assignments order)) (TestGen.arg_students args) in
  let suffix := format_suffix (TestGen.arg_format args) in
  match TestGen.main args layout order ambient with
  | None => exists student_id,
      student_id ∈ student_ids /\ assigned_version order student_id = None
  | Some files =>
    Forall2 (fun student_id file =>
      exists version_id img,
        assigned_version order student_id = Some version_id
        /\ file.1 = student_id +:+ "_" +:+ version_id +:+ suffix
        /\ TestScan.load_image suffix file.2 = Some img
        /\ is_canvas img 2100 2970)
      student_ids files
  end.
Proof.
  intros student_ids suffix. unfold TestGen.main.
  replace (match TestGen.arg_students args with
           | Some ids => ids
           | None => map fst (student_assignments order)
           end) with student_ids by (unfold student_ids; by destruct (TestGen.arg_students args)).
  set (g := {| TestGen.gen_width := 2100; TestGen.gen_height := 2970 |}).
  set (step := fun (acc : option (list (string * file_content) * rng)) student_id =>
      '(files, s) ← acc;
      '(name, content, s) ← TestGen.generate_student g args layout order student_id s;
      Some (files ++ [(name, content)], s)).
  set (ok := fun student_id (file : string * file_content) =>
      exists version_id img,
        assigned_version order student_id = Some version_id
        /\ file.1 = student_id +:+ "_" +:+ version_id +:+ suffix
        /\ TestScan.load_image suffix file.2 = Some img
        /\ is_canvas img 2100 2970).
  assert (forall ids, fold_left step ids None = None) as Hnone.
  { induction ids as [|i ids IH]; [done | apply IH]. }
  assert (forall ids files0 s,
            match fold_left step ids (Some (files0, s)) with
            | None => exists student_id,
                student_id ∈ ids /\ assigned_version order student_id = None
            | Some (files, _) => exists new, files = files0 ++ new /\ Forall2 ok ids new
            end) as Hfold.
  { induction ids as [|i ids IH]; intros files0 s.
    - cbn. exists []. split; [by rewrite app_nil_r | constructor].
    - cbn [fold_left]. unfold step at 2. cbn.
      pose proof (generate_student_file g args layout order i s) as Hi.
      destruct (TestGen.generate_student g args layout order i s) as [[[name content] s']|].
      + cbn. specialize (IH (files0 ++ [(name, content)]) s').
        destruct (fold_left step ids _) as [[files s'']|].
        * destruct IH as (new & -> & Hnew). exists ((name, content) :: new).
          split; [by rewrite <- app_assoc|]. constructor; [|done].
          destruct Hi as (vid & img & H1 & H2 & H3 & H4). by exists vid, img.
        * destruct IH as (sid & Hsid & Hnone'). exists sid. split; [by right | done].
      + cbn. rewrite Hnone. exists i. split; [by left | done]. }
  specialize (Hfold student_ids [] (TestGen.seed_rng (TestGen.arg_seed args) ambient)).
  fold step.
  destruct (fold_left step student_ids _) as [[files s']|]; cbn.
  - by destruct Hfold as (new & -> & Hnew).
  - done.
Qed.

(** * Further properties of the detectors *)

Lemma fraction_range (a b : Z) : 0 <= a <= b -> (0 <= fraction a b <= 1)%Q.
Proof.
  intros Hab. unfold fraction, ratio. destruct (0 <? b) eqn:E; [|lra].
  assert (0 < inject_Z b)%Q as Hb by (change 0%Q with (inject_Z 0); rewrite <- Zlt_Qlt; lia).
  assert (0 <= inject_Z a)%Q as Ha by (change 0%Q with (inject_Z 0); rewrite <- Zle_Qle; lia).
  assert (inject_Z a <= inject_Z b)%Q as Hle by (rewrite <- Zle_Qle; lia).
  split.
  - apply Qle_shift_div_l; [done | lra].
  - apply Qle_shift_div_r; [done | lra].
Qed.

Lemma fraction_pos (a b : Z) : (0 < fraction a b)%Q -> 0 < a.
Proof.
  unfold fraction, ratio. destruct (0 <? b) eqn:E; [|lra].
  intros H. destruct (decide (0 < a)) as [|Hn]; [done|]. exfalso.
  assert (0 < inject_Z b)%Q as Hb by (change 0%Q with (inject_Z 0); rewrite <- Zlt_Qlt; lia).
  assert (inject_Z a <= 0)%Q as Ha by (change 0%Q with (inject_Z 0); rewrite <- Zle_Qle; lia).
  apply (Qlt_not_le _ _ H). apply Qle_shift_div_r; [done | lra].
Qed.

Lemma count_px_pos (img : image) (hit : Z -> bool) (ps : list (Z * Z)) :
  0 < count_px img hit ps -> exists p, p ∈ ps /\ hit (getpx img p.1 p.2) = true.
Proof.
  unfold count_px. intros H.
  destruct (filter (fun p => hit (getpx img p.1 p.2) = true) ps) as [|p rest] eqn:E;
    [cbn in H; lia|].
  assert (p ∈ filter (fun p => hit (getpx img p.1 p.2) = true) ps) as Hin
    by (rewrite E; left).
  apply list_elem_of_filter in Hin as [Hh Hin]. by exists p.
Qed.

Lemma mark_score_range (img : image) (cx cy r : Z) :
  let disk := disk_pixels img cx cy r in
  let ring := ring_pixels img cx cy r (Py.int (inject_Z r * (15 # 10))) in
  let dark := fraction (count_px img (fun v => v <? 128) disk) (Z.of_nat (length disk)) in
  let light := fraction (count_px img (fun v => 200 <? v) ring) (Z.of_nat (length ring)) in
  (0 <= mark_score img cx cy r <= 1)%Q
  /\ ((7 # 10 < mark_score img cx cy r)%Q ->
      disk_inside img cx cy r = true /\ (4 # 7 < dark)%Q /\ (0 < light)%Q).
Proof.
  intros disk ring dark light. unfold mark_score. fold disk ring. fold dark light.
  pose proof (fraction_range _ _ (count_px_bounds img (fun v => v <? 128) disk)) as Hd.
  pose proof (fraction_range _ _ (count_px_bounds img (fun v => 200 <? v) ring)) as Hl.
  fold dark in Hd. fold light in Hl.
  destruct (disk_inside img cx cy r); [|split; [lra | intros H; exfalso; lra]].
  split; [lra|]. intros H. split; [done|]. split; lra.
Qed.

(** X9. The score [_is_dark_circle] gives a candidate lies between 0 and
    1.  A score above 0.7, the detection threshold, is only reached by a
    candidate whose disk lies wholly inside the image, with more than
    4/7 of its disk darker than 128 and at least one pixel of its ring
    lighter than 200: a dark disk alone scores at most 0.7 and is never
    detected. *)
Theorem is_dark_circle_range (img : image) (cx cy r : Z) :
  rectangular img ->
  let score := TestScan._is_dark_circle img cx cy r in
  let disk := disk_pixels img cx cy r in
  (0 <= score <= 1)%Q
  /\ ((7 # 10 < score)%Q ->
      r <= cx < width img - r /\ r <= cy < height img - r
      /\ (4 # 7 < fraction (count_px img (fun v => v <? 128) disk)
                    (Z.of_nat (length disk)))%Q
      /\ exists x y,
           (x, y) ∈ ring_pixels img cx cy r (Py.int (inject_Z r * (15 # 10)))
           /\ 200 < getpx img x y).
Proof.
  intros _ score disk. unfold score. rewrite is_dark_circle_score.
  destruct (mark_score_range img cx cy r) as [Hr Hhigh]. split; [done|].
  intros H. destruct (Hhigh H) as (Hin & Hd & Hl).
  unfold disk_inside in Hin. rewrite !andb_true_iff in Hin.
  split; [lia|]. split; [lia|]. split; [done|].
  apply fraction_pos, count_px_pos in Hl as ([x y] & Hp & Hw). exists x, y.
  split; [done|]. cbn [fst snd] in Hw. lia.
Qed.

Lemma is_dark_circle_range_witness :
  (0 <= TestScan._is_dark_circle inner_sheet 5 5 2 <= 1)%Q.
Proof.
  assert (rectangular inner_sheet) as Hr by (vm_compute; repeat constructor).
  exact (proj1 (is_dark_circle_range inner_sheet 5 5 2 Hr)).
Defined.

(** The two outcomes of the search for one mark. *)
Lemma detect_mark_cases (img : image) (dpi : Z) (m : mark) :
  let ex := TestScan._mm_to_pixels (mark_x_mm m) dpi in
  let ey := TestScan._mm_to_pixels (mark_y_mm m) dpi in
  let er := TestScan._mm_to_pixels (mark_size_mm m) dpi in
  let d := TestScan.detect_mark img dpi m in
  match TestScan.detected_x d, TestScan.detected_y d with
  | Some x, Some y =>
    (-20 <= x - ex <= 20 /\ (x - ex) mod 5 = 0)
    /\ (-20 <= y - ey <= 20 /\ (y - ey) mod 5 = 0)
    /\ TestScan.mark_confidence d = TestScan._is_dark_circle img x y er
    /\ (7 # 10 < TestScan.mark_confidence d <= 1)%Q
    /\ forall dx dy, dx ∈ search_grid -> dy ∈ search_grid ->
         (TestScan._is_dark_circle img (ex + dx) (ey + dy) er
          <= TestScan.mark_confidence d)%Q
  | None, None =>
    TestScan.mark_confidence d = 0%Q
    /\ forall dx dy, dx ∈ search_grid -> dy ∈ search_grid ->
         (TestScan._is_dark_circle img (ex + dx) (ey + dy) er <= 7 # 10)%Q
  | _, _ => False
  end.
Proof.
  intros ex ey er d. subst d. unfold TestScan.detect_mark. fold ex ey er.
  rewrite search_mark_flat.
  set (cands := search_grid ≫= fun dy => (fun dx => (ex + dx, ey + dy)) <$> search_grid).
  assert (forall c, c ∈ cands <->
            exists dx dy, dx ∈ search_grid /\ dy ∈ search_grid /\ c = (ex + dx, ey + dy)) as Hc.
  { intros c. unfold cands. rewrite list_elem_of_bind. split.
    - intros (dy & Hin & Hdy). apply list_elem_of_fmap in Hin as (dx & -> & Hdx).
      by exists dx, dy.
    - intros (dx & dy & Hdx & Hdy & ->). exists dy. split; [|done].
      apply list_elem_of_fmap. by exists dx. }
  destruct (best_of_candidates (fun c => mark_score img c.1 c.2 er) cands 0%Q None)
    as (H1 & H2 & H3).
  cbv zeta in H1, H2, H3.
  match type of H3 with ?r = _ \/ _ => set (res := r) in * end.
  assert (forall dx dy, dx ∈ search_grid -> dy ∈ search_grid ->
            (TestScan._is_dark_circle img (ex + dx) (ey + dy) er <= res.1)%Q) as Hbest.
  { intros dx dy Hdx Hdy. rewrite is_dark_circle_score.
    apply (H2 (ex + dx, ey + dy)). apply Hc. by exists dx, dy. }
  destruct H3 as [H3|(c & Hin & Hlt & H3)].
  - rewrite H3 in *. cbn. split; [done|]. intros dx dy Hdx Hdy.
    eapply Qle_trans; [by apply Hbest|]. cbn. lra.
  - rewrite H3 in *. cbn [fst snd TestScan.match_score TestScan.match_x TestScan.match_y] in *.
    destruct (Py.gtb (mark_score img c.1 c.2 er) (7 # 10)) eqn:E; cbn.
    + apply py_gtb_gt in E. apply Hc in Hin as (dx & dy & Hdx & Hdy & ->).
      cbn [fst snd] in *. apply search_grid_elem in Hdx, Hdy.
      replace (ex + dx - ex) with dx by lia. replace (ey + dy - ey) with dy by lia.
      split; [done|]. split; [done|]. split; [by rewrite is_dark_circle_score|].
      split; [|done]. split; [done|]. apply mark_score_range.
    + split; [done|]. intros dx dy Hdx Hdy.
      eapply Qle_trans; [by apply Hbest|].
      apply Qnot_lt_le. intros Hgt. apply py_gtb_gt in Hgt. congruence.
Qed.

(** X10. What [detect_registration_marks] reports for one mark: either
    a position, which is then a candidate of the 5-pixel grid within 20
    pixels of the expected position, whose score is the confidence
    reported, exceeds 0.7 and is not exceeded by the score of any other
    candidate; or no position at all, with confidence 0, and then no
    candidate scores above 0.7.  The two coordinates are reported
    together or not at all. *)
Theorem detect_mark_position (img : image) (dpi : Z) (m : mark) :
  rectangular img ->
  let ex := TestScan._mm_to_pixels (mark_x_mm m) dpi in
  let ey := TestScan._mm_to_pixels (mark_y_mm m) dpi in
  let er := TestScan._mm_to_pixels (mark_size_mm m) dpi in
  let d := TestScan.detect_mark img dpi m in
  match TestScan.detected_x d, TestScan.detected_y d with
  | Some x, Some y =>
    (-20 <= x - ex <= 20 /\ (x - ex) mod 5 = 0)
    /\ (-20 <= y - ey <= 20 /\ (y - ey) mod 5 = 0)
    /\ TestScan.mark_confidence d = TestScan._is_dark_circle img x y er
    /\ (7 # 10 < TestScan.mark_confidence d <= 1)%Q
    /\ forall dx dy, dx ∈ search_grid -> dy ∈ search_grid ->
         (TestScan._is_dark_circle img (ex + dx) (ey + dy) er
          <= TestScan.mark_confidence d)%Q
  | None, None =>
    TestScan.mark_confidence d = 0%Q
    /\ forall dx dy, dx ∈ search_grid -> dy ∈ search_grid ->
         (TestScan._is_dark_circle img (ex + dx) (ey + dy) er <= 7 # 10)%Q
  | _, _ => False
  end.
Proof. intros _. apply detect_mark_cases. Qed.

Lemma detect_mark_position_witness :
  TestScan.detected_x
    (TestScan.detect_mark inner_sheet 300
       {| mark_x_mm := 5 # 10; mark_y_mm := 5 # 10; mark_size_mm := 2 # 10 |}) = Some 5
  /\ (7 # 10 < TestScan.mark_confidence
        (TestScan.detect_mark inner_sheet 300
           {| mark_x_mm := 5 # 10; mark_y_mm := 5 # 10; mark_size_mm := 2 # 10 |}))%Q.
Proof.
  assert (rectangular inner_sheet) as Hr by (vm_compute; repeat constructor).
  pose proof (detect_mark_position inner_sheet 300
    {| mark_x_mm := 5 # 10; mark_y_mm := 5 # 10; mark_size_mm := 2 # 10 |} Hr) as H.
  cbv zeta in H.
  set (d := TestScan.detect_mark inner_sheet 300 _) in *.
  assert (TestScan.detected_x d = Some 5) as Ex by (vm_compute; reflexivity).
  split; [exact Ex|].
  destruct (TestScan.detected_x d) as [x|]; [|discriminate].
  destruct (TestScan.detected_y d) as [y|]; [|contradiction].
  tauto.
Defined.

Lemma ratio_range (a b : Z) : 0 <= a <= b -> 0 < b -> (0 <= ratio a b <= 1)%Q.
Proof.
  intros Hab Hb. pose proof (fraction_range a b Hab) as H. unfold fraction in H.
  by replace (0 <? b) with true in H by (symmetry; lia).
Qed.

Lemma count_px_none (img : image) (hit : Z -> bool) (ps : list (Z * Z)) :
  (forall p, p ∈ ps -> hit (getpx img p.1 p.2) = false) ->
  count_px img hit ps = 0.
Proof.
  induction ps as [|p ps IH]; intros H; [apply count_px_nil|].
  rewrite count_px_cons, (H p) by left. rewrite IH; [done|].
  intros q Hq. apply H. by right.
Qed.

(** The loop of [detect_bubble_fill] on a centre inside the image: the
    disk it samples is not empty. *)
Lemma detect_bubble_fill_ratio (img : image) (cx cy radius : Z) (threshold : Q) :
  0 <= cx < width img -> 0 <= cy < height img ->
  let sampled := disk_pixels img cx cy (Z.max 1 (radius - 2)) in
  let fill_ratio :=
    ratio (count_px img (fun v => v <? 128) sampled) (Z.of_nat (length sampled)) in
  (0 < length sampled)%nat
  /\ TestScan.detect_bubble_fill img cx cy radius threshold =
       if Py.geb fill_ratio threshold
       then q ← Py.div fill_ratio threshold; Some (true, Qmin (99 # 100) q)
       else q ← Py.div fill_ratio threshold; Some (false, Qmin (99 # 100) (1 - q)).
Proof.
  intros Hx Hy sampled fill_ratio.
  assert (0 < length sampled)%nat as Hpos.
  { assert ((cx, cy) ∈ sampled) as Hc.
    { unfold sampled, disk_pixels. apply disk_pixels_elem; [lia|]. nia. }
    destruct sampled; [by apply elem_of_nil in Hc | simpl; lia]. }
  split; [done|]. unfold TestScan.detect_bubble_fill.
  destruct ((cx <? 0) || (cy <? 0) || (width img <=? cx) || (height img <=? cy)) eqn:G.
  { repeat (apply orb_true_iff in G as [G|G]); lia. }
  rewrite count_window_spec. fold (disk_pixels img cx cy (Z.max 1 (radius - 2))).
  fold sampled.
  destruct (Z.of_nat (length sampled) =? 0) eqn:E; [lia|].
  fold (ratio (count_px img (fun v => v <? 128) sampled) (Z.of_nat (length sampled))).
  fold fill_ratio. by destruct (Py.geb fill_ratio threshold).
Qed.

(** X11. With a positive threshold [detect_bubble_fill] always returns,
    and its confidence lies between 0 and 0.99.  A field judged filled
    has confidence exactly 0.99: the quotient [fill_ratio / threshold]
    is then at least 1, so the cap always applies.  A field judged not
    filled whose centre is inside the image has a positive confidence. *)
Theorem detect_bubble_fill_confidence (img : image) (cx cy radius : Z) (threshold : Q) :
  rectangular img -> (0 < threshold)%Q ->
  exists b c,
    TestScan.detect_bubble_fill img cx cy radius threshold = Some (b, c)
    /\ (0 <= c <= 99 # 100)%Q
    /\ (b = true -> c = (99 # 100)%Q)
    /\ (b = false -> 0 <= cx < width img -> 0 <= cy < height img -> (0 < c)%Q).
Proof.
  intros _ Ht.
  destruct (decide (0 <= cx < width img /\ 0 <= cy < height img)) as [[Hx Hy] | Hout].
  - destruct (detect_bubble_fill_ratio img cx cy radius threshold Hx Hy) as [Hpos ->].
    set (sampled := disk_pixels img cx cy (Z.max 1 (radius - 2))) in *.
    set (fill_ratio := ratio _ _).
    assert (0 <= fill_ratio <= 1)%Q as Hr.
    { apply ratio_range; [apply count_px_bounds | lia]. }
    rewrite py_div_nonzero by lra. cbn [mbind option_bind].
    assert (0 <= fill_ratio / threshold)%Q as Hq.
    { apply Qle_shift_div_l; [done | lra]. }
    destruct (Py.geb fill_ratio threshold) eqn:E.
    + apply py_geb_ge in E.
      assert (Qmin (99 # 100) (fill_ratio / threshold) = (99 # 100)%Q) as ->.
      { apply Qmin_left. apply Qle_shift_div_l; [done | lra]. }
      exists true, (99 # 100)%Q. split; [done|]. split; [lra|]. done.
    + assert (fill_ratio < threshold)%Q as Hlt.
      { apply Qnot_le_lt. intros Hle. apply py_geb_ge in Hle. congruence. }
      assert (fill_ratio / threshold < 1)%Q as Hq1.
      { apply Qlt_shift_div_r; [done | lra]. }
      eexists false, _. split; [done|].
      pose proof (Q.le_min_l (99 # 100) (1 - fill_ratio / threshold)) as Hm.
      assert (0 < Qmin (99 # 100) (1 - fill_ratio / threshold))%Q as Hm0.
      { apply Q.min_glb_lt; lra. }
      split; [split; [lra | done]|]. split; [done|]. done.
  - exists false, 0%Q. split; [|split; [lra|]; split; [done | lia]].
    unfold TestScan.detect_bubble_fill.
    replace ((cx <? 0) || (cy <? 0) || (width img <=? cx) || (height img <=? cy)) with true;
      [done|].
    symmetry. rewrite !orb_true_iff. lia.
Qed.

Lemma detect_bubble_fill_confidence_witness :
  exists b c,
    TestScan.detect_bubble_fill sample_sheet 17 11 5 (1 # 2) = Some (b, c)
    /\ (0 <= c <= 99 # 100)%Q.
Proof.
  assert (rectangular sample_sheet) as Hr by (vm_compute; repeat constructor).
  destruct (detect_bubble_fill_confidence sample_sheet 17 11 5 (1 # 2) Hr eq_refl)
    as (b & c & H1 & H2 & _).
  exists b, c. split; [exact H1 | exact H2].
Defined.

(** X12. The two extremes of [detect_bubble_fill] for a centre inside
    the image: when no sampled pixel is darker than 128 (a blank bubble)
    the verdict is not filled with confidence 0.99, for any positive
    threshold; when every sampled pixel is darker than 128 the verdict
    is filled with confidence 0.99, for any threshold in (0, 1]. *)
Theorem detect_bubble_fill_extremes (img : image) (cx cy radius : Z) (threshold : Q) :
  rectangular img ->
  0 <= cx < width img -> 0 <= cy < height img ->
  (0 < threshold)%Q ->
  let check_radius := Z.max 1 (radius - 2) in
  let sampled := fun x y =>
    0 <= x < width img /\ 0 <= y < height img
    /\ (x - cx) * (x - cx) + (y - cy) * (y - cy) <= check_radius * check_radius in
  ((forall x y, sampled x y -> 128 <= getpx img x y) ->
     TestScan.detect_bubble_fill img cx cy radius threshold = Some (false, (99 # 100)%Q))
  /\ ((threshold <= 1)%Q ->
      (forall x y, sampled x y -> getpx img x y < 128) ->
      TestScan.detect_bubble_fill img cx cy radius threshold = Some (true, (99 # 100)%Q)).
Proof.
  intros _ Hx Hy Ht check_radius sampled.
  destruct (detect_bubble_fill_ratio img cx cy radius threshold Hx Hy) as [Hpos ->].
  set (ps := disk_pixels img cx cy (Z.max 1 (radius - 2))) in *.
  assert (forall x y, (x, y) ∈ ps -> sampled x y) as Hps.
  { intros x y Hin. unfold ps, disk_pixels in Hin.
    apply disk_pixels_elem in Hin; [done | lia]. }
  assert (0 < inject_Z (Z.of_nat (length ps)))%Q as Hlen
    by (change 0%Q with (inject_Z 0); rewrite <- Zlt_Qlt; lia).
  split.
  - intros Hblank.
    assert (count_px img (fun v => v <? 128) ps = 0) as ->.
    { apply count_px_none. intros [x y] Hin. apply Hps, Hblank in Hin. cbn [fst snd]. lia. }
    assert (ratio 0 (Z.of_nat (length ps)) == 0)%Q as E0.
    { unfold ratio. change (inject_Z 0) with 0%Q. field. lra. }
    replace (Py.geb (ratio 0 (Z.of_nat (length ps))) threshold) with false.
    + rewrite py_div_nonzero by lra. cbn [mbind option_bind]. do 2 f_equal.
      apply Qmin_left. rewrite E0. setoid_replace (0 / threshold)%Q with 0%Q using relation Qeq.
      * lra.
      * field. lra.
    + symmetry. destruct (Py.geb _ _) eqn:E; [|done]. apply py_geb_ge in E.
      rewrite E0 in E. lra.
  - intros Ht1 Hdark.
    assert (count_px img (fun v => v <? 128) ps = Z.of_nat (length ps)) as ->.
    { apply count_px_all. intros [x y] Hin. apply Hps, Hdark in Hin. cbn [fst snd]. lia. }
    assert (ratio (Z.of_nat (length ps)) (Z.of_nat (length ps)) == 1)%Q as E1.
    { unfold ratio. field. lra. }
    replace (Py.geb (ratio (Z.of_nat (length ps)) (Z.of_nat (length ps))) threshold) with true.
    + rewrite py_div_nonzero by lra. cbn [mbind option_bind]. do 2 f_equal.
      apply Qmin_left. rewrite E1. apply Qle_shift_div_l; [done | lra].
    + symmetry. apply py_geb_ge. rewrite E1. done.
Qed.

Lemma detect_bubble_fill_extremes_witness :
  TestScan.detect_bubble_fill (white 30 30) 15 15 10 (1 # 2) = Some (false, (99 # 100)%Q).
Proof.
  assert (rectangular (white 30 30)) as Hr by (vm_compute; repeat constructor).
  refine (proj1 (detect_bubble_fill_extremes (white 30 30) 15 15 10 (1 # 2) Hr
                   _ _ eq_refl) _).
  - change (0 <= 15 < 30). lia.
  - change (0 <= 15 < 30). lia.
  - intros x y _. rewrite getpx_white. lia.
Defined.

(** * Further properties of the extraction *)

Lemma round_half_even_near (q : Q) :
  (inject_Z (Py.round_half_even q) - (1 # 2) <= q
   <= inject_Z (Py.round_half_even q) + (1 # 2))%Q.
Proof.
  unfold Py.round_half_even.
  pose proof (Qfloor_le q) as Hlo. pose proof (Qlt_floor q) as Hhi.
  rewrite inject_Z_plus in Hhi. change (inject_Z 1) with 1%Q in Hhi.
  destruct (Py.ltb (q - inject_Z (Qfloor q)) (1 # 2)) eqn:E1.
  { apply py_ltb_lt in E1. lra. }
  assert (1 # 2 <= q - inject_Z (Qfloor q))%Q as H1.
  { apply Qnot_lt_le. intros H. apply py_ltb_lt in H. congruence. }
  destruct (Py.ltb (1 # 2) (q - inject_Z (Qfloor q))) eqn:E2.
  { rewrite inject_Z_plus. change (inject_Z 1) with 1%Q. lra. }
  assert (q - inject_Z (Qfloor q) <= 1 # 2)%Q as H2.
  { apply Qnot_lt_le. intros H. apply py_ltb_lt in H. congruence. }
  destruct (Z.even (Qfloor q)); [lra|].
  rewrite inject_Z_plus. change (inject_Z 1) with 1%Q. lra.
Qed.

(** Rounding keeps a value between two whole numbers. *)
Lemma round_half_even_between (lo hi : Z) (q : Q) :
  (inject_Z lo <= q <= inject_Z hi)%Q -> lo <= Py.round_half_even q <= hi.
Proof.
  intros [Hlo Hhi]. pose proof (round_half_even_near q) as [H1 H2].
  split.
  - assert (inject_Z lo < inject_Z (Py.round_half_even q + 1))%Q as H.
    { rewrite inject_Z_plus. change (inject_Z 1) with 1%Q. lra. }
    rewrite <- Zlt_Qlt in H. lia.
  - assert (inject_Z (Py.round_half_even q) < inject_Z (hi + 1))%Q as H.
    { rewrite inject_Z_plus. change (inject_Z 1) with 1%Q. lra. }
    rewrite <- Zlt_Qlt in H. lia.
Qed.

(** [round(x, 3)] keeps a value between two multiples of 0.001. *)
Lemma round3_between (lo hi : Z) (a b q : Q) :
  (a == inject_Z lo / 1000)%Q -> (b == inject_Z hi / 1000)%Q ->
  (a <= q <= b)%Q -> (a <= Py.round3 q <= b)%Q.
Proof.
  intros -> -> [Hlo Hhi]. unfold Py.round3. rewrite Qred_correct.
  assert (forall x : Q, x / 1000 * 1000 == x)%Q as Hk by (intros x; field).
  destruct (round_half_even_between lo hi (q * 1000)) as [H1 H2].
  { split.
    - rewrite <- (Hk (inject_Z lo)). apply Qmult_le_compat_r; [done | discriminate].
    - rewrite <- (Hk (inject_Z hi)). apply Qmult_le_compat_r; [done | discriminate]. }
  rewrite Zle_Qle in H1, H2. split.
  - apply Qle_shift_div_l; [reflexivity|]. by rewrite Hk.
  - apply Qle_shift_div_r; [reflexivity|]. by rewrite Hk.
Qed.

Lemma ocr_count_spec (img : image) (ox oy ow oh : Z) :
  let sampled :=
    y ← Py.range oy (Z.min (oy + oh) (height img));
    x ← Py.range ox (Z.min (ox + ow) (width img));
    if in_bounds (width img) (height img) x y then [(x, y)] else [] in
  TestScan.ocr_count img ox oy ow oh =
    (count_px img (fun v => v <? 200) sampled, Z.of_nat (length sampled)).
Proof.
  cbv zeta. unfold TestScan.ocr_count.
  set (cell := fun y x : Z =>
    if in_bounds (width img) (height img) x y then [(x, y)] else []).
  set (xs := Py.range ox (Z.min (ox + ow) (width img))).
  assert (forall y l d0 t0,
    fold_left (fun '(dark_count, total_count) x =>
      if in_bounds (width img) (height img) x y then
        (if getpx img x y <? 200 then dark_count + 1 else dark_count, total_count + 1)
      else (dark_count, total_count)) l (d0, t0)
    = (d0 + count_px img (fun v => v <? 200) (l ≫= cell y),
       t0 + Z.of_nat (length (l ≫= cell y)))) as Hrow.
  { intros y l. induction l as [|x l IH]; intros d0 t0.
    - simpl. rewrite count_px_nil. f_equal; lia.
    - cbn [fold_left]. change ((x :: l) ≫= cell y) with (cell y x ++ (l ≫= cell y)).
      rewrite count_px_app, length_app. unfold cell at 1 3.
      destruct (in_bounds _ _ _ _); simpl.
      + rewrite IH, count_px_cons, count_px_nil. simpl.
        destruct (getpx img x y <? 200); f_equal; lia.
      + rewrite IH, count_px_nil. f_equal; lia. }
  assert (forall l d0 t0,
    fold_left (fun st y =>
      fold_left (fun '(dark_count, total_count) x =>
        if in_bounds (width img) (height img) x y then
          (if getpx img x y <? 200 then dark_count + 1 else dark_count, total_count + 1)
        else (dark_count, total_count)) xs st) l (d0, t0)
    = (d0 + count_px img (fun v => v <? 200) (l ≫= fun y => xs ≫= cell y),
       t0 + Z.of_nat (length (l ≫= fun y => xs ≫= cell y)))) as Hall.
  { intros l. induction l as [|y l IH]; intros d0 t0.
    - simpl. rewrite count_px_nil. f_equal; lia.
    - cbn [fold_left].
      change ((y :: l) ≫= fun y => xs ≫= cell y)
        with ((xs ≫= cell y) ++ (l ≫= fun y => xs ≫= cell y)).
      rewrite Hrow, IH, count_px_app, length_app. f_equal; lia. }
  rewrite Hall. done.
Qed.




Lemma extract_ocr_in_range (img : image) (dpi : Z) (q : question_layout) (ocr : region) :
  answer_in_range (TestScan.extract_ocr img dpi q ocr).
Proof.
  unfold answer_in_range, TestScan.extract_ocr.
  pose proof (ocr_count_spec img
    (TestScan._mm_to_pixels (region_x_mm ocr) dpi)
    (TestScan._mm_to_pixels (region_y_mm ocr) dpi)
    (TestScan._mm_to_pixels (region_width_mm ocr) dpi)
    (TestScan._mm_to_pixels (region_height_mm ocr) dpi)) as Hc.
  cbv zeta in Hc. rewrite Hc. clear Hc.
  match goal with |- context [count_px img _ ?l] => set (sampled := l) end.
  set (dark := count_px img (fun v => v <? 200) sampled).
  set (total := Z.of_nat (length sampled)).
  change (if 0 <? total then (inject_Z dark / inject_Z total)%Q else 0%Q)
    with (fraction dark total).
  pose proof (fraction_range dark total (count_px_bounds img _ sampled)) as Hd.
  set (density := fraction dark total) in *.
  destruct (Py.gtb density (5 # 100)) eqn:E; cbn.
  - split; [|lia]. apply py_gtb_gt in E.
    apply (round3_between 0 990); [reflexivity | reflexivity |].
    pose proof (Q.le_min_l (85 # 100) (density * 5)) as Hm.
    assert (0 <= Qmin (85 # 100) (density * 5))%Q as Hm0 by (apply Q.min_glb; lra).
    lra.
  - split; [|lia]. split; discriminate.
Qed.

Lemma extract_choice_in_range (img : image) (dpi : Z) (q : question_layout)
    (fields : list answer_field) (a : TestScan.answer) :
  TestScan.extract_choice img dpi q fields = Some a -> answer_in_range a.
Proof.
  unfold TestScan.extract_choice. rewrite bubble_fold.
  destruct (filter (fun f => field_filled img dpi f = true) fields) as [|f [|f' rest]];
    cbn; intros [= <-]; unfold answer_in_range; cbn; (split; [split; discriminate | lia]).
Qed.

Lemma extract_question_in_range (img : image) (dpi : Z) (q : question_layout)
    (l : list TestScan.answer) :
  TestScan.extract_question img dpi q = Some l -> Forall answer_in_range l.
Proof.
  unfold TestScan.extract_question.
  assert (forall l,
    match ocr_region q with
    | Some ocr =>
      if TestScan.is_text_type (q_type q)
      then Some [TestScan.extract_ocr img dpi q ocr] else Some []
    | None => Some []
    end = Some l -> Forall answer_in_range l) as Hocr.
  { intros l'. destruct (ocr_region q) as [ocr|]; [|by intros [= <-]].
    destruct (TestScan.is_text_type _); intros [= <-]; [|done].
    constructor; [apply extract_ocr_in_range | done]. }
  destruct (answer_fields q) as [fields|]; [|apply Hocr].
  destruct (TestScan.is_choice_type _); [|apply Hocr].
  destruct (TestScan.extract_choice img dpi q fields) as [a|] eqn:E; cbn; [|done].
  intros [= <-]. constructor; [by apply (extract_choice_in_range img dpi q fields) | done].
Qed.

Lemma extract_loop_in_range (img : image) (dpi : Z) (qs : list question_layout)
    (acc : list TestScan.answer) :
  exists answers,
    fold_left (fun acc q_layout =>
                 answers ← acc;
                 new ← TestScan.extract_question img dpi q_layout;
                 Some (answers ++ new)) qs (Some acc) = Some (acc ++ answers)
    /\ Forall answer_in_range answers.
Proof.
  revert acc. induction qs as [|q qs IH]; intros acc.
  - exists []. by rewrite app_nil_r.
  - cbn [fold_left]. cbn [mbind option_bind].
    destruct (extract_question_total img dpi q) as (l & El & _).
    pose proof (extract_question_in_range img dpi q l El) as Hl.
    rewrite El. cbn [mbind option_bind].
    destruct (IH (acc ++ l)) as (answers & E & Hall).
    exists (l ++ answers). rewrite E, app_assoc. split; [done|].
    by apply Forall_app.
Qed.

Lemma sum_confidence_bounds (answers : list TestScan.answer) :
  Forall answer_in_range answers ->
  (0 <= TestScan.sum_confidence answers
   <= (99 # 100) * inject_Z (Z.of_nat (length answers)))%Q.
Proof.
  unfold TestScan.sum_confidence. intros Hall.
  assert (forall acc : Q,
    (acc <= fold_left (fun acc a => acc + TestScan.confidence a) answers acc
     <= acc + (99 # 100) * inject_Z (Z.of_nat (length answers)))%Q) as H.
  { induction Hall as [|a rest [Ha _] Hrest IH]; intros acc.
    - cbn [fold_left length]. change (inject_Z (Z.of_nat 0)) with 0%Q. lra.
    - cbn [fold_left length]. specialize (IH (acc + TestScan.confidence a)%Q).
      rewrite Nat2Z.inj_succ. unfold Z.succ. rewrite inject_Z_plus.
      change (inject_Z 1) with 1%Q. lra. }
  specialize (H 0%Q). lra.
Qed.

Lemma count_flags_bounds (answers : list TestScan.answer) :
  Forall answer_in_range answers ->
  0 <= TestScan.count_flags answers <= Z.of_nat (length answers).
Proof.
  unfold TestScan.count_flags. intros Hall.
  assert (forall n : Z,
    n <= fold_left (fun n a => n + Z.of_nat (length (default [] (TestScan.flags a))))
           answers n
      <= n + Z.of_nat (length answers)) as H.
  { induction Hall as [|a rest [_ Ha] Hrest IH]; intros n.
    - cbn. lia.
    - cbn [fold_left length].
      specialize (IH (n + Z.of_nat (length (default [] (TestScan.flags a))))). lia. }
  specialize (H 0). lia.
Qed.

(** X14. [extract_answers] always returns on a rectangular image, and
    its figures stay in range: every answer has a confidence between 0
    and 0.99 and at most one flag, so the overall confidence is between
    0 and 0.99, and the counts of low-confidence answers and of flags
    are at most the number of answers.  Without answers the overall
    confidence is 0. *)
Theorem extract_answers_quality (img : image) (layout : template_layout) :
  rectangular img ->
  exists answers meta,
    TestScan.extract_answers img layout = Some (answers, meta)
    /\ Forall (fun a => (0 <= TestScan.confidence a <= 99 # 100)%Q
                        /\ (length (default [] (TestScan.flags a)) <= 1)%nat) answers
    /\ let qm := TestScan.meta_quality_metrics meta in
       let n := Z.of_nat (length answers) in
       (0 <= TestScan.overall_confidence qm <= 99 # 100)%Q
       /\ 0 <= TestScan.low_confidence_count qm <= n
       /\ 0 <= TestScan.flags_count qm <= n
       /\ (answers = [] -> TestScan.overall_confidence qm = 0%Q).
Proof.
  intros _. unfold TestScan.extract_answers.
  destruct (TestScan.detect_registration_marks _ _ _) as [dm ok].
  destruct (extract_loop_in_range img (page_dpi layout) (questions layout) [])
    as (answers & E & Hall).
  rewrite E. cbn [mbind option_bind app].
  eexists _, _. split; [reflexivity|]. split; [exact Hall|].
  cbn [TestScan.meta_quality_metrics TestScan.overall_confidence
       TestScan.low_confidence_count TestScan.flags_count].
  split; [|split; [|split]].
  - destruct answers as [|a rest] eqn:Ea; [split; discriminate|]. rewrite <- Ea in *.
    assert (0 < inject_Z (Z.of_nat (length answers)))%Q as Hn.
    { change 0%Q with (inject_Z 0). rewrite <- Zlt_Qlt. rewrite Ea. cbn. lia. }
    pose proof (sum_confidence_bounds answers Hall) as [H1 H2].
    apply (round3_between 0 990); [reflexivity | reflexivity |]. split.
    + apply Qle_shift_div_l; [done | lra].
    + apply Qle_shift_div_r; [done | lra].
  - pose proof (length_filter (fun a => Py.ltb (TestScan.confidence a) (7 # 10) = true) answers).
    lia.
  - by apply count_flags_bounds.
  - by intros ->.
Qed.

Lemma extract_answers_quality_witness :
  exists answers meta,
    TestScan.extract_answers sample_sheet sample_layout = Some (answers, meta)
    /\ (0 <= TestScan.overall_confidence (TestScan.meta_quality_metrics meta) <= 99 # 100)%Q.
Proof.
  assert (rectangular sample_sheet) as Hr by (vm_compute; repeat constructor).
  destruct (extract_answers_quality sample_sheet sample_layout Hr)
    as (answers & meta & E & _ & H & _).
  exists answers, meta. split; [exact E | exact H].
Defined.

(** X15. The registration marks are only reported: [extract_answers]
    never rectifies the image, and the answers and quality figures it
    returns are the same whatever marks the layout lists.  The report
    counts the marks expected and those detected; it says
    "rectification applied" exactly when at least 3 marks are detected,
    hence never for a layout with fewer than 3 marks. *)
Theorem rectification_only_reported (img : image) (layout : template_layout)
    (marks' : list mark) :
  rectangular img ->
  let other :=
    {| page_dpi := page_dpi layout; registration_marks := marks';
       questions := questions layout |} in
  exists answers meta meta',
    TestScan.extract_answers img layout = Some (answers, meta)
    /\ TestScan.extract_answers img other = Some (answers, meta')
    /\ TestScan.meta_quality_metrics meta = TestScan.meta_quality_metrics meta'
    /\ let r := TestScan.meta_rectification meta in
       TestScan.markers_expected r = Z.of_nat (length (registration_marks layout))
       /\ 0 <= TestScan.markers_detected r <= TestScan.markers_expected r
       /\ (TestScan.rectification_applied r = true <-> 3 <= TestScan.markers_detected r)
       /\ ((length (registration_marks layout) < 3)%nat ->
           TestScan.rectification_applied r = false).
Proof.
  intros _ other. unfold TestScan.extract_answers, TestScan.detect_registration_marks.
  cbn [page_dpi questions registration_marks other].
  destruct (extract_loop_in_range img (page_dpi layout) (questions layout) [])
    as (answers & E & _).
  rewrite E. cbn [mbind option_bind app].
  eexists _, _, _. split; [reflexivity|]. split; [reflexivity|]. split; [reflexivity|].
  cbn [TestScan.meta_rectification TestScan.markers_expected TestScan.markers_detected
       TestScan.rectification_applied].
  set (detected := map (TestScan.detect_mark img (page_dpi layout)) (registration_marks layout)).
  assert (0 <= TestScan.count_detected detected
          <= Z.of_nat (length (registration_marks layout))) as Hc.
  { unfold TestScan.count_detected.
    pose proof (length_filter (fun m => is_Some (TestScan.detected_x m)) detected) as H.
    unfold detected in H at 2. rewrite length_map in H. lia. }
  split; [done|]. split; [done|]. split; [lia|]. lia.
Qed.

Lemma rectification_only_reported_witness :
  exists answers meta meta',
    TestScan.extract_answers inner_sheet
      {| page_dpi := 300; registration_marks := inner_marks; questions := [] |}
      = Some (answers, meta)
    /\ TestScan.extract_answers inner_sheet
         {| page_dpi := 300; registration_marks := []; questions := [] |}
       = Some (answers, meta').
Proof.
  assert (rectangular inner_sheet) as Hr by (vm_compute; repeat constructor).
  destruct (rectification_only_reported inner_sheet
              {| page_dpi := 300; registration_marks := inner_marks; questions := [] |}
              [] Hr) as (answers & meta & meta' & E & E' & _).
  exists answers, meta, meta'. split; [exact E | exact E'].
Defined.

(** * Loading *)

Lemma py_index_valid (len : nat) (i : Z) :
  valid_index (Z.of_nat len) i ->
  Py.index len i = Some (Z.to_nat (i mod Z.max 0 (Z.of_nat len))).
Proof.
  unfold valid_index, Py.index. rewrite Z.max_r by lia. intros Hi.
  destruct ((0 <=? i) && (i <? Z.of_nat len)) eqn:E.
  - rewrite Z.mod_small by lia. done.
  - replace ((- Z.of_nat len <=? i) && (i <? 0)) with true by (symmetry; lia).
    f_equal. f_equal. apply (Z.mod_unique _ _ (-1)); lia.
Qed.

Lemma py_index_invalid (len : nat) (i : Z) :
  ~ valid_index (Z.of_nat len) i -> Py.index len i = None.
Proof.
  unfold valid_index, Py.index. rewrite Z.max_r by lia. intros Hi.
  replace ((0 <=? i) && (i <? Z.of_nat len)) with false by (symmetry; lia).
  by replace ((- Z.of_nat len <=? i) && (i <? 0)) with false by (symmetry; lia).
Qed.

Lemma load_sparse_step (img : image) (w h x y v : Z) :
  has_dims img w h ->
  (iy ← Py.index (length img) y;
   row ← img !! iy;
   ix ← Py.index (length row) x;
   Some (<[iy := <[ix := v]> row]> img))
  = if bool_decide (valid_index w x /\ valid_index h y)
    then Some (setpx img (x mod Z.max 0 w) (y mod Z.max 0 h) v)
    else None.
Proof.
  intros [Hl Hr].
  assert (forall n i, valid_index (Z.of_nat (Z.to_nat n)) i <-> valid_index n i) as Hv.
  { intros n i. unfold valid_index. lia. }
  assert (forall n, Z.max 0 (Z.of_nat (Z.to_nat n)) = Z.max 0 n) as Hm by (intros; lia).
  destruct (decide (valid_index h y)) as [Hy | Hy].
  - rewrite py_index_valid by (rewrite Hl; by apply Hv). rewrite Hl, Hm.
    cbn [mbind option_bind].
    assert (0 <= y mod Z.max 0 h < Z.max 0 h) as Hyr.
    { apply Z.mod_pos_bound. unfold valid_index in Hy. lia. }
    destruct (img !! Z.to_nat (y mod Z.max 0 h)) as [row|] eqn:Erow;
      [|apply lookup_ge_None in Erow; lia].
    cbn [mbind option_bind].
    assert (length row = Z.to_nat w) as Hrow by (eapply Forall_lookup_1 in Hr; eauto).
    destruct (decide (valid_index w x)) as [Hx | Hx].
    + rewrite py_index_valid by (rewrite Hrow; by apply Hv). rewrite Hrow, Hm.
      cbn [mbind option_bind]. rewrite bool_decide_eq_true_2 by done. f_equal.
      unfold setpx. rewrite list_insert_alter. apply list_alter_ext; [|done].
      intros r Hr'. congruence.
    + rewrite py_index_invalid by (rewrite Hrow; by rewrite Hv).
      cbn [mbind option_bind]. rewrite bool_decide_eq_false_2; [done | tauto].
  - rewrite py_index_invalid by (rewrite Hl; by rewrite Hv).
    cbn [mbind option_bind]. rewrite bool_decide_eq_false_2; [done | tauto].
Qed.

Lemma load_sparse_fold (ps : list (Z * Z * Z)) (img0 : image) (w h : Z) :
  has_dims img0 w h ->
  let loaded :=
    fold_left (fun acc '(x, y, value) =>
      img ← acc;
      iy ← Py.index (length img) y;
      row ← img !! iy;
      ix ← Py.index (length row) x;
      Some (<[iy := <[ix := value]> row]> img)) ps (Some img0) in
  ((forall x y v, (x, y, v) ∈ ps -> valid_index w x /\ valid_index h y) ->
     loaded = Some (store_all (wrap_pixel w h <$> ps) img0))
  /\ ((exists x y v, (x, y, v) ∈ ps /\ ~ (valid_index w x /\ valid_index h y)) ->
      loaded = None).
Proof.
  cbv zeta. revert img0. induction ps as [|[[x y] v] ps IH]; intros img0 Hd.
  - split; [done|]. intros (x & y & v & Hin & _). by apply elem_of_nil in Hin.
  - cbn [fold_left]. cbn [mbind option_bind].
    rewrite (load_sparse_step img0 w h x y v Hd).
    destruct (bool_decide (valid_index w x /\ valid_index h y)) eqn:E.
    + destruct (IH (setpx img0 (x mod Z.max 0 w) (y mod Z.max 0 h) v)) as [IH1 IH2];
        [by apply setpx_has_dims|].
      split.
      * intros Hall. rewrite IH1; [done|]. intros x' y' v' Hin. apply (Hall x' y' v'). by right.
      * intros (x' & y' & v' & Hin & Hbad). apply elem_of_cons in Hin as [Heq | Hin].
        -- simplify_eq. by apply bool_decide_eq_true in E.
        -- apply IH2. by exists x', y', v'.
    + apply bool_decide_eq_false in E. split.
      * intros Hall. exfalso. apply E, (Hall x y v). left.
      * intros _. clear. induction ps as [|[[x' y'] v'] ps IH]; [done | apply IH].
Qed.

(** X16. When [load_image] succeeds.  A sparse file is loaded exactly
    when every listed coordinate is a valid list index, [-w <= x < w]
    and [-h <= y < h]; a coordinate beyond raises [IndexError].
    Negative coordinates are not rejected: they count from the far
    edge, so the loaded image is the white sheet with each listed pixel
    stored at [(x mod w, y mod h)], later entries overwriting earlier
    ones.  A plain-text file is loaded exactly when its magic token is
    "P2", and the image is then the rows of the file, whatever
    dimensions the header declares.  Any other suffix is refused. *)
Theorem load_image_defined (suffix : string) (content : file_content) :
  let valid := fun data =>
    forall x y v, (x, y, v) ∈ sp_pixels data ->
      valid_index (sp_width data) x /\ valid_index (sp_height data) y in
  (is_Some (TestScan.load_image suffix content) <->
     (suffix = ".json" /\ exists data, content = JsonFile data /\ valid data)
     \/ (suffix = ".pgm" /\ exists data, content = PgmFile data /\ pgm_magic data = "P2"))
  /\ (forall data, valid data ->
        TestScan.load_image ".json" (JsonFile data) =
          Some (store_all (wrap_pixel (sp_width data) (sp_height data) <$> sp_pixels data)
                  (white (sp_width data) (sp_height data)))
        /\ has_dims (store_all (wrap_pixel (sp_width data) (sp_height data) <$> sp_pixels data)
                       (white (sp_width data) (sp_height data)))
             (sp_width data) (sp_height data))
  /\ (forall data, pgm_magic data = "P2" ->
        TestScan.load_image ".pgm" (PgmFile data) = Some (pgm_rows data)).
Proof.
  intros valid.
  assert (forall data, valid data ->
            TestScan.load_sparse data =
              Some (store_all (wrap_pixel (sp_width data) (sp_height data) <$> sp_pixels data)
                      (white (sp_width data) (sp_height data)))) as Hok.
  { intros data Hv.
    apply (load_sparse_fold (sp_pixels data) _ _ _ (white_has_dims _ _)). exact Hv. }
  assert (forall data, valid data \/
            exists x y v, (x, y, v) ∈ sp_pixels data
              /\ ~ (valid_index (sp_width data) x /\ valid_index (sp_height data) y)) as Hdec.
  { intros data.
    destruct (decide (Forall (fun p : Z * Z * Z =>
                valid_index (sp_width data) p.1.1 /\ valid_index (sp_height data) p.1.2)
                (sp_pixels data))) as [Hall | Hnot].
    - left. intros x y v Hin. apply (proj1 (Forall_forall _ _) Hall (x, y, v) Hin).
    - right. apply not_Forall_Exists in Hnot; [|intros p; unfold valid_index; apply _].
      apply Exists_exists in Hnot as ([[x y] v] & Hin & Hp). by exists x, y, v. }
  assert (forall data, is_Some (TestScan.load_sparse data) <-> valid data) as Hiff.
  { intros data. split.
    - intros Hs. destruct (Hdec data) as [Hv | Hbad]; [done|]. exfalso.
      pose proof (proj2 (load_sparse_fold (sp_pixels data) _ _ _
                           (white_has_dims (sp_width data) (sp_height data))) Hbad) as En.
      unfold TestScan.load_sparse in Hs. destruct Hs as [img Hs]. congruence.
    - intros Hv. rewrite (Hok data Hv). by eexists. }
  split; [|split].
  - unfold TestScan.load_image.
    destruct (String.eqb suffix ".json") eqn:Ej.
    { apply String.eqb_eq in Ej. subst suffix.
      destruct content as [data | data].
      - rewrite Hiff. split.
        + intros Hv. left. split; [done|]. by exists data.
        + intros [(_ & data' & [= <-] & Hv) | (Hne & _)]; [done | discriminate].
      - split; [by intros [? ?]|].
        intros [(_ & data' & Hc & _) | (Hne & _)]; discriminate. }
    apply String.eqb_neq in Ej.
    destruct (String.eqb suffix ".pgm") eqn:Ep.
    { apply String.eqb_eq in Ep. subst suffix.
      destruct content as [data | data].
      - split; [by intros [? ?]|].
        intros [(Hne & _) | (_ & data' & Hc & _)]; discriminate.
      - unfold TestScan.load_pgm. split.
        + intros Hs. right. split; [done|]. exists data. split; [done|].
          destruct (String.eqb (pgm_magic data) "P2") eqn:Em; [|by destruct Hs].
          by apply String.eqb_eq.
        + intros [(Hne & _) | (_ & data' & [= <-] & Hm)]; [discriminate|].
          rewrite Hm. by eexists. }
    apply String.eqb_neq in Ep. split; [by intros [? ?]|].
    intros [(Hs & _) | (Hs & _)]; congruence.
  - intros data Hv. split; [apply (Hok data Hv)|].
    apply store_all_has_dims, white_has_dims.
  - intros data Hm. unfold TestScan.load_image, TestScan.load_pgm. cbn. by rewrite Hm.
Qed.

(** * Registration marks through the round trip *)

(** The disk of every registration mark is dark on the generated sheet,
    with or without the noise of [generate_test_image]. *)
Lemma generated_marks_inked `{RS : RandomSource} (g : TestGen.TestImageGenerator)
    (layout : template_layout) (answers : gmap string string)
    (add_noise : bool) (s : rng) (m : mark) :
  m ∈ registration_marks layout ->
  let ex := TestGen.mm_to_pixels (mark_x_mm m) in
  let ey := TestGen.mm_to_pixels (mark_y_mm m) in
  let er := TestGen.mm_to_pixels (mark_size_mm m) in
  0 <= er ->
  has_dims (TestGen.generate_test_image g layout answers add_noise s).1
    (TestGen.gen_width g) (TestGen.gen_height g)
  /\ forall x y, 0 <= x < TestGen.gen_width g -> 0 <= y < TestGen.gen_height g ->
       (x - ex) * (x - ex) + (y - ey) * (y - ey) <= er * er ->
       getpx (TestGen.generate_test_image g layout answers add_noise s).1 x y < 128.
Proof.
  intros Hm ex ey er Hr.
  set (W := TestGen.gen_width g). set (H := TestGen.gen_height g).
  apply list_elem_of_split in Hm as (ms1 & ms2 & Hms).
  unfold TestGen.generate_test_image. rewrite Hms, fold_left_app. cbn [fold_left].
  fold ex ey er.
  set (draw_mark := fun (img : list (list Z)) (mark : mark) =>
    TestGen.draw_circle g img (TestGen.mm_to_pixels (mark_x_mm mark))
      (TestGen.mm_to_pixels (mark_y_mm mark)) (TestGen.mm_to_pixels (mark_size_mm mark))
      true 0).
  assert (forall ms, keeps_ink W H (fun img => fold_left draw_mark ms img)) as Hmarks.
  { intros ms. apply keeps_ink_fold. intros m' _. apply draw_circle_keeps_ink. lia. }
  set (A := fold_left draw_mark ms1 (TestGen.create_blank_test g)).
  assert (has_dims A W H) as HdA by (apply (Hmarks ms1), white_has_dims).
  set (B := TestGen.draw_circle g A ex ey er true 0).
  assert (has_dims B W H) as HdB by (by apply draw_circle_keeps_ink).
  assert (forall x y, 0 <= x < W -> 0 <= y < H ->
            (x - ex) * (x - ex) + (y - ey) * (y - ey) <= er * er ->
            getpx B x y <= 80) as HB.
  { intros x y Hx Hy Hdisk. unfold B. rewrite (draw_circle_getpx g A) by done.
    replace (circle_covers ex ey er true x y) with true; [lia|].
    symmetry. unfold circle_covers, offset_covered.
    destruct (disk_in_window er (x - ex) (y - ey) Hr Hdisk) as [H1 H2].
    rewrite orb_true_l, andb_true_r, !andb_true_iff. lia. }
  destruct (Hmarks ms2 B HdB) as [HdC HC].
  set (C := fold_left draw_mark ms2 B) in *.
  destruct (keeps_ink_fold W H (TestGen.draw_question g answers) (questions layout)
              (fun q' _ => draw_question_keeps_ink g answers q') C HdC) as [HdE HkE].
  set (E := fold_left (TestGen.draw_question g answers) (questions layout) C) in *.
  assert (forall x y, 0 <= x < W -> 0 <= y < H ->
            (x - ex) * (x - ex) + (y - ey) * (y - ey) <= er * er ->
            getpx E x y <= 80) as HE.
  { intros x y Hx Hy Hdisk. apply HkE; [done..|]. apply HC; [done..|]. by apply HB. }
  destruct add_noise.
  - destruct (add_noise_bound g E 10 s ltac:(lia) HdE) as [Hdn Hn].
    split; [exact Hdn|]. intros x y Hx Hy Hdisk.
    pose proof (Hn x y Hx Hy (HE x y Hx Hy Hdisk)). lia.
  - split; [exact HdE|]. intros x y Hx Hy Hdisk. cbn [fst].
    pose proof (HE x y Hx Hy Hdisk). lia.
Qed.

(** X17. Registration marks survive the round trip.  For a layout
    declared at 300 dpi, a mark whose disk lies wholly inside the sheet
    is drawn dark by the generator (with or without its noise), so its
    score at the expected position is at least 0.7; as soon as one pixel
    of its ring is lighter than 200 on the sheet the score exceeds 0.7
    and the scanner reports the mark as detected. *)
Theorem generated_mark_detected `{RS : RandomSource} (g : TestGen.TestImageGenerator)
    (layout : template_layout) (answers : gmap string string)
    (add_noise : bool) (s : rng) (m : mark) :
  page_dpi layout = 300 ->
  m ∈ registration_marks layout ->
  let sheet := (TestGen.generate_test_image g layout answers add_noise s).1 in
  let ex := TestScan._mm_to_pixels (mark_x_mm m) 300 in
  let ey := TestScan._mm_to_pixels (mark_y_mm m) 300 in
  let er := TestScan._mm_to_pixels (mark_size_mm m) 300 in
  0 <= er ->
  er <= ex < TestGen.gen_width g - er ->
  er <= ey < TestGen.gen_height g - er ->
  (7 # 10 <= TestScan._is_dark_circle sheet ex ey er)%Q
  /\ ((exists x y,
         (x, y) ∈ ring_pixels sheet ex ey er (Py.int (inject_Z er * (15 # 10)))
         /\ 200 < getpx sheet x y) ->
      is_Some (TestScan.detected_x (TestScan.detect_mark sheet (page_dpi layout) m))).
Proof.
  intros Hdpi Hm sheet ex ey er Hr Hx Hy.
  destruct (generated_marks_inked g layout answers add_noise s m Hm Hr) as [Hd Hink].
  fold sheet in Hd, Hink.
  change (TestGen.mm_to_pixels (mark_x_mm m)) with ex in Hink.
  change (TestGen.mm_to_pixels (mark_y_mm m)) with ey in Hink.
  change (TestGen.mm_to_pixels (mark_size_mm m)) with er in Hink.
  assert (width sheet = TestGen.gen_width g) as Ew by (apply (has_dims_width _ _ _ Hd); lia).
  assert (height sheet = TestGen.gen_height g) as Eh by (apply (has_dims_height _ _ _ Hd); lia).
  set (disk := disk_pixels sheet ex ey er).
  set (ring := ring_pixels sheet ex ey er (Py.int (inject_Z er * (15 # 10)))).
  assert (fraction (count_px sheet (fun v => v <? 128) disk) (Z.of_nat (length disk)) == 1)%Q
    as Hdark.
  { assert ((ex, ey) ∈ disk) as Hc.
    { unfold disk, disk_pixels. apply disk_pixels_elem; [done|]. nia. }
    assert (0 < length disk)%nat as Hpos
      by (destruct disk; [by apply elem_of_nil in Hc | simpl; lia]).
    rewrite count_px_all.
    - unfold fraction, ratio.
      replace (0 <? Z.of_nat (length disk)) with true by (symmetry; lia).
      field. change 0%Q with (inject_Z 0). rewrite inject_Z_injective. lia.
    - intros [x y] Hin. unfold disk, disk_pixels in Hin.
      apply disk_pixels_elem in Hin as (Hx' & Hy' & Hdisk); [|done].
      cbn [fst snd]. rewrite Ew in Hx'. rewrite Eh in Hy'.
      pose proof (Hink x y Hx' Hy' Hdisk). lia. }
  assert (mark_score sheet ex ey er ==
          (7 # 10) + fraction (count_px sheet (fun v => 200 <? v) ring)
                       (Z.of_nat (length ring)) * (3 # 10))%Q as Hscore.
  { unfold mark_score.
    replace (disk_inside sheet ex ey er) with true.
    - fold disk ring. rewrite Hdark. ring.
    - symmetry. unfold disk_inside. rewrite !andb_true_iff. lia. }
  pose proof (fraction_range _ _ (count_px_bounds sheet (fun v => 200 <? v) ring)) as Hlight.
  split.
  - rewrite is_dark_circle_score, Hscore. lra.
  - intros (x & y & Hin & Hw).
    apply (detect_mark_spec sheet (page_dpi layout) m). rewrite Hdpi. fold ex ey er.
    exists 0, 0. split; [repeat constructor|]. split; [repeat constructor|].
    rewrite !Z.add_0_r, Hscore.
    assert (0 < fraction (count_px sheet (fun v => 200 <? v) ring) (Z.of_nat (length ring)))%Q
      as Hpos; [|lra].
    fold ring in Hin.
    assert (0 < count_px sheet (fun v => 200 <? v) ring) as Hcnt.
    { apply list_elem_of_split in Hin as (l1 & l2 & ->).
      rewrite count_px_app, count_px_cons. cbn [fst snd].
      replace (200 <? getpx sheet x y) with true by (symmetry; lia).
      pose proof (count_px_bounds sheet (fun v => 200 <? v) l1).
      pose proof (count_px_bounds sheet (fun v => 200 <? v) l2). lia. }
    pose proof (count_px_bounds sheet (fun v => 200 <? v) ring) as Hb.
    unfold fraction, ratio.
    replace (0 <? Z.of_nat (length ring)) with true by (symmetry; lia).
    apply Qlt_shift_div_l.
    + change 0%Q with (inject_Z 0). rewrite <- Zlt_Qlt. lia.
    + rewrite Qmult_0_l. change 0%Q with (inject_Z 0). rewrite <- Zlt_Qlt. lia.
Qed.

Lemma generated_mark_detected_witness :
  (7 # 10 <= TestScan._is_dark_circle inner_sheet 5 5 2)%Q.
Proof.
  pose proof (generated_mark_detected
    {| TestGen.gen_width := 24; TestGen.gen_height := 24 |}
    {| page_dpi := 300; registration_marks := inner_marks; questions := [] |}
    ∅ false (1 : @rng lcg_random)
    {| mark_x_mm := 5 # 10; mark_y_mm := 5 # 10; mark_size_mm := 2 # 10 |}
    eq_refl ltac:(left)) as H.
  cbv zeta in H.
  refine (proj1 (H _ _ _)).
  - discriminate.
  - split; [discriminate | reflexivity].
  - split; [discriminate | reflexivity].
Defined.

(** * The synthetic mode of the scanner *)

Lemma random_uniform_range `{RS : RandomSource} (a b : Q) (s : rng) :
  (a <= b)%Q -> (a <= (TestScan.random_uniform a b s).1 <= b)%Q.
Proof.
  intros Hab. unfold TestScan.random_uniform.
  pose proof (random_random_range s) as [H0 H1].
  destruct (random_random s) as [r s']. cbn [fst] in *. nra.
Qed.

(** [round(x, 2)] keeps a value between two multiples of 0.01. *)
Lemma round2_between (lo hi : Z) (a b q : Q) :
  (a == inject_Z lo / 100)%Q -> (b == inject_Z hi / 100)%Q ->
  (a <= q <= b)%Q -> (a <= Py.round2 q <= b)%Q.
Proof.
  intros -> -> [Hlo Hhi]. unfold Py.round2. rewrite Qred_correct.
  assert (forall x : Q, x / 100 * 100 == x)%Q as Hk by (intros x; field).
  destruct (round_half_even_between lo hi (q * 100)) as [H1 H2].
  { split.
    - rewrite <- (Hk (inject_Z lo)). apply Qmult_le_compat_r; [done | discriminate].
    - rewrite <- (Hk (inject_Z hi)). apply Qmult_le_compat_r; [done | discriminate]. }
  rewrite Zle_Qle in H1, H2. split.
  - apply Qle_shift_div_l; [reflexivity|]. by rewrite Hk.
  - apply Qle_shift_div_r; [reflexivity|]. by rewrite Hk.
Qed.

Lemma str_replace_length (a b : ascii) (t : string) :
  String.length (TestScan.str_replace a b t) = String.length t.
Proof. induction t as [|c t IH]; [done|]. cbn. by rewrite IH. Qed.

Lemma str_lower_length (t : string) : String.length (TestScan.str_lower t) = String.length t.
Proof. induction t as [|c t IH]; [done|]. cbn. by rewrite IH. Qed.

Lemma str_upper_length (t : string) : String.length (TestScan.str_upper t) = String.length t.
Proof. induction t as [|c t IH]; [done|]. cbn. by rewrite IH. Qed.

Lemma str_drop_last_length (t : string) :
  String.length (TestScan.str_drop_last t) = (String.length t - 1)%nat.
Proof.
  induction t as [|c t IH]; [done|]. destruct t as [|c' t']; [done|].
  cbn [TestScan.str_drop_last String.length] in *. rewrite IH. lia.
Qed.

Lemma str_append_length (t u : string) :
  String.length (t +:+ u) = (String.length t + String.length u)%nat.
Proof.
  induction t as [|c t IH]; [done|].
  change (String c t +:+ u) with (String c (t +:+ u)).
  cbn [String.length]. by rewrite IH.
Qed.

(** X18. [_simulate_ocr_error] returns the text unchanged when its draw
    is 0.3 or more; otherwise it applies one of seven edits, and the
    result is the text with at most one character more or one less:
    the replacements and case changes keep the length, one edit appends
    a blank, one drops the last character of a text longer than one
    character.  On a missing text ([None]) every edit raises. *)
Theorem simulate_ocr_error_length `{RS : RandomSource} (text : option string) (s : rng) :
  let r := (random_random s).1 in
  ((3 # 10 <= r)%Q ->
     TestScan._simulate_ocr_error text s = Some (text, (random_random s).2))
  /\ ((r < 3 # 10)%Q ->
      match text with
      | None => TestScan._simulate_ocr_error text s = None
      | Some t =>
        exists t' s',
          TestScan._simulate_ocr_error text s = Some (Some t', s')
          /\ (String.length t - 1 <= String.length t' <= String.length t + 1)%nat
          /\ (String.length t <= 1 -> String.length t <= String.length t')%nat
      end).
Proof.
  cbv zeta. unfold TestScan._simulate_ocr_error.
  destruct (random_random s) as [r s1]. cbn [fst snd]. split.
  - intros Hr. destruct (Py.ltb r (3 # 10)) eqn:E; [|done].
    apply py_ltb_lt in E. exfalso. by apply (Qlt_not_le _ _ E).
  - intros Hr. apply py_ltb_lt in Hr. rewrite Hr.
    pose proof (random_choice_range (length TestScan.ocr_errors) s1 ltac:(cbn; lia)) as Hi.
    destruct (random_choice (length TestScan.ocr_errors) s1) as [i s2]. cbn [fst] in Hi.
    destruct text as [t|]; [|done]. cbn [mbind option_bind].
    eexists _, _. split; [reflexivity|].
    unfold TestScan.ocr_errors in *. cbn [length] in Hi.
    destruct i as [|[|[|[|[|[|[|i]]]]]]];
      cbn;
      [rewrite str_replace_length; lia
      |rewrite str_replace_length; lia
      |rewrite str_replace_length; lia
      |rewrite str_lower_length; lia
      |rewrite str_upper_length; lia
      |rewrite str_append_length; cbn [String.length]; lia
      |
      |cbn in Hi; lia].
    pose proof (str_drop_last_length t) as Hdrop.
    destruct (String.length t) as [|[|n]] eqn:El; cbv iota; rewrite ?Hdrop, ?El; lia.
Qed.

Lemma simulate_ocr_error_length_witness :
  TestScan._simulate_ocr_error (Some "Paris") (1 : @rng lcg_random)
  = Some (Some "Paris", (random_random (1 : @rng lcg_random)).2).
Proof.
  refine (proj1 (simulate_ocr_error_length (Some "Paris") (1 : @rng lcg_random)) _).
  vm_compute. discriminate.
Defined.

Lemma synthetic_step_spec `{RS : RandomSource}
    (version_questions : list TestScan.synthetic_question) (accuracy : Q)
    (answers : list TestScan.answer) (s : rng) (entry : nat * question_layout) :
  match TestScan.synthetic_step version_questions accuracy (Some (answers, s)) entry with
  | Some (answers', _) =>
    (TestScan.find_question version_questions (question_id entry.2) = None
     /\ answers' = answers)
    \/ exists a,
         answers' = answers ++ [a]
         /\ synthetic_record version_questions entry a
         /\ ((1 <= accuracy)%Q ->
             TestScan.is_choice_type (q_type entry.2) = true
             \/ q_type entry.2 = "short_answer" ->
             (TestScan.find_question version_questions (question_id entry.2)
              ≫= TestScan.sq_correct_answer) = TestScan.extracted_answer a
             /\ (75 # 100 <= TestScan.confidence a)%Q)
  | None =>
    q_type entry.2 = "short_answer"
    /\ (exists question_data,
          TestScan.find_question version_questions (question_id entry.2)
            = Some question_data
          /\ TestScan.sq_correct_answer question_data = None)
    /\ (accuracy < 1)%Q
  end.
Proof.
  destruct entry as [i lq]. unfold TestScan.synthetic_step, synthetic_record.
  cbn [mbind option_bind fst snd].
  destruct (TestScan.find_question version_questions (question_id lq)) as [qd|] eqn:Ef;
    [|by left].
  pose proof (random_random_range s) as [Hr0 Hr1].
  destruct (random_random s) as [r s1]. cbn [fst] in Hr0, Hr1.
  assert (Py.ltb r accuracy = false -> (accuracy < 1)%Q) as Hacc.
  { intros E. apply Qnot_le_lt. intros Hle.
    assert (r < accuracy)%Q as Hlt by lra. apply py_ltb_lt in Hlt. congruence. }
  destruct (TestScan.is_choice_type (q_type lq)) eqn:Ec.
  - (* choice types *)
    destruct (Py.ltb r accuracy) eqn:Eacc.
    + pose proof (random_uniform_range (85 # 100) (99 # 100) s1 ltac:(discriminate)) as Hu.
      destruct (TestScan.random_uniform (85 # 100) (99 # 100) s1) as [c s2]. cbn [fst] in Hu.
      right. eexists. split; [reflexivity|].
      pose proof (round3_between 850 990 (85 # 100) (99 # 100) c eq_refl eq_refl Hu) as Hc.
      split.
      * exists qd. cbn. split; [done|]. split; [done|]. split; [done|]. split; [done|].
        split; [done|]. split; [done|]. split; [lra|]. by left.
      * intros _ _. cbn. split; [done | lra].
    + set (wrong := map option_label
             (filter (fun opt => Some (option_label opt) <> TestScan.sq_correct_answer qd)
                (default [] (TestScan.sq_options qd)))).
      assert (exists e s2,
        match wrong with
        | [] => (TestScan.sq_correct_answer qd, s1)
        | _ :: _ =>
          let '(k, s) := random_choice (length wrong) s1 in (wrong !! k, s)
        end = (e, s2)
        /\ (e = TestScan.sq_correct_answer qd
            \/ exists l, e = Some l
                 /\ l ∈ map option_label (default [] (TestScan.sq_options qd))
                 /\ Some l <> TestScan.sq_correct_answer qd)) as (e & s2 & -> & He).
      { destruct wrong as [|l ls] eqn:Ew; [by eexists _, _; split; [|left]|].
        pose proof (random_choice_range (length (l :: ls)) s1 ltac:(cbn; lia)) as Hk.
        destruct (random_choice (length (l :: ls)) s1) as [k s2]. cbn [fst] in Hk.
        destruct (lookup_lt_is_Some_2 (l :: ls) k Hk) as [l' Hl'].
        exists (Some l'), s2. split; [by rewrite Hl'|]. right. exists l'. split; [done|].
        apply list_elem_of_lookup_2 in Hl'. rewrite <- Ew in Hl'. unfold wrong in Hl'.
        apply list_elem_of_fmap in Hl' as (o & -> & Ho).
        apply list_elem_of_filter in Ho as [Hne Ho]. split; [|done].
        apply list_elem_of_fmap. by exists o. }
      pose proof (random_uniform_range (70 # 100) (95 # 100) s2 ltac:(discriminate)) as Hu.
      destruct (TestScan.random_uniform (70 # 100) (95 # 100) s2) as [c s3]. cbn [fst] in Hu.
      right. eexists. split; [reflexivity|].
      pose proof (round3_between 700 950 (70 # 100) (95 # 100) c eq_refl eq_refl Hu) as Hc.
      split.
      * exists qd. cbn. split; [done|]. split; [done|]. split; [done|]. split; [done|].
        split; [done|]. split; [done|]. split; [lra | done].
      * intros Hone. specialize (Hacc eq_refl). exfalso. lra.
  - destruct (String.eqb (q_type lq) "short_answer") eqn:Es.
    + (* short answers *)
      apply String.eqb_eq in Es.
      destruct (Py.ltb r accuracy) eqn:Eacc.
      * pose proof (random_uniform_range (75 # 100) (95 # 100) s1 ltac:(discriminate)) as Hu.
        destruct (TestScan.random_uniform (75 # 100) (95 # 100) s1) as [c s2]. cbn [fst] in Hu.
        cbn [mbind option_bind].
        right. eexists. split; [reflexivity|].
        pose proof (round3_between 750 950 (75 # 100) (95 # 100) c eq_refl eq_refl Hu) as Hc.
        split.
        -- exists qd. cbn. split; [done|]. split; [done|]. split; [done|]. split; [done|].
           split; [done|]. split; [done|]. lra.
        -- intros _ _. cbn. split; [done | lra].
      * destruct (TestScan._simulate_ocr_error (TestScan.sq_correct_answer qd) s1)
          as [[e s2]|] eqn:Eerr; cbn [mbind option_bind].
        -- pose proof (random_uniform_range (60 # 100) (85 # 100) s2 ltac:(discriminate)) as Hu.
           destruct (TestScan.random_uniform (60 # 100) (85 # 100) s2) as [c s3].
           cbn [fst] in Hu. cbn [mbind option_bind].
           right. eexists. split; [reflexivity|].
           pose proof (round3_between 600 850 (60 # 100) (85 # 100) c eq_refl eq_refl Hu) as Hc.
           split.
           ++ exists qd. cbn. split; [done|]. split; [done|]. split; [done|]. split; [done|].
              split; [done|]. split; [done|]. lra.
           ++ intros Hone. specialize (Hacc eq_refl). exfalso. lra.
        -- split; [done|]. split; [|by apply Hacc]. exists qd. split; [done|].
           unfold TestScan._simulate_ocr_error in Eerr.
           destruct (random_random s1) as [r' s1'].
           destruct (Py.ltb r' (3 # 10)); [|done].
           destruct (random_choice _ s1') as [k s2].
           by destruct (TestScan.sq_correct_answer qd).
    + (* essay and other types *)
      right. eexists. split; [reflexivity|]. split.
      * exists qd. cbn. done.
      * intros _ [Hc | Hs]; [congruence|]. apply String.eqb_neq in Es. done.
Qed.

Lemma synthetic_loop `{RS : RandomSource}
    (version_questions : list TestScan.synthetic_question) (accuracy : Q)
    (entries : list (nat * question_layout)) (answers : list TestScan.answer) (s : rng) :
  match fold_left (TestScan.synthetic_step version_questions accuracy) entries
          (Some (answers, s)) with
  | Some (answers', _) =>
    exists new,
      answers' = answers ++ new
      /\ Forall2 (synthetic_record version_questions)
           (filter (fun e => is_Some (TestScan.find_question version_questions
                                        (question_id e.2))) entries) new
      /\ ((1 <= accuracy)%Q ->
          Forall (fun a =>
            TestScan.is_choice_type (TestScan.ans_question_type a) = true
            \/ TestScan.ans_question_type a = "short_answer" ->
            (TestScan.find_question version_questions (TestScan.ans_question_id a)
             ≫= TestScan.sq_correct_answer) = TestScan.extracted_answer a
            /\ (75 # 100 <= TestScan.confidence a)%Q) new)
  | None =>
    (accuracy < 1)%Q
    /\ exists e, e ∈ entries /\ q_type e.2 = "short_answer"
         /\ exists question_data,
              TestScan.find_question version_questions (question_id e.2)
                = Some question_data
              /\ TestScan.sq_correct_answer question_data = None
  end.
Proof.
  revert answers s. induction entries as [|e entries IH]; intros answers s.
  - cbn. exists []. rewrite app_nil_r. split; [done|]. split; constructor.
  - cbn [fold_left].
    pose proof (synthetic_step_spec version_questions accuracy answers s e) as He.
    destruct (TestScan.synthetic_step version_questions accuracy (Some (answers, s)) e)
      as [[answers1 s1]|].
    + specialize (IH answers1 s1).
      destruct (fold_left _ entries (Some (answers1, s1))) as [[answers2 s2]|].
      * destruct IH as (new & -> & Hrec & Hacc).
        destruct He as [[Hnone ->] | (a & -> & Ha & Hax)].
        -- exists new. split; [done|]. split; [|done].
           rewrite filter_cons_False; [done|]. rewrite Hnone. by intros [? ?].
        -- exists (a :: new). split; [by rewrite <- app_assoc|]. split.
           ++ rewrite filter_cons_True; [by constructor|].
              destruct Ha as (qd & -> & _). by eexists.
           ++ intros Hone. constructor; [|by apply Hacc].
              destruct Ha as (qd & Hf & Hid & Hty & _). rewrite Hid, Hty. by apply Hax.
      * destruct IH as (Hlt & e' & Hin & Hbad). split; [done|]. exists e'.
        split; [by right | done].
    + destruct He as (Hs & Hbad & Hlt).
      assert (forall l, fold_left (TestScan.synthetic_step version_questions accuracy) l None
                        = None) as -> by (induction l; [done | by cbn]).
      split; [done|]. exists e. split; [left | done].
Qed.

(** X19. The synthetic mode.  [scan_synthetic] reads no image: it
    walks the questions of the layout, skips those without a question of
    the same id in the version (all of them when the version is
    unknown), and records for each other one an answer with the id and
    type of the layout record and the number of the version's question
    (the position in the layout plus one when it has none); the
    rectification report always says 4 of 4 markers and "applied", the
    identification repeats the ids given, and the skew angle lies in
    [-2, 2].  The only failure is a short-answer question without a
    correct answer on which an OCR error is drawn. *)
Theorem scan_synthetic_records `{RS : RandomSource} (ck : TestScan.clock)
    (student_id version_id : string) (layout : template_layout)
    (versions : gmap string (list TestScan.synthetic_question))
    (accuracy : Q) (s : rng) :
  let version_questions := default [] (versions !! version_id) in
  match TestScan.scan_synthetic ck student_id version_id layout versions accuracy s with
  | Some (result, skew_angle, _) =>
    Forall2 (synthetic_record version_questions)
      (filter (fun e => is_Some (TestScan.find_question version_questions (question_id e.2)))
         (imap (fun i layout_q => (i, layout_q)) (questions layout)))
      (TestScan.result_answers result)
    /\ (versions !! version_id = None -> TestScan.result_answers result = [])
    /\ TestScan.result_rectification result
       = {| TestScan.markers_detected := 4; TestScan.markers_expected := 4;
            TestScan.rectification_applied := true |}
    /\ TestScan.ident_version_id (TestScan.result_identification result) = version_id
    /\ TestScan.ident_student_id (TestScan.result_identification result) = student_id
    /\ (-2 <= skew_angle <= 2)%Q
  | None =>
    (accuracy < 1)%Q
    /\ exists layout_q, layout_q ∈ questions layout
         /\ q_type layout_q = "short_answer"
         /\ exists question_data,
              TestScan.find_question version_questions (question_id layout_q)
                = Some question_data
              /\ TestScan.sq_correct_answer question_data = None
  end.
Proof.
  intros version_questions. unfold TestScan.scan_synthetic. fold version_questions.
  pose proof (synthetic_loop version_questions accuracy
                (imap (fun i layout_q => (i, layout_q)) (questions layout)) [] s) as Hloop.
  destruct (fold_left _ _ (Some ([], s))) as [[answers s1]|]; cbn [mbind option_bind].
  - destruct Hloop as (new & -> & Hrec & _). cbn [app].
    pose proof (random_uniform_range (-2) 2 s1 ltac:(discriminate)) as Hu.
    destruct (TestScan.random_uniform (-2) 2 s1) as [skew s2]. cbn [fst] in Hu.
    cbn [TestScan.result_answers TestScan.result_rectification
         TestScan.result_identification TestScan.ident_version_id
         TestScan.ident_student_id].
    split; [done|]. split; [|split; [done|]; split; [done|]; split; [done|]].
    + intros Hnone. destruct Hrec as [|e a es new' (qd & Hf & _) _]; [done|].
      unfold version_questions in Hf. rewrite Hnone in Hf. done.
    + apply (round2_between (-200) 200); [reflexivity | reflexivity | done].
  - destruct Hloop as (Hlt & [i lq] & Hin & Hs & Hbad). split; [done|].
    exists lq. split; [|done].
    apply elem_of_lookup_imap in Hin as (i' & lq' & [= -> ->] & Hl).
    by apply list_elem_of_lookup_2 in Hl.
Qed.

(** X20. With an accuracy of at least 1 the synthetic mode never fails
    and never errs: every answer to a choice or short-answer question
    is the correct answer of the first question of that id in the
    version, with a confidence of at least 0.75. *)
Theorem scan_synthetic_accurate `{RS : RandomSource} (ck : TestScan.clock)
    (student_id version_id : string) (layout : template_layout)
    (versions : gmap string (list TestScan.synthetic_question))
    (accuracy : Q) (s : rng) :
  (1 <= accuracy)%Q ->
  let version_questions := default [] (versions !! version_id) in
  exists result skew_angle s',
    TestScan.scan_synthetic ck student_id version_id layout versions accuracy s
      = Some (result, skew_angle, s')
    /\ forall a, a ∈ TestScan.result_answers result ->
         TestScan.is_choice_type (TestScan.ans_question_type a) = true
         \/ TestScan.ans_question_type a = "short_answer" ->
         exists question_data,
           TestScan.find_question version_questions (TestScan.ans_question_id a)
             = Some question_data
           /\ TestScan.extracted_answer a = TestScan.sq_correct_answer question_data
           /\ (75 # 100 <= TestScan.confidence a <= 99 # 100)%Q.
Proof.
  intros Hone version_questions. unfold TestScan.scan_synthetic. fold version_questions.
  pose proof (synthetic_loop version_questions accuracy
                (imap (fun i layout_q => (i, layout_q)) (questions layout)) [] s) as Hloop.
  destruct (fold_left _ _ (Some ([], s))) as [[answers s1]|]; cbn [mbind option_bind].
  - destruct Hloop as (new & -> & Hrec & Hacc). cbn [app]. specialize (Hacc Hone).
    destruct (TestScan.random_uniform (-2) 2 s1) as [skew s2].
    eexists _, _, _. split; [reflexivity|]. cbn [TestScan.result_answers].
    intros a Hin Hty.
    destruct (proj1 (Forall_forall _ _) Hacc a Hin Hty) as [Hex Hconf].
    apply list_elem_of_lookup_1 in Hin as [k Hk].
    destruct (Forall2_lookup_r _ _ _ _ _ Hrec Hk) as (e & He & qd & Hf & Hid & Hty' & _ & Hrest).
    rewrite <- Hid in Hf. exists qd. split; [done|].
    rewrite Hf in Hex. cbn in Hex. split; [done|]. split; [done|].
    rewrite <- Hty' in Hrest.
    destruct Hty as [Hc | Hs].
    + rewrite Hc in Hrest. tauto.
    + rewrite Hs in Hrest. cbn in Hrest.
      destruct Hrest as (_ & _ & Hr). lra.
  - destruct Hloop as (Hlt & _). exfalso. lra.
Qed.

Lemma scan_synthetic_accurate_witness :
  exists result skew_angle s',
    TestScan.scan_synthetic clock_morning "s001" "v1" bare_layout
      {[ "v1" := [ {| TestScan.sq_question_id := "q1";
                      TestScan.sq_correct_answer := Some "A";
                      TestScan.sq_question_number := Some 1;
                      TestScan.sq_options := None |} ] ]}
      1 (1 : @rng lcg_random)
    = Some (result, skew_angle, s').
Proof.
  destruct (scan_synthetic_accurate clock_morning "s001" "v1" bare_layout
      {[ "v1" := [ {| TestScan.sq_question_id := "q1";
                      TestScan.sq_correct_answer := Some "A";
                      TestScan.sq_question_number := Some 1;
                      TestScan.sq_options := None |} ] ]}
      1 (1 : @rng lcg_random)) as (result & skew & s' & E & _).
  - discriminate.
  - exists result, skew, s'. exact E.
Defined.

(** * The conversion and the sparse file *)

Lemma py_int_monotone (p q : Q) : (p <= q)%Q -> Py.int p <= Py.int q.
Proof.
  intros Hpq. destruct (Qlt_le_dec p 0) as [Hp | Hp]; destruct (Qlt_le_dec q 0) as [Hq | Hq].
  - rewrite !py_int_ceiling by lra. by apply Qceiling_resp_le.
  - pose proof (py_int_negative p Hp). rewrite (py_int_floor q Hq).
    assert (0 <= Qfloor q); [|lia].
    change 0 with (Qfloor 0). by apply Qfloor_resp_le.
  - lra.
  - rewrite !py_int_floor by lra. by apply Qfloor_resp_le.
Qed.

Lemma py_int_opp (q : Q) : Py.int (- q) = - Py.int q.
Proof. unfold Py.int. cbn. apply Z.quot_opp_l. lia. Qed.

(** X21. The millimetre-to-pixel conversion keeps the order of
    positions (a larger length never gets fewer pixels) and is
    symmetric about zero ([mm_to_px(-m) = -mm_to_px(m)], truncation
    being toward zero), for any positive resolution; the generator's
    conversion is the scanner's at 300 dpi. *)
Theorem mm_to_pixels_monotone (m1 m2 : Q) (d : Z) :
  0 < d ->
  ((m1 <= m2)%Q ->
     TestScan._mm_to_pixels m1 d <= TestScan._mm_to_pixels m2 d
     /\ TestGen.mm_to_pixels m1 <= TestGen.mm_to_pixels m2)
  /\ TestScan._mm_to_pixels (- m1) d = - TestScan._mm_to_pixels m1 d
  /\ TestGen.mm_to_pixels (- m1) = - TestGen.mm_to_pixels m1.
Proof.
  intros Hd.
  assert (forall (k : Z) (a b : Q), 0 < k -> (a <= b)%Q ->
            (a * inject_Z k / (254 # 10) <= b * inject_Z k / (254 # 10))%Q) as Hmono.
  { intros k a b Hk Hab.
    assert (0 < inject_Z k)%Q by (change 0%Q with (inject_Z 0); rewrite <- Zlt_Qlt; lia).
    apply Qle_shift_div_l; [reflexivity|].
    setoid_replace (a * inject_Z k / (254 # 10) * (254 # 10))%Q with (a * inject_Z k)%Q
      using relation Qeq by field.
    apply Qmult_le_compat_r; [done | lra]. }
  assert (forall (k : Z) (a : Q),
            Py.int (- a * inject_Z k / (254 # 10)) = - Py.int (a * inject_Z k / (254 # 10)))
    as Hopp.
  { intros k a. rewrite <- py_int_opp. apply py_int_proper. field. }
  split; [|split].
  - intros Hm. split.
    + apply py_int_monotone. by apply Hmono.
    + apply py_int_monotone. by apply Hmono.
  - apply Hopp.
  - apply Hopp.
Qed.

Lemma mm_to_pixels_monotone_witness :
  TestScan._mm_to_pixels 10 300 <= TestScan._mm_to_pixels (254 # 10) 300.
Proof.
  exact (proj1 (proj1 (mm_to_pixels_monotone 10 (254 # 10) 300 eq_refl) ltac:(discriminate))).
Defined.

(** The entries [save_compact] writes for a stretch of a row. *)
Lemma save_compact_row_count (img : image) (row : list Z) (y : nat) (vals : list Z) (x0 : nat) :
  img !! y = Some row ->
  (forall j v, vals !! j = Some v -> row !! (x0 + j)%nat = Some v) ->
  Forall (fun v => v <= 255) vals ->
  length (((fun i : nat => Z.of_nat (x0 + i)) <$> seq 0 (length vals)) ≫= fun x =>
            if getpx img x (Z.of_nat y) <? 255
            then [(x, Z.of_nat y, getpx img x (Z.of_nat y))] else [])
  = length (filter (fun v => v <> 255) vals).
Proof.
  intros Hrow. revert x0. induction vals as [|v vals IH]; intros x0 Hvals Hle; [done|].
  cbn [length seq fmap list_fmap]. rewrite bind_cons, length_app.
  apply Forall_cons in Hle as [Hv Hle].
  assert (getpx img (Z.of_nat (x0 + 0)) (Z.of_nat y) = v) as ->.
  { unfold getpx. rewrite !Nat2Z.id, Hrow. cbn. by rewrite (Hvals 0%nat v). }
  rewrite <- fmap_S_seq, <- list_fmap_compose.
  rewrite (list_fmap_ext _ (fun i : nat => Z.of_nat (S x0 + i)) (seq 0 (length vals)))
    by (intros; cbn; f_equal; lia).
  rewrite IH; [|intros j v' Hj; rewrite <- (Hvals (S j) v' Hj); f_equal; lia | done].
  rewrite filter_cons.
  destruct (decide (v <> 255)) as [Hne | Heq].
  - replace (v <? 255) with true by (symmetry; lia). done.
  - replace (v <? 255) with false by (symmetry; lia). done.
Qed.

(** The entries [save_compact] writes for a stretch of rows. *)
Lemma save_compact_rows_count (img : image) (w : Z) (rows : list (list Z)) (y0 : nat) :
  (forall j row, rows !! j = Some row -> img !! (y0 + j)%nat = Some row) ->
  Forall (fun row => length row = Z.to_nat w /\ Forall (fun v => v <= 255) row) rows ->
  length (((fun i : nat => Z.of_nat (y0 + i)) <$> seq 0 (length rows)) ≫= fun y =>
            Py.range 0 w ≫= fun x =>
              if getpx img x y <? 255 then [(x, y, getpx img x y)] else [])
  = length (filter (fun v => v <> 255) (concat rows)).
Proof.
  revert y0. induction rows as [|row rows IH]; intros y0 Hrows Hall; [done|].
  cbn [length seq fmap list_fmap concat]. rewrite bind_cons, length_app, filter_app, length_app.
  apply Forall_cons in Hall as [[Hlen Hle] Hall].
  rewrite <- fmap_S_seq, <- list_fmap_compose.
  rewrite (list_fmap_ext _ (fun i : nat => Z.of_nat (S y0 + i)) (seq 0 (length rows)))
    by (intros; cbn; f_equal; lia).
  rewrite IH; [|intros j r Hj; rewrite <- (Hrows (S j) r Hj); f_equal; lia | done].
  f_equal.
  pose proof (save_compact_row_count img row (y0 + 0) row 0
                (Hrows 0%nat row eq_refl) (fun j v Hj => Hj) Hle) as Hr.
  rewrite <- Hr. unfold Py.range. rewrite Z.sub_0_r, Hlen. f_equal.
Qed.

(** X22. What [save_compact] writes: the dimensions of the generator,
    the format tag "sparse", and one entry [(x, y, value)] for each
    pixel of the sheet darker than 255 and no other, each position at
    most once; for a canvas the number of entries is the number of
    non-white pixels. *)
Theorem save_compact_listing (g : TestGen.TestImageGenerator) (img : image) :
  is_canvas img (TestGen.gen_width g) (TestGen.gen_height g) ->
  let data := TestGen.save_compact g img in
  sp_width data = TestGen.gen_width g
  /\ sp_height data = TestGen.gen_height g
  /\ sp_format data = "sparse"
  /\ (forall x y v, (x, y, v) ∈ sp_pixels data <->
        0 <= x < TestGen.gen_width g /\ 0 <= y < TestGen.gen_height g
        /\ v = getpx img x y /\ v < 255)
  /\ NoDup (map (fun p : Z * Z * Z => p.1) (sp_pixels data))
  /\ Z.of_nat (length (sp_pixels data)) = nonwhite_count img.
Proof.
  intros [[Hl Hrows] Hvals] data.
  split; [done|]. split; [done|]. split; [done|].
  split; [intros x y v; apply save_compact_elem|].
  split.
  - apply NoDup_fmap_2_strong.
    + intros [[x1 y1] v1] [[x2 y2] v2] H1 H2 Heq. cbn in Heq. simplify_eq.
      apply save_compact_elem in H1 as (_ & _ & -> & _).
      apply save_compact_elem in H2 as (_ & _ & -> & _). done.
    + unfold data. rewrite save_compact_pixels.
      apply NoDup_bind; [| |apply range_NoDup].
      * intros y1 y2 [[a1 b1] c1] _ _ H1 H2.
        apply list_elem_of_bind in H1 as (x1 & H1 & _).
        apply list_elem_of_bind in H2 as (x2 & H2 & _).
        destruct (getpx img x1 y1 <? 255); [|by apply elem_of_nil in H1].
        destruct (getpx img x2 y2 <? 255); [|by apply elem_of_nil in H2].
        apply list_elem_of_singleton in H1, H2. congruence.
      * intros y _. apply NoDup_bind; [| |apply range_NoDup].
        -- intros x1 x2 [[a1 b1] c1] _ _ H1 H2.
           destruct (getpx img x1 y <? 255); [|by apply elem_of_nil in H1].
           destruct (getpx img x2 y <? 255); [|by apply elem_of_nil in H2].
           apply list_elem_of_singleton in H1, H2. congruence.
        -- intros x _. destruct (getpx img x y <? 255);
             [apply NoDup_singleton | apply NoDup_nil_2].
  - unfold data, nonwhite_count. rewrite save_compact_pixels. f_equal.
    assert (Py.range 0 (TestGen.gen_height g)
            = (fun i : nat => Z.of_nat (0 + i)) <$> seq 0 (length img)) as ->.
    { unfold Py.range. rewrite Z.sub_0_r, Hl. apply list_fmap_ext. intros; lia. }
    apply (save_compact_rows_count img (TestGen.gen_width g) img 0).
    + intros j row Hj. done.
    + apply Forall_forall. intros row Hin. split.
      * by apply (proj1 (Forall_forall _ _) Hrows).
      * pose proof (proj1 (Forall_forall _ _) Hvals row Hin) as Hr.
        eapply Forall_impl; [exact Hr|]. intros v Hv. cbn in Hv. lia.
Qed.

Lemma save_compact_listing_witness :
  length (sp_pixels (TestGen.save_compact {| TestGen.gen_width := 3; TestGen.gen_height := 2 |}
                       [[255; 0; 255]; [50; 255; 80]])) = 3%nat.
Proof.
  assert (is_canvas [[255; 0; 255]; [50; 255; 80]]
            (TestGen.gen_width {| TestGen.gen_width := 3; TestGen.gen_height := 2 |})
            (TestGen.gen_height {| TestGen.gen_width := 3; TestGen.gen_height := 2 |})) as Hc.
  { split; [split; [reflexivity | repeat constructor] | repeat constructor; lia]. }
  destruct (save_compact_listing _ _ Hc) as (_ & _ & _ & _ & _ & Hn).
  apply Nat2Z.inj. exact Hn.
Defined.

(** * Further properties of the classifier and of [scan_image] *)

Lemma window_pixels_same_size (img img' : image) (cx cy r : Z) (inside : Z -> Z -> bool) :
  width img' = width img -> height img' = height img ->
  window_pixels img' cx cy r inside = window_pixels img cx cy r inside.
Proof. intros Hw Hh. unfold window_pixels. by rewrite Hw, Hh. Qed.

Lemma count_px_ext (img img' : image) (hit : Z -> bool) (ps : list (Z * Z)) :
  (forall p, p ∈ ps -> getpx img' p.1 p.2 = getpx img p.1 p.2) ->
  count_px img' hit ps = count_px img hit ps.
Proof.
  induction ps as [|p ps IH]; intros H; [done|].
  rewrite !count_px_cons, (H p) by left. rewrite IH; [done|].
  intros q Hq. apply H. by right.
Qed.

(** X23. [detect_bubble_fill] looks at nothing but the dimensions of
    the image and the pixels of the sampled disk: two images of the same
    dimensions that agree on the pixels within [max(1, radius - 2)] of
    the centre get the same verdict and the same confidence, whatever
    they hold elsewhere. *)
Theorem detect_bubble_fill_local (img img' : image) (cx cy radius : Z) (threshold : Q) :
  rectangular img -> rectangular img' ->
  width img' = width img -> height img' = height img ->
  (forall x y, 0 <= x < width img -> 0 <= y < height img ->
     (x - cx) * (x - cx) + (y - cy) * (y - cy)
       <= Z.max 1 (radius - 2) * Z.max 1 (radius - 2) ->
     getpx img' x y = getpx img x y) ->
  TestScan.detect_bubble_fill img' cx cy radius threshold
  = TestScan.detect_bubble_fill img cx cy radius threshold.
Proof.
  intros _ _ Hw Hh Hsame. unfold TestScan.detect_bubble_fill. rewrite Hw, Hh.
  destruct (_ || _ || _ || _); [done|].
  rewrite !count_window_spec.
  rewrite (window_pixels_same_size img img') by done.
  rewrite (count_px_ext img img'); [done|].
  intros [x y] Hin. apply disk_pixels_elem in Hin as (Hx & Hy & Hd); [|lia].
  by apply Hsame.
Qed.

Lemma detect_bubble_fill_local_witness :
  TestScan.detect_bubble_fill [[0; 0; 255]; [0; 0; 255]; [255; 255; 7]] 0 0 3 (3 # 10)
  = TestScan.detect_bubble_fill [[0; 0; 255]; [0; 0; 255]; [255; 255; 255]] 0 0 3 (3 # 10).
Proof.
  apply detect_bubble_fill_local.
  - repeat constructor.
  - repeat constructor.
  - reflexivity.
  - reflexivity.
  - intros x y Hx Hy Hd. change (0 <= x < 3) in Hx. change (0 <= y < 3) in Hy.
    change (Z.max 1 (3 - 2)) with 1 in Hd.
    assert (x = 0 \/ x = 1 \/ x = 2) as Hx' by lia.
    assert (y = 0 \/ y = 1 \/ y = 2) as Hy' by lia.
    destruct Hx' as [-> | [-> | ->]], Hy' as [-> | [-> | ->]]; try reflexivity; lia.
Defined.

(** X24. Lowering the threshold never turns a filled bubble into an
    unfilled one: a field judged filled at a threshold is judged filled
    at every smaller positive threshold. *)
Theorem detect_bubble_fill_threshold (img : image) (cx cy radius : Z) (t t' : Q) :
  rectangular img ->
  (0 < t')%Q -> (t' <= t)%Q ->
  forall c,
    TestScan.detect_bubble_fill img cx cy radius t = Some (true, c) ->
    TestScan.detect_bubble_fill img cx cy radius t' = Some (true, (99 # 100)%Q).
Proof.
  intros _ Ht' Hle c. unfold TestScan.detect_bubble_fill.
  destruct (_ || _ || _ || _); [done|].
  destruct (TestScan.count_window _ _ _ _ _ _) as [dark total].
  destruct (total =? 0) eqn:Et; [done|].
  set (fill_ratio := (inject_Z dark / inject_Z total)%Q).
  destruct (Py.geb fill_ratio t) eqn:E.
  - intros _. apply py_geb_ge in E.
    assert (Py.geb fill_ratio t' = true) as -> by (apply py_geb_ge; lra).
    rewrite py_div_nonzero by lra. cbn [mbind option_bind]. do 2 f_equal.
    apply Qmin_left. apply Qle_shift_div_l; [done | lra].
  - destruct (Py.div fill_ratio t); [|done]. cbn. discriminate.
Qed.

Lemma detect_bubble_fill_threshold_witness :
  TestScan.detect_bubble_fill [[0; 0; 255]; [0; 0; 255]; [255; 255; 255]] 1 1 3 (1 # 5)
  = Some (true, (99 # 100)%Q).
Proof.
  apply (detect_bubble_fill_threshold _ 1 1 3 (3 # 10) (1 # 5)) with (c := (99 # 100)%Q).
  - repeat constructor.
  - reflexivity.
  - discriminate.
  - reflexivity.
Defined.


(** * Marks beyond the sheet *)

Lemma mark_outside_undetected (img : image) (dpi : Z) (m : mark) :
  let ex := TestScan._mm_to_pixels (mark_x_mm m) dpi in
  let ey := TestScan._mm_to_pixels (mark_y_mm m) dpi in
  let er := TestScan._mm_to_pixels (mark_size_mm m) dpi in
  width img - er <= ex - 20 \/ height img - er <= ey - 20
  \/ ex + 20 < er \/ ey + 20 < er ->
  TestScan.detected_x (TestScan.detect_mark img dpi m) = None
  /\ TestScan.detected_y (TestScan.detect_mark img dpi m) = None
  /\ TestScan.mark_confidence (TestScan.detect_mark img dpi m) = 0%Q.
Proof.
  intros ex ey er Hout.
  pose proof (detect_mark_cases img dpi m) as Hc. cbv zeta in Hc. fold ex ey er in Hc.
  destruct (TestScan.detected_x (TestScan.detect_mark img dpi m)) as [x|];
    destruct (TestScan.detected_y (TestScan.detect_mark img dpi m)) as [y|];
    try done; [|tauto].
  exfalso. destruct Hc as ((Hx & _) & (Hy & _) & Hconf & [Hgt _] & _).
  rewrite Hconf in Hgt. unfold TestScan._is_dark_circle in Hgt.
  replace ((x <? er) || (y <? er) || (width img - er <=? x) || (height img - er <=? y))
    with true in Hgt; [by apply (Qlt_irrefl 0); eapply Qlt_trans; [|exact Hgt]|].
  symmetry. rewrite !orb_true_iff. lia.
Qed.

(** X26. A mark expected too far beyond an edge is never found: when
    every candidate of the search (within 20 pixels of the expected
    position) has its disk reaching past the right or bottom edge, or
    past the left or top edge, the mark is reported undetected with
    confidence 0, whatever the image holds. *)
Theorem mark_outside_never_detected (img : image) (dpi : Z) (m : mark) :
  rectangular img ->
  let ex := TestScan._mm_to_pixels (mark_x_mm m) dpi in
  let ey := TestScan._mm_to_pixels (mark_y_mm m) dpi in
  let er := TestScan._mm_to_pixels (mark_size_mm m) dpi in
  width img - er <= ex - 20 \/ height img - er <= ey - 20
  \/ ex + 20 < er \/ ey + 20 < er ->
  TestScan.detected_x (TestScan.detect_mark img dpi m) = None
  /\ TestScan.detected_y (TestScan.detect_mark img dpi m) = None
  /\ TestScan.mark_confidence (TestScan.detect_mark img dpi m) = 0%Q.
Proof. intros _. apply mark_outside_undetected. Qed.

Lemma mark_outside_never_detected_witness :
  TestScan.detected_x
    (TestScan.detect_mark corner_sheet 300
       {| mark_x_mm := 3; mark_y_mm := 1 # 10; mark_size_mm := 2 # 10 |}) = None.
Proof.
  assert (rectangular corner_sheet) as Hr by (vm_compute; repeat constructor).
  refine (proj1 (mark_outside_never_detected corner_sheet 300
                   {| mark_x_mm := 3; mark_y_mm := 1 # 10; mark_size_mm := 2 # 10 |} Hr _)).
  left. vm_compute. discriminate.
Defined.

Lemma count_detected_tail (d : TestScan.detected_mark) (ds : list TestScan.detected_mark) :
  Forall (fun d' => TestScan.detected_x d' = None) ds ->
  TestScan.count_detected (d :: ds) <= 1.
Proof.
  intros Hall. unfold TestScan.count_detected. rewrite filter_cons.
  assert (filter (fun m => is_Some (TestScan.detected_x m)) ds = []) as Hnil.
  { induction Hall as [|d' ds' Hd' _ IH]; [done|].
    rewrite filter_cons_False; [done|]. rewrite Hd'. by intros [? ?]. }
  rewrite Hnil. destruct (decide _); cbn; lia.
Qed.

(** X27. The default sheet and the A4 layout do not fit.  The generator
    draws on 2100 x 2970 pixels at 300 dpi, which is 177.8 x 251.5 mm;
    the A4 layout of docgen expects its marks at x = 200 mm and
    y = 287 mm, pixels 2362 and 3389.  On every image of 2100 x 2970
    pixels read at 300 dpi the three marks beyond the sheet are reported
    undetected, at most one mark is detected and rectification is never
    reported as applied. *)
Theorem a4_marks_off_default_sheet (img : image) (layout : template_layout) :
  has_dims img 2100 2970 ->
  page_dpi layout = 300 ->
  registration_marks layout = a4_marks ->
  TestScan._mm_to_pixels (210 - 10) 300 = 2362
  /\ TestScan._mm_to_pixels (297 - 10) 300 = 3389
  /\ map TestScan.detected_x
       (drop 1 (fst (TestScan.detect_registration_marks img a4_marks 300)))
     = [None; None; None]
  /\ snd (TestScan.detect_registration_marks img a4_marks 300) = false
  /\ exists answers meta,
       TestScan.extract_answers img layout = Some (answers, meta)
       /\ TestScan.markers_expected (TestScan.meta_rectification meta) = 4
       /\ TestScan.markers_detected (TestScan.meta_rectification meta) <= 1
       /\ TestScan.rectification_applied (TestScan.meta_rectification meta) = false.
Proof.
  intros Hd Hdpi Hmarks.
  assert (width img = 2100) as Hw by (apply (has_dims_width _ _ _ Hd); lia).
  assert (height img = 2970) as Hh by (apply (has_dims_height _ _ _ Hd); lia).
  assert (forall m, m ∈ drop 1 a4_marks ->
            TestScan.detected_x (TestScan.detect_mark img 300 m) = None) as Hout.
  { intros m Hm. apply mark_outside_undetected. rewrite Hw, Hh.
    cbn [drop a4_marks] in Hm.
    apply elem_of_cons in Hm as [-> | Hm]; [left; vm_compute; discriminate|].
    apply elem_of_cons in Hm as [-> | Hm]; [right; left; vm_compute; discriminate|].
    apply list_elem_of_singleton in Hm as ->. left. vm_compute. discriminate. }
  assert (map TestScan.detected_x
            (drop 1 (fst (TestScan.detect_registration_marks img a4_marks 300)))
          = [None; None; None]) as Hthree.
  { unfold TestScan.detect_registration_marks. cbn [fst a4_marks map drop].
    rewrite !Hout; [done | | |]; cbn [drop a4_marks]; repeat constructor. }
  assert (TestScan.count_detected (map (TestScan.detect_mark img 300) a4_marks) <= 1) as Hcount.
  { cbn [a4_marks map]. apply count_detected_tail.
    repeat (constructor; [apply Hout; cbn [drop a4_marks]; repeat constructor|]).
    constructor. }
  split; [reflexivity|]. split; [reflexivity|]. split; [done|].
  split; [unfold TestScan.detect_registration_marks; cbn [snd]; lia|].
  destruct (extract_loop img (page_dpi layout) (questions layout) []) as (ans & E & _).
  unfold TestScan.extract_answers, TestScan.detect_registration_marks.
  rewrite E, Hdpi, Hmarks. cbn [mbind option_bind].
  eexists _, _. split; [reflexivity|].
  cbn [TestScan.meta_rectification TestScan.markers_expected TestScan.markers_detected
       TestScan.rectification_applied].
  split; [reflexivity|]. split; [done | lia].
Qed.

Lemma a4_marks_off_default_sheet_witness :
  snd (TestScan.detect_registration_marks (white 2100 2970) a4_marks 300) = false.
Proof.
  refine (proj1 (proj2 (proj2 (proj2
    (a4_marks_off_default_sheet (white 2100 2970)
       {| page_dpi := 300; registration_marks := a4_marks; questions := [] |}
       (white_has_dims 2100 2970) eq_refl eq_refl))))).
Defined.
